(** * Knowbook Canvas: signup orchestration and API-key lifecycle

    A shallow embedding of the server-side logic of the web application:

    - [lib/knowbook-api.ts]            the Backend API client,
    - [lib/supabase/user-metadata.ts]  the credential store adapter,
    - [components/auth/signup/actions.ts]  the signup server action,
    - [app/api/knowbook/connect/route.ts]  the connect endpoint,

    followed by the properties of these functions.

    The code is asynchronous but strictly sequential (every call is awaited
    before the next one starts), so an [async] function is embedded as a
    computation in a state-and-exception monad [M]: the state holds the auth
    provider's user table, the number of clock reads and the chronological
    trace of outside calls; exceptions are JavaScript's thrown values.  What
    the outside world answers (the backend over [fetch], the auth provider,
    the clock) is read from an environment [Env] that the theorems quantify
    over. *)

From Stdlib Require Import ZArith QArith String Ascii List Lia.
From stdpp Require Import gmap strings.

Local Open Scope string_scope.
Local Open Scope Z_scope.

(** ** JavaScript values and operators used by the code *)

(** The values a metadata field may hold ([[key: string]: any] in
    [UserMetadata]); the code only ever stores strings and [undefined]. *)
Inductive JsVal :=
| JsUndefined
| JsNull
| JsBool (b : bool)
| JsNum (n : Z)
| JsStr (s : string).

#[global] Instance JsVal_eq_dec : EqDecision JsVal.
Proof. solve_decision. Defined.

(** ToBoolean on these values. *)
Definition truthy (v : JsVal) : bool :=
  match v with
  | JsUndefined | JsNull => false
  | JsBool b => b
  | JsNum n => negb (n =? 0)
  | JsStr s => negb (String.eqb s EmptyString)
  end.

(** An optional string parameter or field ([x?: string]): [None] is
    [undefined]. *)
Definition of_opt (o : option string) : JsVal :=
  match o with
  | Some s => JsStr s
  | None => JsUndefined
  end.

(** Truthiness of an optional string: defined and not empty. *)
Definition truthy_str (o : option string) : bool := truthy (of_opt o).

(** [a || b] where [a] is an optional string and [b] a string. *)
Definition or_else (a : option string) (b : string) : string :=
  match a with
  | Some s => if String.eqb s EmptyString then b else s
  | None => b
  end.

(** A property read [obj.k] on an object used as a map: a missing property
    reads as [undefined]. *)
Definition get (obj : gmap string JsVal) (k : string) : JsVal :=
  default JsUndefined (obj !! k).

(** [s.split(sep)] for a one-character separator. The result is never
    empty; without any separator it is the one-element list [[s]]. *)
Fixpoint split (sep : ascii) (s : string) : list string :=
  match s with
  | EmptyString => [EmptyString]
  | String c rest =>
    if Ascii.eqb c sep then EmptyString :: split sep rest
    else match split sep rest with
         | [] => [String c EmptyString]
         | h :: t => String c h :: t
         end
  end.

Definition at_sign : ascii := "@"%char.

(** [email.split('@')[0]]: element 0 always exists. *)
Definition split_at_0 (email : string) : string :=
  match split at_sign email with
  | h :: _ => h
  | [] => EmptyString
  end.

(** [email.split('@')[1]]: [undefined] when the email has no ['@']. *)
Definition split_at_1 (email : string) : option string :=
  match split at_sign email with
  | _ :: d :: _ => Some d
  | _ => None
  end.

(** [`${x}`] for an optional string inside a template literal. *)
Definition template (x : option string) : string :=
  match x with
  | Some s => s
  | None => "undefined"
  end.

(** The runtime's [Date]: [toISOString] of a time value (milliseconds since
    the epoch) and the time value of [new Date(text)], [None] standing for
    an invalid date ([NaN]). *)
Class DateRuntime := {
  toISOString : Z -> string;
  Date_parse : string -> option Z
}.

(** ** Thrown values and outcomes *)

Inductive Exn :=
| KnowbookApiError (message : string) (statusCode : Z) (details : option string)
| JsError (message : string)
| ThrownValue
| NextRedirect (url : string).

(** [error instanceof Error ? error.message : ...]: every thrown value but
    [ThrownValue] is an [Error] instance. *)
Definition error_message (e : Exn) : option string :=
  match e with
  | KnowbookApiError m _ _ => Some m
  | JsError m => Some m
  | ThrownValue => None
  | NextRedirect _ => Some "NEXT_REDIRECT"
  end.

Inductive Outcome (A : Type) :=
| Return (a : A)
| Throw (e : Exn).
Arguments Return {A} a.
Arguments Throw {A} e.

(** ** lib/knowbook-api.ts: wire types *)

Module KnowbookUser.
Record t := mk {
  id : string;
  name : string;
  email : string;
  type : string;
  is_active : bool;
  created_at : string;
  api_key : option string
}.
End KnowbookUser.

Module KnowbookOrganization.
Record t := mk {
  id : string;
  name : string;
  slug : string;
  plan : string;
  max_users : Z;
  max_articles : Z;
  is_active : bool;
  created_at : string;
  updated_at : string
}.
End KnowbookOrganization.

Module OrganizationSignupRequest.
Record t := mk {
  name : string;
  domain : option string;
  plan : option string;
  admin_name : string;
  admin_email : string;
  admin_type : option string
}.
End OrganizationSignupRequest.

Module OrganizationSignupResponse.
Record t := mk {
  organization : KnowbookOrganization.t;
  admin_user : KnowbookUser.t;
  message : string
}.
End OrganizationSignupResponse.

Module ApiError.
Record t := mk {
  error : string;
  detail : option string;
  status_code : Z
}.
End ApiError.

(** The object that [createOrganizationWithAdmin] serialises as the body of
    its POST. *)
Module SignupBody.
Record t := mk {
  name : string;
  domain : option string;
  plan : string;
  admin_name : string;
  admin_email : string;
  admin_type : string
}.
End SignupBody.

(** A [fetch] call: URL and init object. *)
Module Request.
Record t := mk {
  url : string;
  method : string;
  headers : list (string * string);
  body : option SignupBody.t;
  timeout : option Z
}.
End Request.

(** What [await response.json()] gives where the failure path reads it at
    type [ApiError]. The promise rejects when the body is not JSON. For the
    JSON text [null] it resolves to [null], on which reading a property
    throws a [TypeError]. Every other value is read at the declared type
    [ApiError], through its fields [error] and [detail]; a missing [error]
    is [undefined], which [||] treats like the empty string. *)
Inductive ErrorJson :=
| NotJson
| JsonNull
| JsonObject (e : ApiError.t).

(** A [fetch] response. [response.json()] is read by the client at two
    types, [ApiError] on the failure path and [OrganizationSignupResponse]
    on the success path; the success view is [None] when the body is not
    JSON (the promise rejects). *)
Module Response.
Record t := mk {
  status : Z;
  json_error : ErrorJson;
  json_result : option OrganizationSignupResponse.t
}.
(** [response.ok]: the status is in the range 200-299. *)
Definition ok (r : t) : bool := (200 <=? status r) && (status r <=? 299).
End Response.

(** [fetch] either resolves to a response or rejects with an [Error]
    (connection failure, abort, timeout) carrying a message. *)
Inductive FetchOutcome :=
| Resolves (r : Response.t)
| Rejects (message : string).

(** ** The auth provider's types *)

Module User.
Record t := mk {
  id : string;
  email : option string;
  user_metadata : gmap string JsVal
}.
End User.

(** Argument of [supabase.auth.signUp]. *)
Module SignUpData.
Record t := mk {
  email : string;
  password : string;
  emailRedirectTo : string;
  full_name : string
}.
End SignUpData.

(** Result of [supabase.auth.signUp]: [{ data: { user }, error }]. *)
Module SignUpResult.
Record t := mk {
  user : option User.t;
  error : option string
}.
End SignUpResult.

(** Result of [supabase.auth.getUser] as the session reports it: the id of
    the signed-in account, and the error. *)
Module Session.
Record t := mk {
  user_id : option string;
  error : option string
}.
End Session.

(** How an admin call can go wrong: the provider answers with an [error]
    object, or the call throws. *)
Inductive Fault :=
| FaultError (message : string)
| FaultThrow (e : Exn).

(** What the provider does with the [user_metadata] of an update: replace
    the stored object, or merge the given keys into it. *)
Inductive UpdateSemantics := Overwrite | MergeKeys.

Inductive LogLevel := LogInfo | LogWarn | LogError.

(** ** The outside world *)

Inductive Event :=
| EvFetch (r : Request.t)
| EvSignUp (d : SignUpData.t)
| EvGetUser
| EvAdminGetUserById (userId : string)
| EvAdminUpdateUserById (userId : string) (user_metadata : gmap string JsVal)
| EvConsole (level : LogLevel) (text : string).

Record Env := {
  NEXT_PUBLIC_KNOWBOOK_API_URL : option string;
  backend : Request.t -> FetchOutcome;
  clock : nat -> Z;
  provider_signUp : SignUpData.t -> Outcome SignUpResult.t;
  provider_session : Outcome Session.t;
  provider_getUserById : string -> option Fault;
  provider_updateUserById : string -> option Fault;
  provider_semantics : UpdateSemantics
}.

Record St := {
  users : gmap string User.t;
  ticks : nat;
  trace : list Event
}.

(** ** The monad of sequential effectful code *)

Definition M (A : Type) : Type := Env -> St -> Outcome A * St.

Definition ret {A} (a : A) : M A := fun _ st => (Return a, st).

Definition bind {A B} (m : M A) (k : A -> M B) : M B :=
  fun env st =>
    match m env st with
    | (Return a, st') => k a env st'
    | (Throw e, st') => (Throw e, st')
    end.

Definition throw {A} (e : Exn) : M A := fun _ st => (Throw e, st).

(** [try { m } catch (error) { h error }] *)
Definition try_catch {A} (m : M A) (h : Exn -> M A) : M A :=
  fun env st =>
    match m env st with
    | (Return a, st') => (Return a, st')
    | (Throw e, st') => h e env st'
    end.

Notation "'let*' x ':=' m 'in' k" := (bind m (fun x => k))
  (at level 10, x pattern, m at level 100, k at level 200).
Notation "m ';;' k" := (bind m (fun _ => k))
  (at level 100, k at level 200, right associativity).

(** The state after the events [evs] have been recorded. *)
Definition add_events (evs : list Event) (st : St) : St :=
  {| users := users st; ticks := ticks st; trace := trace st ++ evs |}.

Definition emit (ev : Event) : M unit :=
  fun _ st => (Return tt, add_events [ev] st).

Definition console_log (text : string) : M unit := emit (EvConsole LogInfo text).
Definition console_warn (text : string) : M unit := emit (EvConsole LogWarn text).
Definition console_error (text : string) : M unit := emit (EvConsole LogError text).

(** [new Date()]: the next reading of the clock, as a time value. *)
Definition new_Date : M Z :=
  fun env st =>
    (Return (clock env (ticks st)),
     {| users := users st; ticks := S (ticks st); trace := trace st |}).

(** [redirect(url)] of next/navigation: it never returns, it throws. *)
Definition redirect {A} (url : string) : M A := throw (NextRedirect url).

(** [fetch(url, init)] *)
Definition fetch (r : Request.t) : M Response.t :=
  emit (EvFetch r) ;;
  fun env st =>
    match backend env r with
    | Resolves resp => (Return resp, st)
    | Rejects message => (Throw (JsError message), st)
    end.

(** ** lib/knowbook-api.ts: the client *)

Record KnowbookApiClient := { baseUrl : string }.

(** [constructor(baseUrl?)]:
    [baseUrl || process.env.NEXT_PUBLIC_KNOWBOOK_API_URL || 'http://localhost:8000/api/v1'] *)
Definition new_KnowbookApiClient (url : option string) (env : Env) : KnowbookApiClient :=
  {| baseUrl :=
       or_else url
         (or_else (NEXT_PUBLIC_KNOWBOOK_API_URL env) "http://localhost:8000/api/v1") |}.

Definition is_KnowbookApiError (e : Exn) : bool :=
  match e with
  | KnowbookApiError _ _ _ => true
  | _ => false
  end.

(** The message of the [SyntaxError] with which [response.json()] rejects
    when the body is not JSON; its text is the runtime's. *)
Definition json_syntax_error : Exn := JsError "Unexpected end of JSON input".

(** The [TypeError] thrown by [errorData.error] when [errorData] is [null];
    its text is the runtime's. *)
Definition null_property_error : Exn :=
  JsError "Cannot read properties of null (reading 'error')".

(** The call [fetch(`${this.baseUrl}/organizations/signup`, { method: 'POST', ... })]. *)
Definition signup_request (this : KnowbookApiClient)
    (signupData : OrganizationSignupRequest.t) : Request.t :=
  {| Request.url := baseUrl this +:+ "/organizations/signup";
     Request.method := "POST";
     Request.headers := [("Content-Type", "application/json")];
     Request.body := Some
       {| SignupBody.name := OrganizationSignupRequest.name signupData;
          SignupBody.domain := OrganizationSignupRequest.domain signupData;
          SignupBody.plan := or_else (OrganizationSignupRequest.plan signupData) "free";
          SignupBody.admin_name := OrganizationSignupRequest.admin_name signupData;
          SignupBody.admin_email := OrganizationSignupRequest.admin_email signupData;
          SignupBody.admin_type :=
            or_else (OrganizationSignupRequest.admin_type signupData) "human" |};
     Request.timeout := None |}.

(** The call [fetch(`${this.baseUrl}/me`, { method: 'GET', headers: { 'X-API-Key': apiKey } })]. *)
Definition me_request (this : KnowbookApiClient) (apiKey : string) : Request.t :=
  {| Request.url := baseUrl this +:+ "/me";
     Request.method := "GET";
     Request.headers := [("X-API-Key", apiKey)];
     Request.body := None;
     Request.timeout := None |}.

(** The call [fetch(`${this.baseUrl}/health`, { method: 'GET', signal: AbortSignal.timeout(5000) })]. *)
Definition health_request (this : KnowbookApiClient) : Request.t :=
  {| Request.url := baseUrl this +:+ "/health";
     Request.method := "GET";
     Request.headers := [];
     Request.body := None;
     Request.timeout := Some 5000 |}.

Definition createOrganizationWithAdmin (this : KnowbookApiClient)
    (signupData : OrganizationSignupRequest.t) : M OrganizationSignupResponse.t :=
  try_catch
    (let* response := fetch (signup_request this signupData) in
     (if negb (Response.ok response) then
        (* [None] is the value [null] *)
        let errorData :=
          match Response.json_error response with
          | JsonObject e => Some e
          | JsonNull => None
          | NotJson => Some {| ApiError.error := "Failed to create organization";
                               ApiError.detail := None;
                               ApiError.status_code := Response.status response |}
          end in
        match errorData with
        | Some e =>
          throw (KnowbookApiError
                   (or_else (Some (ApiError.error e)) "Failed to create organization")
                   (Response.status response)
                   (ApiError.detail e))
        | None => throw null_property_error
        end
      else ret tt) ;;
     match Response.json_result response with
     | Some result => ret result
     | None => throw json_syntax_error
     end)
    (fun error =>
       if is_KnowbookApiError error then throw error
       else
         console_error "Knowbook API error:" ;;
         throw (KnowbookApiError "Network error connecting to Knowbook API" 500
                  (Some (default "Unknown error" (error_message error))))).

Definition validateApiKey (this : KnowbookApiClient) (apiKey : string) : M bool :=
  try_catch
    (let* response := fetch (me_request this apiKey) in
     ret (Response.ok response))
    (fun error =>
       console_error "API key validation error:" ;;
       ret false).

Definition healthCheck (this : KnowbookApiClient) : M bool :=
  try_catch
    (let* response := fetch (health_request this) in
     ret (Response.ok response))
    (fun error =>
       console_error "Knowbook API health check failed:" ;;
       ret false).

(** The singleton [knowbookApi = new KnowbookApiClient()]. *)
Definition knowbookApi (env : Env) : KnowbookApiClient := new_KnowbookApiClient None env.

Definition createKnowbookOrganization (organizationName adminName adminEmail : string)
    (domain plan : option string) : M OrganizationSignupResponse.t :=
  fun env =>
    createOrganizationWithAdmin (knowbookApi env)
      {| OrganizationSignupRequest.name := organizationName;
         OrganizationSignupRequest.admin_name := adminName;
         OrganizationSignupRequest.admin_email := adminEmail;
         OrganizationSignupRequest.domain := domain;
         OrganizationSignupRequest.plan := plan;
         OrganizationSignupRequest.admin_type := None |} env.

(** The request that [createKnowbookOrganization] sends. *)
Definition organization_request (env : Env) (organizationName adminName adminEmail : string)
    (domain plan : option string) : Request.t :=
  signup_request (knowbookApi env)
    {| OrganizationSignupRequest.name := organizationName;
       OrganizationSignupRequest.admin_name := adminName;
       OrganizationSignupRequest.admin_email := adminEmail;
       OrganizationSignupRequest.domain := domain;
       OrganizationSignupRequest.plan := plan;
       OrganizationSignupRequest.admin_type := None |}.

Definition validateKnowbookApiKey (apiKey : string) : M bool :=
  fun env => validateApiKey (knowbookApi env) apiKey env.

Definition isKnowbookApiAvailable : M bool :=
  fun env => healthCheck (knowbookApi env) env.

(** ** The auth provider's admin and session calls *)

(** [createClient()] only builds the client object, so it leaves no mark
    here; the calls made through the client follow. *)

(** JSON serialisation of an object drops the properties whose value is
    [undefined]. *)
Definition json_props (obj : gmap string JsVal) : gmap string JsVal :=
  filter (fun kv => kv.2 <> JsUndefined) obj.

(** The metadata the provider holds after an update with [payload]. *)
Definition apply_update (sem : UpdateSemantics) (payload old : gmap string JsVal)
    : gmap string JsVal :=
  match sem with
  | Overwrite => json_props payload
  | MergeKeys => json_props payload ∪ old
  end.

Definition set_users (us : gmap string User.t) (st : St) : St :=
  {| users := us; ticks := ticks st; trace := trace st |}.

(** [supabase.auth.signUp(data)]: an account the provider reports as
    created (a user and no error) is in its user table afterwards. *)
Definition auth_signUp (d : SignUpData.t) : M SignUpResult.t :=
  emit (EvSignUp d) ;;
  fun env st =>
    match provider_signUp env d with
    | Throw e => (Throw e, st)
    | Return r =>
      match SignUpResult.user r, SignUpResult.error r with
      | Some u, None => (Return r, set_users (<[User.id u := u]> (users st)) st)
      | _, _ => (Return r, st)
      end
    end.

(** [supabase.auth.getUser()]: [{ data: { user }, error }] for the account
    of the current session. *)
Definition auth_getUser : M (option User.t * option string) :=
  emit EvGetUser ;;
  fun env st =>
    match provider_session env with
    | Throw e => (Throw e, st)
    | Return s =>
      (Return (match Session.user_id s with
               | Some uid => users st !! uid
               | None => None
               end, Session.error s), st)
    end.

(** [supabase.auth.admin.getUserById(userId)] *)
Definition admin_getUserById (userId : string) : M (option User.t * option string) :=
  emit (EvAdminGetUserById userId) ;;
  fun env st =>
    match provider_getUserById env userId with
    | Some (FaultThrow e) => (Throw e, st)
    | Some (FaultError message) => (Return (None, Some message), st)
    | None =>
      match users st !! userId with
      | Some u => (Return (Some u, None), st)
      | None => (Return (None, Some "User not found"), st)
      end
    end.

(** [supabase.auth.admin.updateUserById(userId, { user_metadata })]; the
    result is the [error] of the answer. A failed update changes nothing. *)
Definition admin_updateUserById (userId : string) (user_metadata : gmap string JsVal)
    : M (option string) :=
  emit (EvAdminUpdateUserById userId user_metadata) ;;
  fun env st =>
    match provider_updateUserById env userId with
    | Some (FaultThrow e) => (Throw e, st)
    | Some (FaultError message) => (Return (Some message), st)
    | None =>
      match users st !! userId with
      | Some u =>
        (Return None,
         set_users
           (<[userId :=
                {| User.id := User.id u;
                   User.email := User.email u;
                   User.user_metadata :=
                     apply_update (provider_semantics env) user_metadata
                       (User.user_metadata u) |}]> (users st)) st)
      | None => (Return (Some "User not found"), st)
      end
    end.

(** ** A concrete [Date] for running the code on examples

    [toISOString] as ECMAScript defines it for the years 0 to 9999, and a
    reader of exactly that format; the reader takes every other text for an
    invalid date, which is narrower than an engine's parser. The properties
    below are stated for any [DateRuntime]; this one serves to evaluate the
    functions on concrete times. *)

Definition digit (n : Z) : ascii := ascii_of_nat (48 + Z.to_nat n).

Fixpoint pad (width : nat) (n : Z) : string :=
  match width with
  | O => EmptyString
  | S w => pad w (n / 10) +:+ String (digit (n mod 10)) EmptyString
  end.

(** Year, month and day of a day number counted from 1970-01-01. *)
Definition civil_from_days (days : Z) : Z * Z * Z :=
  let z := days + 719468 in
  let era := z / 146097 in
  let doe := z - era * 146097 in
  let yoe := (doe - doe / 1460 + doe / 36524 - doe / 146096) / 365 in
  let doy := doe - (365 * yoe + yoe / 4 - yoe / 100) in
  let mp := (5 * doy + 2) / 153 in
  let d := doy - (153 * mp + 2) / 5 + 1 in
  let m := if mp <? 10 then mp + 3 else mp - 9 in
  (yoe + era * 400 + (if m <=? 2 then 1 else 0), m, d).

Definition days_from_civil (y m d : Z) : Z :=
  let y' := if m <=? 2 then y - 1 else y in
  let era := y' / 400 in
  let yoe := y' - era * 400 in
  let doy := (153 * (if 2 <? m then m - 3 else m + 9) + 2) / 5 + d - 1 in
  let doe := yoe * 365 + yoe / 4 - yoe / 100 + doy in
  era * 146097 + doe - 719468.

Definition iso_toISOString (t : Z) : string :=
  let '(y, m, d) := civil_from_days (t / 86400000) in
  let ms := t mod 86400000 in
  pad 4 y +:+ "-" +:+ pad 2 m +:+ "-" +:+ pad 2 d +:+ "T" +:+
  pad 2 (ms / 3600000) +:+ ":" +:+ pad 2 (ms / 60000 mod 60) +:+ ":" +:+
  pad 2 (ms / 1000 mod 60) +:+ "." +:+ pad 3 (ms mod 1000) +:+ "Z".

Fixpoint read_digits (acc : Z) (s : string) : option Z :=
  match s with
  | EmptyString => Some acc
  | String c rest =>
    let n := Z.of_nat (nat_of_ascii c) - 48 in
    if (0 <=? n) && (n <=? 9) then read_digits (10 * acc + n) rest else None
  end.

Definition field (start len : nat) (s : string) : option Z :=
  read_digits 0 (substring start len s).

Definition iso_Date_parse (s : string) : option Z :=
  if negb (Nat.eqb (String.length s) 24) then None
  else if negb (String.eqb (substring 4 1 s +:+ substring 7 1 s +:+ substring 10 1 s +:+
                            substring 13 1 s +:+ substring 16 1 s +:+ substring 19 1 s +:+
                            substring 23 1 s) "--T::.Z") then None
  else
    match field 0 4 s, field 5 2 s, field 8 2 s,
          field 11 2 s, field 14 2 s, field 17 2 s, field 20 3 s with
    | Some y, Some m, Some d, Some hh, Some mi, Some ss, Some ms =>
      if (1 <=? m) && (m <=? 12) && (1 <=? d) && (d <=? 31) &&
         (hh <? 24) && (mi <? 60) && (ss <? 60)
      then Some (days_from_civil y m d * 86400000 +
                 hh * 3600000 + mi * 60000 + ss * 1000 + ms)
      else None
    | _, _, _, _, _, _, _ => None
    end.

Definition IsoDate : DateRuntime :=
  {| toISOString := iso_toISOString; Date_parse := iso_Date_parse |}.

(** ** Observations on the trace *)

(** The events a run has added to the trace. *)
Definition events_after (st st' : St) : list Event :=
  drop (length (trace st)) (trace st').

(** The calls made to the Backend API. *)
Definition backend_calls (evs : list Event) : list Request.t :=
  omap (fun ev => match ev with EvFetch r => Some r | _ => None end) evs.

(** The organization names sent to the Backend API. *)
Definition names_sent (evs : list Event) : list string :=
  omap (fun r => SignupBody.name <$> Request.body r) (backend_calls evs).

(** The metadata objects handed to the provider's update call. *)
Definition metadata_writes (evs : list Event) : list (string * gmap string JsVal) :=
  omap (fun ev => match ev with
                  | EvAdminUpdateUserById userId m => Some (userId, m)
                  | _ => None
                  end) evs.

(** The messages written with [console.error]. *)
Definition errors_logged (evs : list Event) : list string :=
  omap (fun ev => match ev with EvConsole LogError text => Some text | _ => None end) evs.

(** ** lib/supabase/user-metadata.ts *)

Module KnowbookUserMetadata.
Record t := mk {
  knowbook_api_key : option string;
  knowbook_user_id : option string;
  knowbook_organization_id : option string;
  api_key_created_at : option string;
  api_key_last_validated : option string
}.
End KnowbookUserMetadata.

Module StoreResult.
Record t := mk {
  success : bool;
  error : option string
}.
End StoreResult.

(** ** Types of the signup action and of the connect endpoint *)

(** Modelled from the spec: the type [SignupWithEmailInput] of [./Signup],
    which is not among the sources; these are the fields the action and its
    test read, the optional ones being the ones the code guards with [||]. *)
Module SignupWithEmailInput.
Record t := mk {
  email : string;
  password : string;
  fullName : option string;
  organizationName : option string;
  plan : option string
}.
End SignupWithEmailInput.

(** The parsed body of a connect request: [{ organizationName?, fullName? }]. *)
Module ConnectBody.
Record t := mk {
  organizationName : option string;
  fullName : option string
}.
End ConnectBody.

(** The request: [request.json()] gives the body, or rejects ([None]) when
    the body is not JSON. *)
Module NextRequest.
Record t := mk { json : option ConnectBody.t }.
End NextRequest.

Module OrganizationSummary.
Record t := mk { id : string; name : string; slug : string; plan : string }.
End OrganizationSummary.

Module UserSummary.
Record t := mk { id : string; name : string; email : string }.
End UserSummary.

(** The JSON objects the endpoint answers with. *)
Inductive ResponseBody :=
| ErrorBody (error : string)
| HasApiKeyBody (error : string) (hasApiKey : bool)
| ApiErrorBody (error : string) (details : option string) (statusCode : Z)
| SuccessBody (success : bool) (organization : OrganizationSummary.t)
    (user : UserSummary.t) (message : string).

(** [NextResponse.json(body, { status })]; the status defaults to 200. *)
Module NextResponse.
Record t := mk { body : ResponseBody; status : Z }.
End NextResponse.

Section WithDate.
Context `{DateRuntime}.

(** The object literal [metadata] of [storeKnowbookApiKey], given the two
    readings of the clock. *)
Definition knowbook_metadata (apiKey : string) (knowbookUserId organizationId : option string)
    (created validated : Z) : gmap string JsVal :=
  <["knowbook_api_key" := JsStr apiKey]>
  (<["knowbook_user_id" := of_opt knowbookUserId]>
  (<["knowbook_organization_id" := of_opt organizationId]>
  (<["api_key_created_at" := JsStr (toISOString created)]>
  (<["api_key_last_validated" := JsStr (toISOString validated)]> ∅)))).

Definition storeKnowbookApiKey (userId apiKey : string)
    (knowbookUserId organizationId : option string) : M StoreResult.t :=
  try_catch
    (let* created := new_Date in
     let* validated := new_Date in
     let metadata := knowbook_metadata apiKey knowbookUserId organizationId
                       created validated in
     let* error := admin_updateUserById userId metadata in
     match error with
     | Some message =>
       console_error "Failed to store Knowbook API key:" ;;
       ret {| StoreResult.success := false; StoreResult.error := Some message |}
     | None =>
       ret {| StoreResult.success := true; StoreResult.error := None |}
     end)
    (fun error =>
       console_error "Error storing Knowbook API key:" ;;
       ret {| StoreResult.success := false;
              StoreResult.error :=
                Some (default "Unknown error" (error_message error)) |}).

Definition updateApiKeyValidation (userId : string) : M unit :=
  try_catch
    (let* (user, getUserError) := admin_getUserById userId in
     match getUserError, user with
     | None, Some user =>
       let currentMetadata := User.user_metadata user in
       let* now := new_Date in
       let updatedMetadata :=
         <["api_key_last_validated" := JsStr (toISOString now)]> currentMetadata in
       let* error := admin_updateUserById userId updatedMetadata in
       match error with
       | Some _ => console_error "Failed to update API key validation timestamp:"
       | None => ret tt
       end
     | _, _ => console_error "Failed to get user for validation update:"
     end)
    (fun error => console_error "Error updating API key validation:").

(** A metadata field read at its declared type [string | undefined]. *)
Definition as_string (v : JsVal) : option string :=
  match v with
  | JsStr s => Some s
  | _ => None
  end.

(** The five Knowbook fields of a metadata object, as
    [ClientUserMetadata.getKnowbookMetadata] picks them. *)
Definition knowbook_fields (metadata : gmap string JsVal) : KnowbookUserMetadata.t :=
  {| KnowbookUserMetadata.knowbook_api_key := as_string (get metadata "knowbook_api_key");
     KnowbookUserMetadata.knowbook_user_id := as_string (get metadata "knowbook_user_id");
     KnowbookUserMetadata.knowbook_organization_id :=
       as_string (get metadata "knowbook_organization_id");
     KnowbookUserMetadata.api_key_created_at :=
       as_string (get metadata "api_key_created_at");
     KnowbookUserMetadata.api_key_last_validated :=
       as_string (get metadata "api_key_last_validated") |}.

(** [hoursSinceValidation]: the division is JavaScript's on doubles; it is
    taken here on the rationals. Both are monotone in the numerator and
    agree at the threshold (86400000 / 3600000 is exactly 24), so the
    comparison with 24 has the same result for every integer number of
    milliseconds. *)
Definition hoursSinceValidation (now lastValidated : Z) : Q :=
  (inject_Z (now - lastValidated) / inject_Z (1000 * 60 * 60))%Q.

(** [now] is the time value of the function's own [new Date()]. A text that
    is not a date gives [NaN], and [NaN > 24] is false. *)
Definition shouldRefreshApiKey (now : Z) (metadata : KnowbookUserMetadata.t) : bool :=
  match KnowbookUserMetadata.api_key_last_validated metadata with
  | None => true
  | Some text =>
    if String.eqb text EmptyString then true
    else
      match Date_parse text with
      | Some lastValidated =>
        negb (Qle_bool (hoursSinceValidation now lastValidated) (inject_Z 24))
      | None => false
      end
  end.

(** ** components/auth/signup/actions.ts *)

(** [input.organizationName || (input.fullName ? input.fullName : input.email.split('@')[0])];
    the conditional [a ? a : b] on a string is [a || b]. *)
Definition signup_organizationName (input : SignupWithEmailInput.t) : string :=
  or_else (SignupWithEmailInput.organizationName input)
    (or_else (SignupWithEmailInput.fullName input)
       (split_at_0 (SignupWithEmailInput.email input))).

(** The object [data] handed to [supabase.auth.signUp]. *)
Definition signup_data (input : SignupWithEmailInput.t) (baseUrl : string) : SignUpData.t :=
  {| SignUpData.email := SignupWithEmailInput.email input;
     SignUpData.password := SignupWithEmailInput.password input;
     SignUpData.emailRedirectTo := baseUrl +:+ "/auth/confirm";
     SignUpData.full_name :=
       or_else (SignupWithEmailInput.fullName input)
         (split_at_0 (SignupWithEmailInput.email input)) |}.

Definition signup (input : SignupWithEmailInput.t) (baseUrl : string) : M unit :=
  let email := SignupWithEmailInput.email input in
  let fullName := SignupWithEmailInput.fullName input in
  (* Step 1: Create Supabase user account *)
  let data := signup_data input baseUrl in
  let* r := auth_signUp data in
  (match SignUpResult.error r with
   | Some authError =>
     console_error "Supabase signup error:" ;;
     redirect "/auth/signup?error=supabase"
   | None => ret tt
   end) ;;
  (* Step 2: Create Knowbook organization (if API is available) *)
  (match SignUpResult.user r with
   | Some user =>
     try_catch
       (let* isApiAvailable := isKnowbookApiAvailable in
        if isApiAvailable then
          console_log "Creating Knowbook organization for user:" ;;
          let emailDomain := split_at_1 email in
          let organizationName := signup_organizationName input in
          let* knowbookResult :=
            createKnowbookOrganization organizationName
              (or_else fullName (split_at_0 email))
              email emailDomain
              (Some (or_else (SignupWithEmailInput.plan input) "free")) in
          let admin_user := OrganizationSignupResponse.admin_user knowbookResult in
          let organization := OrganizationSignupResponse.organization knowbookResult in
          match KnowbookUser.api_key admin_user with
          | Some api_key =>
            if String.eqb api_key EmptyString then ret tt
            else
              storeKnowbookApiKey (User.id user) api_key
                (Some (KnowbookUser.id admin_user))
                (Some (KnowbookOrganization.id organization)) ;;
              console_log "Successfully created Knowbook organization:"
          | None => ret tt
          end
        else
          console_warn "Knowbook API not available during signup - user can connect later")
       (fun error =>
          console_error "Knowbook integration error during signup:" ;;
          (if is_KnowbookApiError error
           then console_error "Knowbook API error details:"
           else ret tt) ;;
          console_log
            "Continuing with Supabase-only signup - Knowbook integration can be completed later")
   | None => ret tt
   end) ;;
  redirect "/auth/signup/success".

(** ** app/api/knowbook/connect/route.ts *)

Definition request_json (request : NextRequest.t) : M ConnectBody.t :=
  match NextRequest.json request with
  | Some b => ret b
  | None => throw json_syntax_error
  end.

(** [organizationName || (fullName ? `${fullName}'s Workspace` : `${emailDomain} Workspace`)] *)
Definition connect_orgName (organizationName fullName emailDomain : option string) : string :=
  or_else organizationName
    (if truthy_str fullName
     then template fullName +:+ "'s Workspace"
     else template emailDomain +:+ " Workspace").

Definition POST (request : NextRequest.t) : M NextResponse.t :=
  try_catch
    (let* (user, authError) := auth_getUser in
     match authError, user with
     | None, Some user =>
       (* Check if user already has a Knowbook API key *)
       let existingMetadata := User.user_metadata user in
       if truthy (get existingMetadata "knowbook_api_key") then
         ret {| NextResponse.body :=
                  HasApiKeyBody "User already has a Knowbook API key" true;
                NextResponse.status := 400 |}
       else
         let* body := request_json request in
         let organizationName := ConnectBody.organizationName body in
         let fullName := ConnectBody.fullName body in
         let email_required :=
           {| NextResponse.body := ErrorBody "User email is required";
              NextResponse.status := 400 |} in
         match User.email user with
         | None => ret email_required
         | Some email =>
           if String.eqb email EmptyString then ret email_required
           else
             let* isApiAvailable := isKnowbookApiAvailable in
             if negb isApiAvailable then
               ret {| NextResponse.body :=
                        ErrorBody
                          "Knowbook API is currently unavailable. Please try again later.";
                      NextResponse.status := 503 |}
             else
               let emailDomain := split_at_1 email in
               let orgName := connect_orgName organizationName fullName emailDomain in
               let* knowbookResult :=
                 createKnowbookOrganization orgName
                   (or_else fullName (split_at_0 email))
                   email emailDomain (Some "free") in
               let admin_user := OrganizationSignupResponse.admin_user knowbookResult in
               let organization := OrganizationSignupResponse.organization knowbookResult in
               let connected :=
                 {| NextResponse.body :=
                      SuccessBody true
                        {| OrganizationSummary.id := KnowbookOrganization.id organization;
                           OrganizationSummary.name :=
                             KnowbookOrganization.name organization;
                           OrganizationSummary.slug :=
                             KnowbookOrganization.slug organization;
                           OrganizationSummary.plan :=
                             KnowbookOrganization.plan organization |}
                        {| UserSummary.id := KnowbookUser.id admin_user;
                           UserSummary.name := KnowbookUser.name admin_user;
                           UserSummary.email := KnowbookUser.email admin_user |}
                        "Successfully connected to Knowbook!";
                    NextResponse.status := 200 |} in
               match KnowbookUser.api_key admin_user with
               | Some api_key =>
                 if String.eqb api_key EmptyString then ret connected
                 else
                   let* storeResult :=
                     storeKnowbookApiKey (User.id user) api_key
                       (Some (KnowbookUser.id admin_user))
                       (Some (KnowbookOrganization.id organization)) in
                   if negb (StoreResult.success storeResult) then
                     console_error "Failed to store API key:" ;;
                     ret {| NextResponse.body :=
                              ErrorBody "Failed to store API key in user profile";
                            NextResponse.status := 500 |}
                   else ret connected
               | None => ret connected
               end
         end
     | _, _ =>
       ret {| NextResponse.body := ErrorBody "Unauthorized"; NextResponse.status := 401 |}
     end)
    (fun error =>
       console_error "Knowbook connection error:" ;;
       match error with
       | KnowbookApiError message statusCode details =>
         ret {| NextResponse.body := ApiErrorBody message details statusCode;
                NextResponse.status :=
                  if (400 <=? statusCode) && (statusCode <? 600) then statusCode else 500 |}
       | _ =>
         ret {| NextResponse.body := ErrorBody "Internal server error";
                NextResponse.status := 500 |}
       end).

End WithDate.

(** ** lib/supabase/user-metadata.ts: reading the key back *)

(** [value || null] on a metadata value. *)
Definition or_null (v : JsVal) : JsVal := if truthy v then v else JsNull.

(** [getKnowbookApiKey(userId)], the server-side read through the admin
    API. The result is [metadata.knowbook_api_key || null]. *)
Definition getKnowbookApiKey (userId : string) : M JsVal :=
  try_catch
    (let* (user, error) := admin_getUserById userId in
     match error, user with
     | None, Some user =>
       let metadata := User.user_metadata user in
       ret (or_null (get metadata "knowbook_api_key"))
     | _, _ =>
       console_error "Failed to get user:" ;;
       ret JsNull
     end)
    (fun error =>
       console_error "Error getting Knowbook API key:" ;;
       ret JsNull).

(** The class [ClientUserMetadata]: the same reads for the account of the
    current session. *)
Module ClientUserMetadata.
Definition getKnowbookApiKey : M JsVal :=
  try_catch
    (let* (user, error) := auth_getUser in
     match error, user with
     | None, Some user =>
       let metadata := User.user_metadata user in
       ret (or_null (get metadata "knowbook_api_key"))
     | _, _ =>
       console_error "Failed to get current user:" ;;
       ret JsNull
     end)
    (fun error =>
       console_error "Error getting Knowbook API key (client):" ;;
       ret JsNull).

Definition getKnowbookMetadata : M (option KnowbookUserMetadata.t) :=
  try_catch
    (let* (user, error) := auth_getUser in
     match error, user with
     | None, Some user =>
       let metadata := User.user_metadata user in
       ret (Some (knowbook_fields metadata))
     | _, _ =>
       console_error "Failed to get current user:" ;;
       ret None
     end)
    (fun error =>
       console_error "Error getting Knowbook metadata (client):" ;;
       ret None).

(** [!!apiKey] on the result of [getKnowbookApiKey]. *)
Definition hasValidKnowbookApiKey : M bool :=
  let* apiKey := getKnowbookApiKey in
  ret (truthy apiKey).

(** The listener that [onAuthStateChange(callback)] subscribes, as what it
    hands to [callback] for an event and the user of its session: [None]
    when the callback is not called, [Some None] for [callback(null)]. *)
Definition onAuthStateChange_listener (event : string) (session_user : option User.t)
    : option (option KnowbookUserMetadata.t) :=
  match String.eqb event "SIGNED_IN", session_user with
  | true, Some user => Some (Some (knowbook_fields (User.user_metadata user)))
  | _, _ => if String.eqb event "SIGNED_OUT" then Some None else None
  end.
End ClientUserMetadata.

(** ** app/api/knowbook/connect/route.ts: the status endpoint *)

(** The [metadata] object of the status answer. *)
Module ConnectionMetadata.
Record t := mk {
  knowbook_user_id : JsVal;
  knowbook_organization_id : JsVal;
  api_key_created_at : JsVal;
  api_key_last_validated : JsVal
}.
End ConnectionMetadata.

Inductive StatusBody :=
| StatusError (error : string)
| StatusConnection (connected : bool) (metadata : option ConnectionMetadata.t).

Module StatusResponse.
Record t := mk { body : StatusBody; status : Z }.
End StatusResponse.

Definition GET : M StatusResponse.t :=
  try_catch
    (let* (user, authError) := auth_getUser in
     match authError, user with
     | None, Some user =>
       let metadata := User.user_metadata user in
       let hasApiKey := truthy (get metadata "knowbook_api_key") in
       ret {| StatusResponse.body :=
                StatusConnection hasApiKey
                  (if hasApiKey then
                     Some {| ConnectionMetadata.knowbook_user_id :=
                               get metadata "knowbook_user_id";
                             ConnectionMetadata.knowbook_organization_id :=
                               get metadata "knowbook_organization_id";
                             ConnectionMetadata.api_key_created_at :=
                               get metadata "api_key_created_at";
                             ConnectionMetadata.api_key_last_validated :=
                               get metadata "api_key_last_validated" |}
                   else None);
              StatusResponse.status := 200 |}
     | _, _ =>
       ret {| StatusResponse.body := StatusError "Unauthorized";
              StatusResponse.status := 401 |}
     end)
    (fun error =>
       console_error "Connection status check error:" ;;
       ret {| StatusResponse.body := StatusError "Internal server error";
              StatusResponse.status := 500 |}).

(** ** Names for the statements below *)

(** The account of the current session, when there is one: the provider
    answers the session call without error, with the id of an account it
    holds. *)
Definition signed_in (env : Env) (st : St) (user : User.t) : Prop :=
  exists s userId,
    provider_session env = Return s /\ Session.error s = None /\
    Session.user_id s = Some userId /\ users st !! userId = Some user.

(** The call by which the signup action asks for the organization
    (actions.ts, the arguments of [createKnowbookOrganization]). *)
Definition signup_organization_request (env : Env) (input : SignupWithEmailInput.t)
    : Request.t :=
  organization_request env
    (signup_organizationName input)
    (or_else (SignupWithEmailInput.fullName input)
       (split_at_0 (SignupWithEmailInput.email input)))
    (SignupWithEmailInput.email input)
    (split_at_1 (SignupWithEmailInput.email input))
    (Some (or_else (SignupWithEmailInput.plan input) "free")).

(** The call by which the connect endpoint asks for the organization
    (route.ts, the arguments of [createKnowbookOrganization]). *)
Definition connect_organization_request (env : Env) (body : ConnectBody.t) (email : string)
    : Request.t :=
  organization_request env
    (connect_orgName (ConnectBody.organizationName body) (ConnectBody.fullName body)
       (split_at_1 email))
    (or_else (ConnectBody.fullName body) (split_at_0 email))
    email (split_at_1 email) (Some "free").

(** ** The organization name in the specification's words *)

(** The part of [s] before the first [sep]; all of [s] when it has none. *)
Fixpoint before_first (sep : ascii) (s : string) : string :=
  match s with
  | EmptyString => EmptyString
  | String c rest =>
    if Ascii.eqb c sep then EmptyString else String c (before_first sep rest)
  end.

(** An optional text counts as provided when it is defined and not empty. *)
Definition provided (x : option string) : option string :=
  match x with
  | Some s => if String.eqb s EmptyString then None else Some s
  | None => None
  end.

(** "The explicit organizationName if provided, else the fullName, else the
    local part of the user's email before '@'." *)
Definition spec_organization_name (organizationName fullName : option string)
    (email : string) : string :=
  match provided organizationName, provided fullName with
  | Some o, _ => o
  | None, Some f => f
  | None, None => before_first at_sign email
  end.

(** ** hooks/useKnowbookAuth: the connection-status hook

    The hook keeps one state object and changes it only through
    [setState(prev => ...)]. Its asynchronous callbacks are sequential, so
    they are embedded as computations that also thread that state; an
    exception keeps the state reached when it is thrown, as the [catch]
    blocks continue from it. *)

Module KnowbookAuthState.
Record t := mk {
  apiKey : option string;
  isLoading : bool;
  isValidated : bool;
  metadata : option KnowbookUserMetadata.t;
  error : option string
}.
End KnowbookAuthState.

(** The state passed to [useState]. *)
Definition initial_state : KnowbookAuthState.t :=
  {| KnowbookAuthState.apiKey := None;
     KnowbookAuthState.isLoading := true;
     KnowbookAuthState.isValidated := false;
     KnowbookAuthState.metadata := None;
     KnowbookAuthState.error := None |}.

Definition Hook (A : Type) : Type :=
  KnowbookAuthState.t -> Env -> St -> Outcome A * KnowbookAuthState.t * St.

Definition hook_ret {A} (a : A) : Hook A := fun h _ st => (Return a, h, st).

Definition hook_bind {A B} (m : Hook A) (k : A -> Hook B) : Hook B :=
  fun h env st =>
    match m h env st with
    | (Return a, h', st') => k a h' env st'
    | (Throw e, h', st') => (Throw e, h', st')
    end.

Definition hook_try {A} (m : Hook A) (handler : Exn -> Hook A) : Hook A :=
  fun h env st =>
    match m h env st with
    | (Return a, h', st') => (Return a, h', st')
    | (Throw e, h', st') => handler e h' env st'
    end.

(** [await m] for a call [m] that does not touch the hook's state. *)
Definition await {A} (m : M A) : Hook A :=
  fun h env st => let '(o, st') := m env st in (o, h, st').

(** [setState(prev => f prev)] *)
Definition setState (f : KnowbookAuthState.t -> KnowbookAuthState.t) : Hook unit :=
  fun h _ st => (Return tt, f h, st).

(** The current state, as a callback that closes over it reads it. *)
Definition current_state : Hook KnowbookAuthState.t :=
  fun h _ st => (Return h, h, st).

Notation "'let!' x ':=' m 'in' k" := (hook_bind m (fun x => k))
  (at level 10, x pattern, m at level 100, k at level 200).
Notation "m ';!' k" := (hook_bind m (fun _ => k))
  (at level 100, k at level 200, right associativity).

Section HookWithDate.
Context `{DateRuntime}.

(** The call [shouldRefreshApiKey(metadata)]: the function reads the clock
    itself, and only after it has found a stamp. *)
Definition shouldRefreshApiKey_call (metadata : KnowbookUserMetadata.t) : M bool :=
  if truthy_str (KnowbookUserMetadata.api_key_last_validated metadata) then
    let* now := new_Date in
    ret (shouldRefreshApiKey now metadata)
  else ret true.

Definition validateApiKeyInternal (apiKey : string) : Hook bool :=
  hook_try
    (let! isValid := await (validateKnowbookApiKey apiKey) in
     setState (fun prev =>
       {| KnowbookAuthState.apiKey := KnowbookAuthState.apiKey prev;
          KnowbookAuthState.isLoading := KnowbookAuthState.isLoading prev;
          KnowbookAuthState.isValidated := isValid;
          KnowbookAuthState.metadata := KnowbookAuthState.metadata prev;
          KnowbookAuthState.error :=
            if isValid then None else Some "Invalid Knowbook API key" |}) ;!
     hook_ret isValid)
    (fun error =>
       await (console_error "Error validating API key:") ;!
       setState (fun prev =>
         {| KnowbookAuthState.apiKey := KnowbookAuthState.apiKey prev;
            KnowbookAuthState.isLoading := KnowbookAuthState.isLoading prev;
            KnowbookAuthState.isValidated := false;
            KnowbookAuthState.metadata := KnowbookAuthState.metadata prev;
            KnowbookAuthState.error := Some "Failed to validate API key" |}) ;!
       hook_ret false).

(** [loadKnowbookMetadata], for the [user] of the user context. *)
Definition loadKnowbookMetadata (user : option User.t) : Hook unit :=
  match user with
  | None =>
    setState (fun prev =>
      {| KnowbookAuthState.apiKey := None;
         KnowbookAuthState.isLoading := false;
         KnowbookAuthState.isValidated := false;
         KnowbookAuthState.metadata := None;
         KnowbookAuthState.error := None |})
  | Some _ =>
    hook_try
      (setState (fun prev =>
         {| KnowbookAuthState.apiKey := KnowbookAuthState.apiKey prev;
            KnowbookAuthState.isLoading := true;
            KnowbookAuthState.isValidated := KnowbookAuthState.isValidated prev;
            KnowbookAuthState.metadata := KnowbookAuthState.metadata prev;
            KnowbookAuthState.error := None |}) ;!
       let! metadata := await ClientUserMetadata.getKnowbookMetadata in
       (* the branch taken when [metadata?.knowbook_api_key] is falsy *)
       let no_key :=
         setState (fun prev =>
           {| KnowbookAuthState.apiKey := None;
              KnowbookAuthState.isLoading := false;
              KnowbookAuthState.isValidated := KnowbookAuthState.isValidated prev;
              KnowbookAuthState.metadata := metadata;
              KnowbookAuthState.error :=
                Some "No Knowbook API key found. Please contact support." |}) in
       match metadata with
       | None => no_key
       | Some m =>
         match KnowbookUserMetadata.knowbook_api_key m with
         | None => no_key
         | Some key =>
           if String.eqb key EmptyString then no_key
           else
             setState (fun prev =>
               {| KnowbookAuthState.apiKey := Some key;
                  KnowbookAuthState.isLoading := false;
                  KnowbookAuthState.isValidated := KnowbookAuthState.isValidated prev;
                  KnowbookAuthState.metadata := metadata;
                  KnowbookAuthState.error := KnowbookAuthState.error prev |}) ;!
             let! stale := await (shouldRefreshApiKey_call m) in
             if stale then
               validateApiKeyInternal key ;!
               hook_ret tt
             else
               setState (fun prev =>
                 {| KnowbookAuthState.apiKey := KnowbookAuthState.apiKey prev;
                    KnowbookAuthState.isLoading := KnowbookAuthState.isLoading prev;
                    KnowbookAuthState.isValidated := true;
                    KnowbookAuthState.metadata := KnowbookAuthState.metadata prev;
                    KnowbookAuthState.error := KnowbookAuthState.error prev |})
         end
       end)
      (fun error =>
         await (console_error "Error loading Knowbook metadata:") ;!
         setState (fun prev =>
           {| KnowbookAuthState.apiKey := KnowbookAuthState.apiKey prev;
              KnowbookAuthState.isLoading := false;
              KnowbookAuthState.isValidated := KnowbookAuthState.isValidated prev;
              KnowbookAuthState.metadata := KnowbookAuthState.metadata prev;
              KnowbookAuthState.error :=
                Some (default "Failed to load Knowbook data" (error_message error)) |}))
  end.

(** The public [validateApiKey] of the hook:
    [if (!state.apiKey) return false; return validateApiKeyInternal(state.apiKey)]. *)
Definition hook_validateApiKey : Hook bool :=
  let! state := current_state in
  match KnowbookAuthState.apiKey state with
  | Some key => if String.eqb key EmptyString then hook_ret false
                else validateApiKeyInternal key
  | None => hook_ret false
  end.

(** The callback that the hook registers with [onAuthStateChange]. *)
Definition onAuthStateChange_callback (metadata : option KnowbookUserMetadata.t)
    : Hook unit :=
  let signed_out :=
    setState (fun prev =>
      {| KnowbookAuthState.apiKey := None;
         KnowbookAuthState.isLoading := KnowbookAuthState.isLoading prev;
         KnowbookAuthState.isValidated := false;
         KnowbookAuthState.metadata := None;
         KnowbookAuthState.error := KnowbookAuthState.error prev |}) in
  match metadata with
  | Some m =>
    match KnowbookUserMetadata.knowbook_api_key m with
    | Some key =>
      if String.eqb key EmptyString then signed_out
      else
        let! stale := await (shouldRefreshApiKey_call m) in
        setState (fun prev =>
          {| KnowbookAuthState.apiKey := Some key;
             KnowbookAuthState.isLoading := KnowbookAuthState.isLoading prev;
             KnowbookAuthState.isValidated := negb stale;
             KnowbookAuthState.metadata := Some m;
             KnowbookAuthState.error := KnowbookAuthState.error prev |})
    | None => signed_out
    end
  | None => signed_out
  end.

(** An auth event as the hook sees it: the listener of [ClientUserMetadata]
    in front of the hook's callback. *)
Definition auth_event (event : string) (session_user : option User.t) : Hook unit :=
  match ClientUserMetadata.onAuthStateChange_listener event session_user with
  | Some metadata => onAuthStateChange_callback metadata
  | None => hook_ret tt
  end.

End HookWithDate.

(** [useHasKnowbookAccess]: [!!(apiKey && isValidated)]. *)
Definition useHasKnowbookAccess (state : KnowbookAuthState.t) : bool :=
  truthy_str (KnowbookAuthState.apiKey state) && KnowbookAuthState.isValidated state.

(** [useKnowbookApiKey]: [isValidated ? apiKey : null]. *)
Definition useKnowbookApiKey (state : KnowbookAuthState.t) : option string :=
  if KnowbookAuthState.isValidated state then KnowbookAuthState.apiKey state else None.

(** [getStatusMessage] of the [KnowbookStatus] component. *)
Definition getStatusMessage (state : KnowbookAuthState.t) : string :=
  if KnowbookAuthState.isLoading state then "Checking Knowbook connection..."
  else
    match provided (KnowbookAuthState.error state) with
    | Some error => error
    | None =>
      if negb (truthy_str (KnowbookAuthState.apiKey state))
      then "No Knowbook API key found. Please contact support."
      else if KnowbookAuthState.isValidated state
           then "Successfully connected to Knowbook"
           else "API key needs validation"
    end.

(** ** A concrete world for running the code on examples *)

Definition johndoe : User.t :=
  {| User.id := "user-1";
     User.email := Some "johndoe@example.com";
     User.user_metadata := {[ "full_name" := JsStr "johndoe" ]} |}.

(** The same account once a key has been stored for it. *)
Definition johndoe_connected : User.t :=
  {| User.id := "user-1";
     User.email := Some "johndoe@example.com";
     User.user_metadata :=
       <["knowbook_api_key" := JsStr "kb_test_key_123"]> (User.user_metadata johndoe) |}.

Definition test_organization : KnowbookOrganization.t :=
  {| KnowbookOrganization.id := "org-123";
     KnowbookOrganization.name := "Test Organization";
     KnowbookOrganization.slug := "test-organization";
     KnowbookOrganization.plan := "free";
     KnowbookOrganization.max_users := 5;
     KnowbookOrganization.max_articles := 100;
     KnowbookOrganization.is_active := true;
     KnowbookOrganization.created_at := "2024-01-01T00:00:00.000Z";
     KnowbookOrganization.updated_at := "2024-01-01T00:00:00.000Z" |}.

Definition test_admin (api_key : option string) : KnowbookUser.t :=
  {| KnowbookUser.id := "user-123";
     KnowbookUser.name := "Test User";
     KnowbookUser.email := "johndoe@example.com";
     KnowbookUser.type := "human";
     KnowbookUser.is_active := true;
     KnowbookUser.created_at := "2024-01-01T00:00:00.000Z";
     KnowbookUser.api_key := api_key |}.

Definition test_result (api_key : option string) : OrganizationSignupResponse.t :=
  {| OrganizationSignupResponse.organization := test_organization;
     OrganizationSignupResponse.admin_user := test_admin api_key;
     OrganizationSignupResponse.message := "Organization created successfully" |}.

(** A backend that answers 200 to every call, with [result] as the body. *)
Definition backend_up (result : OrganizationSignupResponse.t) (_ : Request.t)
    : FetchOutcome :=
  Resolves {| Response.status := 200;
              Response.json_error := NotJson;
              Response.json_result := Some result |}.

(** A backend that cannot be reached. *)
Definition backend_down (_ : Request.t) : FetchOutcome := Rejects "fetch failed".

(** A backend that answers 400 with an error body to every call. *)
Definition backend_refusing (_ : Request.t) : FetchOutcome :=
  Resolves {| Response.status := 400;
              Response.json_error :=
                JsonObject
                  {| ApiError.error := "Email already exists";
                     ApiError.detail := Some "User with this email already registered";
                     ApiError.status_code := 400 |};
              Response.json_result := None |}.

(** A backend that answers 400 with the body [null] to every call. *)
Definition backend_refusing_null (_ : Request.t) : FetchOutcome :=
  Resolves {| Response.status := 400;
              Response.json_error := JsonNull;
              Response.json_result := None |}.

(** A world with the given backend, a provider that works, and a clock that
    starts on 2024-01-01 and advances by a millisecond at each reading. *)
Definition world (b : Request.t -> FetchOutcome) : Env :=
  {| NEXT_PUBLIC_KNOWBOOK_API_URL := Some "https://api.test.knowbook.ai/api/v1";
     backend := b;
     clock := fun n => 1704067200000 + Z.of_nat n;
     provider_signUp :=
       fun _ => Return {| SignUpResult.user := Some johndoe; SignUpResult.error := None |};
     provider_session :=
       Return {| Session.user_id := Some "user-1"; Session.error := None |};
     provider_getUserById := fun _ => None;
     provider_updateUserById := fun _ => None;
     provider_semantics := Overwrite |}.

Definition no_accounts : St := {| users := ∅; ticks := 0; trace := [] |}.

Definition one_account (u : User.t) : St :=
  {| users := {[ User.id u := u ]}; ticks := 0; trace := [] |}.

Definition johndoe_input : SignupWithEmailInput.t :=
  {| SignupWithEmailInput.email := "johndoe@example.com";
     SignupWithEmailInput.password := "password123";
     SignupWithEmailInput.fullName := None;
     SignupWithEmailInput.organizationName := None;
     SignupWithEmailInput.plan := None |}.

(** A record stamped on 2024-01-01 at midnight. *)
Definition new_year_record : KnowbookUserMetadata.t :=
  {| KnowbookUserMetadata.knowbook_api_key := Some "kb_test_key_123";
     KnowbookUserMetadata.knowbook_user_id := Some "user-123";
     KnowbookUserMetadata.knowbook_organization_id := Some "org-123";
     KnowbookUserMetadata.api_key_created_at := Some "2024-01-01T00:00:00.000Z";
     KnowbookUserMetadata.api_key_last_validated := Some "2024-01-01T00:00:00.000Z" |}.

Definition empty_request : NextRequest.t :=
  {| NextRequest.json :=
       Some {| ConnectBody.organizationName := None; ConnectBody.fullName := None |} |}.


Definition not_json_request : NextRequest.t := {| NextRequest.json := None |}.

Definition test_signup : OrganizationSignupRequest.t :=
  {| OrganizationSignupRequest.name := "Test Organization";
     OrganizationSignupRequest.domain := None;
     OrganizationSignupRequest.plan := None;
     OrganizationSignupRequest.admin_name := "Test User";
     OrganizationSignupRequest.admin_email := "johndoe@example.com";
     OrganizationSignupRequest.admin_type := None |}.

(** A backend whose health check succeeds and that refuses every other
    call with status 400. *)
Definition backend_refusing_signup (req : Request.t) : FetchOutcome :=
  if String.eqb (Request.method req) "GET"
  then backend_up (test_result None) req
  else backend_refusing req.

(** A backend whose health check succeeds and that answers every other
    call with status 400 and the body [null]. *)
Definition backend_null_signup (req : Request.t) : FetchOutcome :=
  if String.eqb (Request.method req) "GET"
  then backend_up (test_result None) req
  else backend_refusing_null req.

(** The world of [world b], with a provider that refuses every update. *)
Definition world_without_updates (b : Request.t -> FetchOutcome) : Env :=
  {| NEXT_PUBLIC_KNOWBOOK_API_URL := NEXT_PUBLIC_KNOWBOOK_API_URL (world b);
     backend := b;
     clock := clock (world b);
     provider_signUp := provider_signUp (world b);
     provider_session := provider_session (world b);
     provider_getUserById := provider_getUserById (world b);
     provider_updateUserById := fun _ => Some (FaultError "User not allowed");
     provider_semantics := provider_semantics (world b) |}.

(** The same world later: the clock starts two days after 2024-01-01. *)
Definition world_later (b : Request.t -> FetchOutcome) : Env :=
  {| NEXT_PUBLIC_KNOWBOOK_API_URL := NEXT_PUBLIC_KNOWBOOK_API_URL (world b);
     backend := b;
     clock := fun n => 1704240000000 + Z.of_nat n;
     provider_signUp := provider_signUp (world b);
     provider_session := provider_session (world b);
     provider_getUserById := provider_getUserById (world b);
     provider_updateUserById := provider_updateUserById (world b);
     provider_semantics := provider_semantics (world b) |}.

(** The account of johndoe with a key validated on 2024-01-01 at midnight. *)
Definition johndoe_validated : User.t :=
  {| User.id := "user-1";
     User.email := Some "johndoe@example.com";
     User.user_metadata :=
       <["api_key_last_validated" := JsStr "2024-01-01T00:00:00.000Z"]>
         (User.user_metadata johndoe_connected) |}.

(** * Properties *)

Section Properties.
Context `{DateRuntime}.

(** ** The Backend API client *)

(** Symbolic execution of a computation in [M]: unfold the function at
    hand, then the monad's operations. *)
Ltac step_M :=
  cbv beta iota zeta delta
    [bind ret throw try_catch emit add_events console_log console_warn console_error
     fetch new_Date redirect set_users json_syntax_error];
  cbn [fst snd users ticks trace negb andb app
       is_KnowbookApiError error_message from_option id
       SignUpResult.user SignUpResult.error Session.user_id Session.error
       StoreResult.success StoreResult.error].

Lemma ok_iff_2xx (r : Response.t) :
  Response.ok r = true <-> 200 <= Response.status r <= 299.
Proof. unfold Response.ok. rewrite andb_true_iff, !Z.leb_le. tauto. Qed.

(** C5: [validateApiKey] and [healthCheck] never throw; each resolves to a
    boolean, which is [true] exactly when [fetch] resolved to a response
    whose status is in 200-299, hence [false] for every transport exception
    and every other status. *)
Theorem probes_never_throw (this : KnowbookApiClient) (apiKey : string)
    (env : Env) (st : St) :
  (exists b, (validateApiKey this apiKey env st).1 = Return b /\
     (b = true <->
      exists r, backend env (me_request this apiKey) = Resolves r /\
                200 <= Response.status r <= 299)) /\
  (exists b, (healthCheck this env st).1 = Return b /\
     (b = true <->
      exists r, backend env (health_request this) = Resolves r /\
                200 <= Response.status r <= 299)).
Proof.
  split.
  - unfold validateApiKey; step_M.
    destruct (backend env (me_request this apiKey)) as [r | msg]; simpl.
    + exists (Response.ok r). split; [reflexivity |]. rewrite ok_iff_2xx.
      split; [intros Hs; exists r; auto | intros (r' & [= <-] & Hs); exact Hs].
    + exists false. split; [reflexivity |].
      split; [discriminate | intros (r' & [=] & _)].
  - unfold healthCheck; step_M.
    destruct (backend env (health_request this)) as [r | msg]; simpl.
    + exists (Response.ok r). split; [reflexivity |]. rewrite ok_iff_2xx.
      split; [intros Hs; exists r; auto | intros (r' & [= <-] & Hs); exact Hs].
    + exists false. split; [reflexivity |].
      split; [discriminate | intros (r' & [=] & _)].
Qed.

(** [createOrganizationWithAdmin] returns nothing on a failure. On a
    response outside 200-299 whose body is not [null] it throws a
    [KnowbookApiError] with the status of the response and the [detail] of
    the server's error body (none when the body is not JSON). When that
    body is [null], reading it throws, and the client throws a
    [KnowbookApiError] with status 500 instead, as it does, with the
    message of the rejection as details, when [fetch] rejects. *)
Theorem createOrganizationWithAdmin_throws (this : KnowbookApiClient)
    (signupData : OrganizationSignupRequest.t) (env : Env) (st : St) :
  (forall r, backend env (signup_request this signupData) = Resolves r ->
     Response.ok r = false ->
     match Response.json_error r with
     | JsonObject e =>
       exists message,
         (createOrganizationWithAdmin this signupData env st).1 =
         Throw (KnowbookApiError message (Response.status r) (ApiError.detail e))
     | NotJson =>
       (createOrganizationWithAdmin this signupData env st).1 =
       Throw (KnowbookApiError "Failed to create organization" (Response.status r) None)
     | JsonNull =>
       exists details,
         (createOrganizationWithAdmin this signupData env st).1 =
         Throw (KnowbookApiError "Network error connecting to Knowbook API" 500
                  (Some details))
     end) /\
  (forall text, backend env (signup_request this signupData) = Rejects text ->
     (createOrganizationWithAdmin this signupData env st).1 =
     Throw (KnowbookApiError "Network error connecting to Knowbook API" 500 (Some text))).
Proof.
  split.
  - intros r Hr Hok.
    unfold createOrganizationWithAdmin; step_M.
    rewrite Hr; step_M. rewrite Hok; step_M.
    destruct (Response.json_error r) as [| | e]; unfold null_property_error; step_M;
      [reflexivity | eexists; reflexivity | eexists; reflexivity].
  - intros text Hr.
    unfold createOrganizationWithAdmin; step_M.
    rewrite Hr; step_M. reflexivity.
Qed.

(** C4: the claim fails for a response outside 200-299 whose body is the
    JSON text [null]. Against a backend that answers 400 with that body,
    the client does throw a [KnowbookApiError], but after logging, with
    status 500 and the text of a [TypeError] as details: it carries neither
    the status of the response nor a detail of the server. *)
Theorem createOrganizationWithAdmin_null_error_body :
  let env := world backend_refusing_null in
  let this := knowbookApi env in
  let run := createOrganizationWithAdmin this test_signup env no_accounts in
  (exists r,
     backend env (signup_request this test_signup) = Resolves r /\
     Response.ok r = false /\ Response.status r = 400) /\
  run.1 =
    Throw (KnowbookApiError "Network error connecting to Knowbook API" 500
             (Some "Cannot read properties of null (reading 'error')")) /\
  errors_logged (events_after no_accounts run.2) = ["Knowbook API error:"] /\
  forall message details, run.1 <> Throw (KnowbookApiError message 400 details).
Proof.
  split_and!.
  - eexists. split_and!; reflexivity.
  - reflexivity.
  - reflexivity.
  - intros message details. vm_compute. discriminate.
Qed.

(** ** Staleness *)

Lemma hoursSinceValidation_gt_24 (now lastValidated : Z) :
  negb (Qle_bool (hoursSinceValidation now lastValidated) (inject_Z 24)) = true <->
  24 * 60 * 60 * 1000 < now - lastValidated.
Proof.
  rewrite negb_true_iff, <- not_true_iff_false, Qle_bool_iff.
  unfold hoursSinceValidation, Qle, Qdiv, Qmult, Qinv, inject_Z; simpl.
  lia.
Qed.

(** C6: staleness is a function of the record and the clock reading alone:
    [shouldRefreshApiKey] is [true] exactly when [api_key_last_validated]
    is absent (undefined or empty) or is a date strictly more than 24 hours
    before the current time. A record validated 24h and 1s ago is stale,
    one validated 23h 59m 59s ago is not. *)
Theorem shouldRefreshApiKey_staleness (now : Z) (metadata : KnowbookUserMetadata.t) :
  let last := KnowbookUserMetadata.api_key_last_validated metadata in
  (shouldRefreshApiKey now metadata = true <->
   (last = None \/ last = Some EmptyString) \/
   exists text lastValidated,
     last = Some text /\ Date_parse text = Some lastValidated /\
     24 * 60 * 60 * 1000 < now - lastValidated) /\
  (forall text, last = Some text -> text <> EmptyString ->
     Date_parse text = Some (now - (24 * 60 * 60 * 1000 + 1000)) ->
     shouldRefreshApiKey now metadata = true) /\
  (forall text, last = Some text -> text <> EmptyString ->
     Date_parse text = Some (now - (23 * 60 * 60 * 1000 + 59 * 60 * 1000 + 59 * 1000)) ->
     shouldRefreshApiKey now metadata = false).
Proof.
  intros last. unfold shouldRefreshApiKey. fold last.
  split; [| split].
  - destruct last as [text |]; [| intuition].
    destruct (String.eqb_spec text EmptyString) as [-> | Hne]; [intuition |].
    destruct (Date_parse text) as [t |] eqn:Hp.
    + rewrite hoursSinceValidation_gt_24. split.
      * intros Hlt. right. exists text, t. auto.
      * intros [[Hn | He] | (text' & t' & Ht' & Ht & Hlt)]; [congruence | congruence |].
        injection Ht' as <-. rewrite Hp in Ht. injection Ht as <-. exact Hlt.
    + split; [discriminate |].
      intros [[Hn | He] | (text' & t' & Ht' & Ht & _)]; congruence.
  - intros text -> Hne Hp.
    destruct (String.eqb_spec text EmptyString) as [-> | _]; [congruence |].
    rewrite Hp. apply hoursSinceValidation_gt_24. lia.
  - intros text -> Hne Hp.
    destruct (String.eqb_spec text EmptyString) as [-> | _]; [congruence |].
    rewrite Hp. apply not_true_iff_false. rewrite hoursSinceValidation_gt_24. lia.
Qed.

(** ** How each call runs

    One equation per answer of the outside world, for the calls that the
    signup action and the connect endpoint are built from. *)

Ltac finish_run := step_M; rewrite <- ?app_assoc; reflexivity.

Lemma isKnowbookApiAvailable_resolves (env : Env) (st : St) (r : Response.t) :
  backend env (health_request (knowbookApi env)) = Resolves r ->
  isKnowbookApiAvailable env st =
  (Return (Response.ok r), add_events [EvFetch (health_request (knowbookApi env))] st).
Proof.
  intros Hb. unfold isKnowbookApiAvailable, healthCheck; step_M. rewrite Hb. finish_run.
Qed.

Lemma isKnowbookApiAvailable_rejects (env : Env) (st : St) (text : string) :
  backend env (health_request (knowbookApi env)) = Rejects text ->
  isKnowbookApiAvailable env st =
  (Return false,
   add_events [EvFetch (health_request (knowbookApi env));
               EvConsole LogError "Knowbook API health check failed:"] st).
Proof.
  intros Hb. unfold isKnowbookApiAvailable, healthCheck; step_M. rewrite Hb. finish_run.
Qed.

Section CreateOrganization.
Variables (env : Env) (st : St).
Variables (organizationName adminName adminEmail : string) (domain plan : option string).

Local Abbreviation req :=
  (organization_request env organizationName adminName adminEmail domain plan).
Local Abbreviation run :=
  (createKnowbookOrganization organizationName adminName adminEmail domain plan env st).

Lemma createKnowbookOrganization_rejects (text : string) :
  backend env req = Rejects text ->
  run =
  (Throw (KnowbookApiError "Network error connecting to Knowbook API" 500 (Some text)),
   add_events [EvFetch req; EvConsole LogError "Knowbook API error:"] st).
Proof.
  intros Hb.
  unfold createKnowbookOrganization, createOrganizationWithAdmin, organization_request in *.
  step_M. rewrite Hb. finish_run.
Qed.

Lemma createKnowbookOrganization_not_ok (r : Response.t) :
  backend env req = Resolves r -> Response.ok r = false ->
  match Response.json_error r with
  | JsonObject e =>
    exists message,
      run =
      (Throw (KnowbookApiError message (Response.status r) (ApiError.detail e)),
       add_events [EvFetch req] st)
  | NotJson =>
    run =
    (Throw (KnowbookApiError "Failed to create organization" (Response.status r) None),
     add_events [EvFetch req] st)
  | JsonNull =>
    exists details,
      run =
      (Throw (KnowbookApiError "Network error connecting to Knowbook API" 500
                (Some details)),
       add_events [EvFetch req; EvConsole LogError "Knowbook API error:"] st)
  end.
Proof.
  intros Hb Hok.
  unfold createKnowbookOrganization, createOrganizationWithAdmin, organization_request in *.
  step_M. rewrite Hb. step_M. rewrite Hok. step_M.
  destruct (Response.json_error r) as [| | e]; unfold null_property_error; step_M.
  - reflexivity.
  - eexists. rewrite <- ?app_assoc. reflexivity.
  - eexists. reflexivity.
Qed.

Lemma createKnowbookOrganization_not_json (r : Response.t) :
  backend env req = Resolves r -> Response.ok r = true ->
  Response.json_result r = None ->
  run =
  (Throw (KnowbookApiError "Network error connecting to Knowbook API" 500
            (Some "Unexpected end of JSON input")),
   add_events [EvFetch req; EvConsole LogError "Knowbook API error:"] st).
Proof.
  intros Hb Hok Hj.
  unfold createKnowbookOrganization, createOrganizationWithAdmin, organization_request in *.
  step_M. rewrite Hb. step_M. rewrite Hok. step_M. rewrite Hj. finish_run.
Qed.

Lemma createKnowbookOrganization_ok (r : Response.t)
    (result : OrganizationSignupResponse.t) :
  backend env req = Resolves r -> Response.ok r = true ->
  Response.json_result r = Some result ->
  run = (Return result, add_events [EvFetch req] st).
Proof.
  intros Hb Hok Hj.
  unfold createKnowbookOrganization, createOrganizationWithAdmin, organization_request in *.
  step_M. rewrite Hb. step_M. rewrite Hok. step_M. rewrite Hj. finish_run.
Qed.

(** Whatever the backend answers: one call, and either the signup
    response or a [KnowbookApiError]. *)
Lemma createKnowbookOrganization_run :
  exists out logs,
    run = (out, add_events (EvFetch req :: logs) st) /\
    backend_calls logs = [] /\ metadata_writes logs = [] /\
    match out with
    | Return result =>
      exists r, backend env req = Resolves r /\ Response.ok r = true /\
                Response.json_result r = Some result
    | Throw e => is_KnowbookApiError e = true
    end.
Proof.
  destruct (backend env req) as [r | text] eqn:Hb.
  - destruct (Response.ok r) eqn:Hok.
    + destruct (Response.json_result r) as [result |] eqn:Hj.
      * do 2 eexists. split; [apply (createKnowbookOrganization_ok r result Hb Hok Hj) |].
        repeat split. eauto.
      * do 2 eexists. split; [apply (createKnowbookOrganization_not_json r Hb Hok Hj) |].
        repeat split.
    + pose proof (createKnowbookOrganization_not_ok r Hb Hok) as Heq.
      destruct (Response.json_error r) as [| | e];
        [| destruct Heq as [details Heq] | destruct Heq as [message Heq]];
        do 2 eexists; (split; [apply Heq |]); repeat split.
  - do 2 eexists. split; [apply (createKnowbookOrganization_rejects text Hb) |].
    repeat split.
Qed.
End CreateOrganization.

Section Store.
Variables (env : Env) (st : St).
Variables (userId apiKey : string) (knowbookUserId organizationId : option string).

Local Abbreviation metadata :=
  (knowbook_metadata apiKey knowbookUserId organizationId
     (clock env (ticks st)) (clock env (S (ticks st)))).
Local Abbreviation run :=
  (storeKnowbookApiKey userId apiKey knowbookUserId organizationId env st).

Lemma storeKnowbookApiKey_throws (e : Exn) :
  provider_updateUserById env userId = Some (FaultThrow e) ->
  run =
  (Return {| StoreResult.success := false;
             StoreResult.error := Some (default "Unknown error" (error_message e)) |},
   {| users := users st; ticks := S (S (ticks st));
      trace := trace st ++ [EvAdminUpdateUserById userId metadata;
                            EvConsole LogError "Error storing Knowbook API key:"] |}).
Proof.
  intros Hf. unfold storeKnowbookApiKey, admin_updateUserById. step_M.
  rewrite Hf. finish_run.
Qed.

Lemma storeKnowbookApiKey_error (message : string) :
  provider_updateUserById env userId = Some (FaultError message) ->
  run =
  (Return {| StoreResult.success := false; StoreResult.error := Some message |},
   {| users := users st; ticks := S (S (ticks st));
      trace := trace st ++ [EvAdminUpdateUserById userId metadata;
                            EvConsole LogError "Failed to store Knowbook API key:"] |}).
Proof.
  intros Hf. unfold storeKnowbookApiKey, admin_updateUserById. step_M.
  rewrite Hf. finish_run.
Qed.

Lemma storeKnowbookApiKey_no_user :
  provider_updateUserById env userId = None -> users st !! userId = None ->
  run =
  (Return {| StoreResult.success := false; StoreResult.error := Some "User not found" |},
   {| users := users st; ticks := S (S (ticks st));
      trace := trace st ++ [EvAdminUpdateUserById userId metadata;
                            EvConsole LogError "Failed to store Knowbook API key:"] |}).
Proof.
  intros Hf Hu. unfold storeKnowbookApiKey, admin_updateUserById. step_M.
  rewrite Hf, Hu. finish_run.
Qed.

Lemma storeKnowbookApiKey_written (u : User.t) :
  provider_updateUserById env userId = None -> users st !! userId = Some u ->
  run =
  (Return {| StoreResult.success := true; StoreResult.error := None |},
   {| users :=
        <[userId :=
            {| User.id := User.id u;
               User.email := User.email u;
               User.user_metadata :=
                 apply_update (provider_semantics env) metadata (User.user_metadata u) |}]>
          (users st);
      ticks := S (S (ticks st));
      trace := trace st ++ [EvAdminUpdateUserById userId metadata] |}).
Proof.
  intros Hf Hu. unfold storeKnowbookApiKey, admin_updateUserById. step_M.
  rewrite Hf, Hu. finish_run.
Qed.

(** Whatever the provider answers: a result, never an exception; one
    update call with the five-field object; nothing sent to the backend. *)
Lemma storeKnowbookApiKey_run :
  exists res us logs,
    run = (Return res,
           {| users := us; ticks := S (S (ticks st));
              trace := trace st ++ EvAdminUpdateUserById userId metadata :: logs |}) /\
    backend_calls logs = [] /\ metadata_writes logs = [] /\
    (StoreResult.success res = false ->
     us = users st /\ is_Some (StoreResult.error res)).
Proof.
  destruct (provider_updateUserById env userId) as [[message | e] |] eqn:Hf.
  - do 3 eexists. split; [apply (storeKnowbookApiKey_error message Hf) |].
    repeat split; eauto.
  - do 3 eexists. split; [apply (storeKnowbookApiKey_throws e Hf) |].
    repeat split; eauto.
  - destruct (users st !! userId) as [u |] eqn:Hu.
    + do 3 eexists. split; [apply (storeKnowbookApiKey_written u Hf Hu) |].
      repeat split; discriminate.
    + do 3 eexists. split; [apply (storeKnowbookApiKey_no_user Hf Hu) |].
      repeat split; eauto.
Qed.
End Store.

(** ** The credential store adapter *)

Lemma events_after_app (st : St) (us : gmap string User.t) (n : nat) (evs : list Event) :
  events_after st {| users := us; ticks := n; trace := trace st ++ evs |} = evs.
Proof. unfold events_after; cbn [trace]. apply drop_app_length. Qed.

Ltac trace_done :=
  step_M; rewrite <- ?app_assoc; cbn [app]; rewrite ?events_after_app.

Lemma metadata_writes_update (userId : string) (m : gmap string JsVal)
    (evs : list Event) :
  metadata_writes (EvAdminUpdateUserById userId m :: evs) =
  (userId, m) :: metadata_writes evs.
Proof. reflexivity. Qed.

Lemma get_json_props (obj : gmap string JsVal) (k : string) :
  get (json_props obj) k = get obj k.
Proof.
  unfold get, json_props.
  destruct (obj !! k) as [v |] eqn:Hk; cbn.
  - destruct (decide (v = JsUndefined)) as [-> | Hv].
    + rewrite (proj2 (map_lookup_filter_None _ _ _)); [reflexivity |].
      right. intros v' Hv'. rewrite Hk in Hv'. injection Hv' as <-. cbn. tauto.
    + rewrite (map_lookup_filter_Some_2 _ _ _ v Hk Hv). reflexivity.
  - rewrite (proj2 (map_lookup_filter_None _ _ _)); [reflexivity | left; exact Hk].
Qed.

(** A property the payload defines is what the provider holds afterwards,
    under either update semantics. *)
Lemma get_apply_update (sem : UpdateSemantics) (payload old : gmap string JsVal)
    (k : string) :
  get payload k <> JsUndefined \/ get old k = get payload k ->
  get (apply_update sem payload old) k = get payload k.
Proof.
  intros Hk. destruct sem; cbn [apply_update]; [apply get_json_props |].
  pose proof (get_json_props payload k) as Hj. unfold get in *.
  rewrite lookup_union. destruct (json_props payload !! k) as [v |] eqn:Hp.
  - destruct (old !! k); exact Hj.
  - cbn in Hj. destruct Hk as [Hk | Hk]; [congruence |].
    destruct (old !! k); cbn in *; congruence.
Qed.

Lemma knowbook_metadata_dom (apiKey : string) (knowbookUserId organizationId : option string)
    (created validated : Z) :
  dom (knowbook_metadata apiKey knowbookUserId organizationId created validated) =
  ({[ "knowbook_api_key"; "knowbook_user_id"; "knowbook_organization_id";
      "api_key_created_at"; "api_key_last_validated" ]} : gset string).
Proof.
  unfold knowbook_metadata. rewrite !dom_insert_L, dom_empty_L. set_solver.
Qed.

Lemma knowbook_metadata_get (apiKey : string) (knowbookUserId organizationId : option string)
    (created validated : Z) :
  let metadata := knowbook_metadata apiKey knowbookUserId organizationId created validated in
  get metadata "knowbook_api_key" = JsStr apiKey /\
  get metadata "knowbook_user_id" = of_opt knowbookUserId /\
  get metadata "knowbook_organization_id" = of_opt organizationId /\
  get metadata "api_key_created_at" = JsStr (toISOString created) /\
  get metadata "api_key_last_validated" = JsStr (toISOString validated).
Proof.
  unfold knowbook_metadata, get. repeat split; by simplify_map_eq.
Qed.

(** C7: [storeKnowbookApiKey] never throws: it resolves to a result whose
    [success] is [false], with an [error] text, on every failure (the
    provider answers with an error, the call throws, or the account is
    unknown). Every call hands the provider one object, stamped with two
    readings of the clock taken at that moment under [api_key_created_at]
    and [api_key_last_validated]; on success both are what the provider
    holds. Read back within 24 hours of the stamp, the record is not
    stale. *)
Theorem storeKnowbookApiKey_total_and_stamped (userId apiKey : string)
    (knowbookUserId organizationId : option string) (env : Env) (st : St) :
  let run := storeKnowbookApiKey userId apiKey knowbookUserId organizationId env st in
  let created := clock env (ticks st) in
  let validated := clock env (S (ticks st)) in
  (exists res, run.1 = Return res /\
     (StoreResult.success res = true <->
      provider_updateUserById env userId = None /\ is_Some (users st !! userId)) /\
     (StoreResult.success res = false -> is_Some (StoreResult.error res)) /\
     (StoreResult.success res = true ->
      exists user, users run.2 !! userId = Some user /\
        get (User.user_metadata user) "knowbook_api_key" = JsStr apiKey /\
        get (User.user_metadata user) "api_key_created_at" = JsStr (toISOString created) /\
        get (User.user_metadata user) "api_key_last_validated" =
        JsStr (toISOString validated))) /\
  (exists payload,
     metadata_writes (events_after st run.2) = [(userId, payload)] /\
     get payload "api_key_created_at" = JsStr (toISOString created) /\
     get payload "api_key_last_validated" = JsStr (toISOString validated) /\
     forall now,
       toISOString validated <> EmptyString ->
       Date_parse (toISOString validated) = Some validated ->
       now - validated <= 24 * 60 * 60 * 1000 ->
       shouldRefreshApiKey now (knowbook_fields payload) = false).
Proof.
  intros run created validated. subst run created validated.
  pose proof (knowbook_metadata_get apiKey knowbookUserId organizationId
                (clock env (ticks st)) (clock env (S (ticks st))))
    as (Hkey & _ & _ & Hcreated & Hvalidated).
  split.
  - destruct (provider_updateUserById env userId) as [[message | e] |] eqn:Hf.
    + rewrite (storeKnowbookApiKey_error _ _ _ _ _ _ message Hf). cbn.
      eexists. split; [reflexivity |]. cbn.
      repeat split; try discriminate; eauto. intros [[=] _].
    + rewrite (storeKnowbookApiKey_throws _ _ _ _ _ _ e Hf). cbn.
      eexists. split; [reflexivity |]. cbn.
      repeat split; try discriminate; eauto. intros [[=] _].
    + destruct (users st !! userId) as [u |] eqn:Hu.
      * rewrite (storeKnowbookApiKey_written _ _ _ _ _ _ u Hf Hu). cbn [fst snd users].
        eexists. split; [reflexivity |]. cbn [StoreResult.success StoreResult.error].
        repeat split; eauto; try discriminate.
        intros _. eexists. rewrite lookup_insert_eq. split; [reflexivity |].
        cbn [User.user_metadata].
        rewrite !get_apply_update; [auto | left; congruence ..].
      * rewrite (storeKnowbookApiKey_no_user _ _ _ _ _ _ Hf Hu). cbn.
        eexists. split; [reflexivity |]. cbn.
        repeat split; try discriminate; eauto. intros [_ [? [=]]].
  - destruct (storeKnowbookApiKey_run env st userId apiKey knowbookUserId organizationId)
      as (res & us & logs & -> & _ & Hw & _).
    cbn [snd]. rewrite events_after_app, metadata_writes_update, Hw.
    eexists. split; [reflexivity |]. split; [exact Hcreated |]. split; [exact Hvalidated |].
    intros now Hne Hparse Hnow.
    unfold shouldRefreshApiKey, knowbook_fields; cbn [KnowbookUserMetadata.api_key_last_validated].
    rewrite Hvalidated; cbn [as_string].
    apply String.eqb_neq in Hne. rewrite Hne, Hparse.
    apply not_true_iff_false. rewrite hoursSinceValidation_gt_24. lia.
Qed.

(** C10: the object [storeKnowbookApiKey] hands to the provider's update
    call has exactly the five Knowbook fields; a field the account's
    metadata held before under any other name is not in it. *)
Theorem storeKnowbookApiKey_payload_fields (userId apiKey : string)
    (knowbookUserId organizationId : option string) (env : Env) (st : St) :
  let run := storeKnowbookApiKey userId apiKey knowbookUserId organizationId env st in
  let five : gset string :=
    {[ "knowbook_api_key"; "knowbook_user_id"; "knowbook_organization_id";
       "api_key_created_at"; "api_key_last_validated" ]} in
  exists payload,
    metadata_writes (events_after st run.2) = [(userId, payload)] /\
    dom payload = five /\
    forall user k,
      users st !! userId = Some user ->
      k ∈ dom (User.user_metadata user) -> k ∉ five ->
      payload !! k = None.
Proof.
  intros run five. subst run five.
  destruct (storeKnowbookApiKey_run env st userId apiKey knowbookUserId organizationId)
    as (res & us & logs & -> & _ & Hw & _).
  cbn [snd]. rewrite events_after_app, metadata_writes_update, Hw.
  eexists. split; [reflexivity |].
  split; [apply knowbook_metadata_dom |].
  intros user k _ _ Hk. apply not_elem_of_dom. rewrite knowbook_metadata_dom. exact Hk.
Qed.

(** C8: [updateApiKeyValidation] never throws. When the account is found
    and the write goes through, the one object written is the current
    metadata with [api_key_last_validated] set to the clock reading, and
    afterwards the provider holds that timestamp and every other field as
    before; no other account is touched. When the lookup or the write
    fails, an error is logged and the user table is as before. *)
Theorem updateApiKeyValidation_frame (userId : string) (env : Env) (st : St) :
  let run := updateApiKeyValidation userId env st in
  let evs := events_after st run.2 in
  let stamp := JsStr (toISOString (clock env (ticks st))) in
  run.1 = Return tt /\
  (forall other, other <> userId -> users run.2 !! other = users st !! other) /\
  (forall user,
     provider_getUserById env userId = None ->
     users st !! userId = Some user ->
     provider_updateUserById env userId = None ->
     metadata_writes evs =
       [(userId, <["api_key_last_validated" := stamp]> (User.user_metadata user))] /\
     exists user',
       users run.2 !! userId = Some user' /\
       User.id user' = User.id user /\ User.email user' = User.email user /\
       get (User.user_metadata user') "api_key_last_validated" = stamp /\
       forall k, k <> "api_key_last_validated" ->
         get (User.user_metadata user') k = get (User.user_metadata user) k) /\
  (provider_getUserById env userId <> None \/ users st !! userId = None \/
   provider_updateUserById env userId <> None ->
   users run.2 = users st /\ exists text, errors_logged evs = [text]) /\
  (provider_getUserById env userId <> None \/ users st !! userId = None ->
   metadata_writes evs = []).
Proof.
  intros run evs stamp. subst run evs stamp.
  unfold updateApiKeyValidation, admin_getUserById, admin_updateUserById. step_M.
  destruct (provider_getUserById env userId) as [[message | e] |] eqn:Hg; trace_done.
  1, 2: repeat split; auto; try congruence; cbn; eauto.
  destruct (users st !! userId) as [u |] eqn:Hu; trace_done.
  2: { repeat split; auto; try congruence; cbn; eauto. }
  destruct (provider_updateUserById env userId) as [[message | e] |] eqn:Hf; trace_done.
  1, 2: repeat split; auto; try congruence; cbn; eauto;
        intros [? | ?]; congruence.
  rewrite Hu. trace_done. split; [reflexivity |].
  split; [intros other Hother; apply lookup_insert_ne; congruence |].
  split.
  - intros user _ [= <-] _. split; [reflexivity |].
    eexists. rewrite lookup_insert_eq. split; [reflexivity |].
    cbn [User.id User.email User.user_metadata]. split; [reflexivity |].
    split; [reflexivity |].
    assert (Hget : forall k, get (apply_update (provider_semantics env)
                     (<["api_key_last_validated" :=
                          JsStr (toISOString (clock env (ticks st)))]> (User.user_metadata u))
                     (User.user_metadata u)) k =
                   get (<["api_key_last_validated" :=
                          JsStr (toISOString (clock env (ticks st)))]> (User.user_metadata u)) k).
    { intros k. apply get_apply_update. unfold get.
      destruct (decide (k = "api_key_last_validated")) as [-> | Hk].
      - left. rewrite lookup_insert_eq. discriminate.
      - right. rewrite lookup_insert_ne by congruence. reflexivity. }
    split.
    + rewrite Hget. unfold get. rewrite lookup_insert_eq. reflexivity.
    + intros k Hk. rewrite Hget. unfold get. rewrite lookup_insert_ne by congruence.
      reflexivity.
  - split; intros Hfail; exfalso; intuition congruence.
Qed.

(** ** The signup action *)

Lemma isKnowbookApiAvailable_false (env : Env) :
  (exists s, (isKnowbookApiAvailable env s).1 = Return false) ->
  forall r, backend env (health_request (knowbookApi env)) = Resolves r ->
            Response.ok r = false.
Proof.
  intros [s Hs] r Hb. rewrite (isKnowbookApiAvailable_resolves env s r Hb) in Hs.
  cbn [fst] in Hs. congruence.
Qed.

(** Call the run lemma of the next backend or store call in the goal. *)
Ltac next_call :=
  match goal with
  | |- context [createKnowbookOrganization ?a ?b ?c ?d ?e ?env ?st] =>
    let out := fresh "out" in
    let logs := fresh "logs" in
    let Heq := fresh "Heq" in
    destruct (createKnowbookOrganization_run env st a b c d e)
      as (out & logs & Heq & ? & ? & ?);
    rewrite Heq; clear Heq; step_M
  | |- context [storeKnowbookApiKey ?u ?k ?a ?b ?env ?st] =>
    let res := fresh "res" in
    let us := fresh "us" in
    let logs := fresh "logs" in
    let Heq := fresh "Heq" in
    destruct (storeKnowbookApiKey_run env st u k a b)
      as (res & us & logs & Heq & ? & ? & ?);
    rewrite Heq; clear Heq; step_M
  end.

(** C2: the two tiers of the signup action. When the provider answers the
    account creation with an error, the action redirects to the signup page
    with the error parameter and has made no call to the backend. When it
    answers without an error, the action ends with the redirect to the
    confirmation page whatever the health check, the organization creation
    and the key storage do; and when the health check gives [false], no
    metadata has been written. *)
Theorem signup_two_tier (input : SignupWithEmailInput.t) (baseUrl : string)
    (env : Env) (st : St) (r : SignUpResult.t) :
  provider_signUp env (signup_data input baseUrl) = Return r ->
  let run := signup input baseUrl env st in
  let evs := events_after st run.2 in
  (is_Some (SignUpResult.error r) ->
   run.1 = Throw (NextRedirect "/auth/signup?error=supabase") /\
   backend_calls evs = []) /\
  (SignUpResult.error r = None ->
   run.1 = Throw (NextRedirect "/auth/signup/success") /\
   ((exists s, (isKnowbookApiAvailable env s).1 = Return false) ->
    metadata_writes evs = [])).
Proof.
  intros Hr run evs. subst evs run. destruct r as [u e]; cbn [SignUpResult.error].
  split.
  - intros [e' ->]. unfold signup, auth_signUp. step_M. rewrite Hr.
    destruct u; trace_done; auto.
  - intros ->. unfold signup, auth_signUp. step_M. rewrite Hr.
    destruct u as [user |]; step_M; [| trace_done; auto].
    destruct (backend env (health_request (knowbookApi env))) as [hr | text] eqn:Hh.
    + rewrite (isKnowbookApiAvailable_resolves _ _ _ Hh). step_M.
      destruct (Response.ok hr) eqn:Hok.
      * assert (Hno : ~ exists s, (isKnowbookApiAvailable env s).1 = Return false).
        { intros Hex. pose proof (isKnowbookApiAvailable_false env Hex hr Hh). congruence. }
        next_call. destruct out as [result | err]; step_M.
        -- destruct (KnowbookUser.api_key (OrganizationSignupResponse.admin_user result))
             as [k |]; [destruct (String.eqb k EmptyString) |]; step_M.
           ++ split; [reflexivity | tauto].
           ++ next_call. split; [reflexivity | tauto].
           ++ split; [reflexivity | tauto].
        -- destruct (is_KnowbookApiError err); step_M; (split; [reflexivity | tauto]).
      * trace_done. auto.
    + rewrite (isKnowbookApiAvailable_rejects _ _ _ Hh). trace_done. auto.
Qed.

(** ** The connect endpoint *)

(** C3: for a signed-in account whose metadata holds a (non-empty)
    [knowbook_api_key], the endpoint answers 400 with [hasApiKey: true],
    makes no call to the backend (neither health check nor organization
    creation), writes no metadata and leaves the user table as it was, so
    the account keeps its one record. *)
Theorem POST_refuses_second_key (request : NextRequest.t) (env : Env) (st : St)
    (s : Session.t) (userId : string) (user : User.t) :
  provider_session env = Return s ->
  Session.error s = None ->
  Session.user_id s = Some userId ->
  users st !! userId = Some user ->
  truthy (get (User.user_metadata user) "knowbook_api_key") = true ->
  let run := POST request env st in
  run.1 = Return {| NextResponse.body :=
                      HasApiKeyBody "User already has a Knowbook API key" true;
                    NextResponse.status := 400 |} /\
  backend_calls (events_after st run.2) = [] /\
  metadata_writes (events_after st run.2) = [] /\
  users run.2 = users st.
Proof.
  intros Hs He Hid Hu Hkey run. subst run. destruct s as [uid e]; cbn in He, Hid; subst.
  unfold POST, auth_getUser. step_M. rewrite Hs. step_M. rewrite Hu, Hkey.
  trace_done. auto.
Qed.

(** C9: when the backend is healthy and creates the organization, but the
    admin user it returns has no [api_key], the endpoint answers 200 with
    [success: true] and the key is never stored: no metadata is written and
    the user table is as before. *)
Theorem POST_ok_without_api_key (request : NextRequest.t) (env : Env) (st : St)
    (s : Session.t) (userId : string) (user : User.t) (body : ConnectBody.t)
    (email : string) (health created : Response.t)
    (result : OrganizationSignupResponse.t) :
  provider_session env = Return s ->
  Session.error s = None ->
  Session.user_id s = Some userId ->
  users st !! userId = Some user ->
  truthy (get (User.user_metadata user) "knowbook_api_key") = false ->
  NextRequest.json request = Some body ->
  User.email user = Some email -> email <> EmptyString ->
  backend env (health_request (knowbookApi env)) = Resolves health ->
  Response.ok health = true ->
  backend env
    (organization_request env
       (connect_orgName (ConnectBody.organizationName body) (ConnectBody.fullName body)
          (split_at_1 email))
       (or_else (ConnectBody.fullName body) (split_at_0 email))
       email (split_at_1 email) (Some "free")) = Resolves created ->
  Response.ok created = true ->
  Response.json_result created = Some result ->
  truthy_str (KnowbookUser.api_key (OrganizationSignupResponse.admin_user result)) = false ->
  let run := POST request env st in
  let organization := OrganizationSignupResponse.organization result in
  let admin_user := OrganizationSignupResponse.admin_user result in
  run.1 =
  Return {| NextResponse.body :=
              SuccessBody true
                {| OrganizationSummary.id := KnowbookOrganization.id organization;
                   OrganizationSummary.name := KnowbookOrganization.name organization;
                   OrganizationSummary.slug := KnowbookOrganization.slug organization;
                   OrganizationSummary.plan := KnowbookOrganization.plan organization |}
                {| UserSummary.id := KnowbookUser.id admin_user;
                   UserSummary.name := KnowbookUser.name admin_user;
                   UserSummary.email := KnowbookUser.email admin_user |}
                "Successfully connected to Knowbook!";
            NextResponse.status := 200 |} /\
  metadata_writes (events_after st run.2) = [] /\
  users run.2 = users st.
Proof.
  intros Hs He Hid Hu Hkey Hj Hemail Hne Hh Hhok Hc Hcok Hcj Hnokey run organization admin_user.
  subst run organization admin_user. destruct s as [uid e]; cbn in He, Hid; subst.
  unfold POST, auth_getUser, request_json. step_M. rewrite Hs. step_M.
  rewrite Hu, Hkey, Hj. step_M. rewrite Hemail.
  apply String.eqb_neq in Hne. rewrite Hne.
  rewrite (isKnowbookApiAvailable_resolves _ _ _ Hh). step_M. rewrite Hhok. step_M.
  rewrite (createKnowbookOrganization_ok _ _ _ _ _ _ _ _ _ Hc Hcok Hcj). step_M.
  destruct (KnowbookUser.api_key (OrganizationSignupResponse.admin_user result)) as [k |].
  - unfold truthy_str in Hnokey; cbn in Hnokey. apply negb_false_iff in Hnokey.
    rewrite Hnokey. trace_done. auto.
  - trace_done. auto.
Qed.

(** ** The organization name sent to the backend *)

Lemma split_before_first (sep : ascii) (s : string) :
  exists rest, split sep s = before_first sep s :: rest.
Proof.
  induction s as [| c s [rest IH]]; cbn; [eauto |].
  destruct (Ascii.eqb c sep); [eauto |]. rewrite IH. eauto.
Qed.

Lemma split_at_0_before_first (email : string) :
  split_at_0 email = before_first at_sign email.
Proof.
  unfold split_at_0. destruct (split_before_first at_sign email) as [rest ->].
  reflexivity.
Qed.

Lemma or_else_provided (a : option string) (b : string) :
  or_else a b = default b (provided a).
Proof. destruct a as [s |]; cbn; [destruct (String.eqb s EmptyString) |]; reflexivity. Qed.

Lemma signup_organizationName_spec (input : SignupWithEmailInput.t) :
  signup_organizationName input =
  spec_organization_name (SignupWithEmailInput.organizationName input)
    (SignupWithEmailInput.fullName input) (SignupWithEmailInput.email input).
Proof.
  unfold signup_organizationName, spec_organization_name.
  rewrite !or_else_provided, split_at_0_before_first.
  destruct (provided _), (provided _); reflexivity.
Qed.

Lemma connect_orgName_cases (organizationName fullName emailDomain : option string) :
  connect_orgName organizationName fullName emailDomain =
  match provided organizationName, provided fullName with
  | Some o, _ => o
  | None, Some f => f +:+ "'s Workspace"
  | None, None => template emailDomain +:+ " Workspace"
  end.
Proof.
  unfold connect_orgName, truthy_str. rewrite or_else_provided.
  destruct organizationName as [o |], fullName as [f |]; cbn;
    repeat match goal with |- context [String.eqb ?x EmptyString] => destruct (String.eqb x EmptyString) end;
    reflexivity.
Qed.

Lemma names_sent_nil : names_sent [] = [].
Proof. reflexivity. Qed.

Lemma names_sent_cons (ev : Event) (evs : list Event) :
  names_sent (ev :: evs) =
  (match ev with
   | EvFetch r => match Request.body r with Some b => [SignupBody.name b] | None => [] end
   | _ => []
   end ++ names_sent evs)%list.
Proof. destruct ev as [r | | | | |]; try reflexivity. cbn. destruct (Request.body r); reflexivity. Qed.

Lemma names_sent_app (evs1 evs2 : list Event) :
  names_sent (evs1 ++ evs2) = (names_sent evs1 ++ names_sent evs2)%list.
Proof.
  induction evs1 as [| ev evs1 IH]; [reflexivity |].
  cbn [app]. rewrite !names_sent_cons, IH. apply app_assoc.
Qed.

Lemma names_sent_no_calls (evs : list Event) :
  backend_calls evs = [] -> names_sent evs = [].
Proof. unfold names_sent. intros ->. reflexivity. Qed.

Ltac names :=
  trace_done;
  repeat first [ rewrite names_sent_cons | rewrite names_sent_app
               | rewrite names_sent_nil | rewrite names_sent_no_calls by assumption ];
  cbn [app Request.body health_request organization_request signup_request
       SignupBody.name OrganizationSignupRequest.name In].

(** C1, amended: every organization name the signup action sends to the
    backend is the specification's: the organizationName if provided, else
    the fullName, else the part of the email before the first ['@']. Every
    name the connect endpoint sends is the organizationName of the body if
    provided, else the fullName followed by "'s Workspace" if provided,
    else the domain of the account's email ([email.split('@')[1]])
    followed by " Workspace". *)
Theorem organization_name_sent :
  (forall input baseUrl env st name,
     In name (names_sent (events_after st (signup input baseUrl env st).2)) ->
     name = spec_organization_name (SignupWithEmailInput.organizationName input)
              (SignupWithEmailInput.fullName input) (SignupWithEmailInput.email input)) /\
  (forall request env st name,
     In name (names_sent (events_after st (POST request env st).2)) ->
     exists s userId user body email,
       provider_session env = Return s /\ Session.user_id s = Some userId /\
       users st !! userId = Some user /\ User.email user = Some email /\
       NextRequest.json request = Some body /\
       name = match provided (ConnectBody.organizationName body),
                    provided (ConnectBody.fullName body) with
              | Some o, _ => o
              | None, Some f => f +:+ "'s Workspace"
              | None, None => template (split_at_1 email) +:+ " Workspace"
              end).
Proof.
  split.
  - intros input baseUrl env st name.
    rewrite <- signup_organizationName_spec.
    unfold signup, auth_signUp. step_M.
    destruct (provider_signUp env (signup_data input baseUrl)) as [[u e] | x]; step_M;
      [| names; tauto].
    destruct e; [destruct u; names; tauto |].
    destruct u as [user |]; step_M; [| names; tauto].
    destruct (backend env (health_request (knowbookApi env))) as [hr | text] eqn:Hh.
    2: { rewrite (isKnowbookApiAvailable_rejects _ _ _ Hh). names. tauto. }
    rewrite (isKnowbookApiAvailable_resolves _ _ _ Hh). step_M.
    destruct (Response.ok hr); [| names; tauto].
    next_call. destruct out as [result | err]; step_M.
    + destruct (KnowbookUser.api_key (OrganizationSignupResponse.admin_user result))
        as [k |]; [destruct (String.eqb k EmptyString) |]; step_M;
        try next_call; names; intuition.
    + destruct (is_KnowbookApiError err); names; intuition.
  - intros request env st name.
    unfold POST, auth_getUser, request_json. step_M.
    destruct (provider_session env) as [[uid e] | x] eqn:Hs; step_M;
      [| destruct x; names; tauto].
    destruct e; [names; tauto |].
    destruct uid as [userId |]; [| names; tauto].
    destruct (users st !! userId) as [user |] eqn:Hu; [| names; tauto].
    destruct (truthy (get (User.user_metadata user) "knowbook_api_key"));
      [names; tauto |].
    destruct (NextRequest.json request) as [body |] eqn:Hj; step_M; [| names; tauto].
    destruct (User.email user) as [email |] eqn:He; [| names; tauto].
    destruct (String.eqb email EmptyString); [names; tauto |].
    destruct (backend env (health_request (knowbookApi env))) as [hr | text] eqn:Hh.
    2: { rewrite (isKnowbookApiAvailable_rejects _ _ _ Hh). names. tauto. }
    rewrite (isKnowbookApiAvailable_resolves _ _ _ Hh). step_M.
    destruct (Response.ok hr); cbn [negb]; [| names; tauto].
    intros Hin.
    exists {| Session.user_id := Some userId; Session.error := None |}, userId, user, body, email.
    do 5 (split; [reflexivity || assumption |]).
    rewrite <- connect_orgName_cases.
    revert Hin. next_call. destruct out as [result | err]; step_M.
    + destruct (KnowbookUser.api_key (OrganizationSignupResponse.admin_user result))
        as [k |]; [destruct (String.eqb k EmptyString) |]; step_M.
      * names; intuition.
      * next_call. destruct (StoreResult.success res); cbn [negb]; names; intuition.
      * names; intuition.
    + destruct err; names; intuition.
Qed.

(** * Further properties

    Beyond the claims: the remaining paths of the client, of the store
    adapter, of the signup action and of the connect endpoint, and how the
    operations compose. *)

(** ** The Backend API client, further *)

(** X1: a response in 200-299. When its body is JSON, the client returns
    that body as it is, after exactly one call and without logging or
    changing anything else. When it is not, the failure is reported like a
    transport failure: the client throws the typed error with status 500,
    whatever the status of the response was, and logs the error. *)
Theorem createOrganizationWithAdmin_success (this : KnowbookApiClient)
    (signupData : OrganizationSignupRequest.t) (env : Env) (st : St) (r : Response.t) :
  backend env (signup_request this signupData) = Resolves r ->
  Response.ok r = true ->
  match Response.json_result r with
  | Some result =>
    createOrganizationWithAdmin this signupData env st =
    (Return result, add_events [EvFetch (signup_request this signupData)] st)
  | None =>
    exists details,
      createOrganizationWithAdmin this signupData env st =
      (Throw (KnowbookApiError "Network error connecting to Knowbook API" 500 (Some details)),
       add_events [EvFetch (signup_request this signupData);
                   EvConsole LogError "Knowbook API error:"] st)
  end.
Proof.
  intros Hb Hok. unfold createOrganizationWithAdmin. step_M.
  rewrite Hb. step_M. rewrite Hok. step_M.
  destruct (Response.json_result r) as [result |]; step_M.
  - finish_run.
  - eexists. rewrite <- ?app_assoc. reflexivity.
Qed.

(** X2: a response outside 200-299. When its body is JSON other than
    [null], the client throws the typed error with the status of the
    response, the [detail] of the body, and as message the [error] text of
    the body when it is not empty and "Failed to create organization"
    otherwise. When the body is not JSON, it throws the typed error with
    that fallback message, the status of the response and no detail.
    Nothing is logged on these two paths. When the body is [null], reading
    it throws: the failure is reported like a transport failure, with
    status 500 whatever the status of the response was, and is logged. *)
Theorem createOrganizationWithAdmin_failure_message (this : KnowbookApiClient)
    (signupData : OrganizationSignupRequest.t) (env : Env) (st : St) (r : Response.t) :
  backend env (signup_request this signupData) = Resolves r ->
  Response.ok r = false ->
  match Response.json_error r with
  | JsonObject e =>
    createOrganizationWithAdmin this signupData env st =
    (Throw (KnowbookApiError
              (default "Failed to create organization" (provided (Some (ApiError.error e))))
              (Response.status r) (ApiError.detail e)),
     add_events [EvFetch (signup_request this signupData)] st)
  | NotJson =>
    createOrganizationWithAdmin this signupData env st =
    (Throw (KnowbookApiError "Failed to create organization" (Response.status r) None),
     add_events [EvFetch (signup_request this signupData)] st)
  | JsonNull =>
    exists details,
      createOrganizationWithAdmin this signupData env st =
      (Throw (KnowbookApiError "Network error connecting to Knowbook API" 500 (Some details)),
       add_events [EvFetch (signup_request this signupData);
                   EvConsole LogError "Knowbook API error:"] st)
  end.
Proof.
  intros Hb Hok. unfold createOrganizationWithAdmin. step_M.
  rewrite Hb. step_M. rewrite Hok. step_M.
  destruct (Response.json_error r) as [| | e]; unfold null_property_error; step_M.
  - reflexivity.
  - eexists. rewrite <- ?app_assoc. reflexivity.
  - rewrite <- or_else_provided. reflexivity.
Qed.

Lemma backend_calls_fetch (r : Request.t) (evs : list Event) :
  backend_calls (EvFetch r :: evs) = r :: backend_calls evs.
Proof. reflexivity. Qed.

(** X3: whatever the backend answers, [createKnowbookOrganization] makes
    exactly one call: a POST to [/organizations/signup] under the
    configured base URL (the environment variable when set and not empty,
    else the localhost default), whose body carries the given name, admin
    name, admin email and domain, the plan when one is given and not empty
    and "free" otherwise, and the admin type "human". *)
Theorem createKnowbookOrganization_request (organizationName adminName adminEmail : string)
    (domain plan : option string) (env : Env) (st : St) :
  let run :=
    createKnowbookOrganization organizationName adminName adminEmail domain plan env st in
  exists req body,
    backend_calls (events_after st run.2) = [req] /\
    Request.url req =
      default "http://localhost:8000/api/v1" (provided (NEXT_PUBLIC_KNOWBOOK_API_URL env))
      +:+ "/organizations/signup" /\
    Request.method req = "POST" /\
    Request.body req = Some body /\
    SignupBody.name body = organizationName /\
    SignupBody.admin_name body = adminName /\
    SignupBody.admin_email body = adminEmail /\
    SignupBody.domain body = domain /\
    SignupBody.plan body = default "free" (provided plan) /\
    SignupBody.admin_type body = "human".
Proof.
  intros run. subst run.
  destruct (createKnowbookOrganization_run env st organizationName adminName adminEmail
              domain plan) as (out & logs & -> & Hcalls & _ & _).
  step_M. rewrite events_after_app, backend_calls_fetch, Hcalls.
  do 2 eexists. split; [reflexivity |].
  unfold organization_request, signup_request, knowbookApi, new_KnowbookApiClient.
  cbn [Request.url Request.method Request.body baseUrl SignupBody.name
       SignupBody.admin_name SignupBody.admin_email SignupBody.domain SignupBody.plan
       SignupBody.admin_type OrganizationSignupRequest.name
       OrganizationSignupRequest.admin_name OrganizationSignupRequest.admin_email
       OrganizationSignupRequest.domain OrganizationSignupRequest.plan
       OrganizationSignupRequest.admin_type].
  rewrite !or_else_provided. cbn [provided from_option id].
  repeat split; reflexivity.
Qed.

(** X4: each probe makes exactly one call to the backend, a GET without
    body ([/me] with the key in the [X-API-Key] header, [/health] with the
    5000 ms timeout), writes no metadata and leaves the user table and the
    clock alone; it logs an error exactly when [fetch] rejects, not when
    the answer is a failure status. *)
Theorem probes_effects (this : KnowbookApiClient) (apiKey : string) (env : Env) (st : St) :
  (let run := validateApiKey this apiKey env st in
   let evs := events_after st run.2 in
   backend_calls evs = [me_request this apiKey] /\
   metadata_writes evs = [] /\ users run.2 = users st /\ ticks run.2 = ticks st /\
   (errors_logged evs = [] <->
    exists r, backend env (me_request this apiKey) = Resolves r)) /\
  (let run := healthCheck this env st in
   let evs := events_after st run.2 in
   backend_calls evs = [health_request this] /\
   metadata_writes evs = [] /\ users run.2 = users st /\ ticks run.2 = ticks st /\
   (errors_logged evs = [] <->
    exists r, backend env (health_request this) = Resolves r)).
Proof.
  split.
  - unfold validateApiKey. step_M.
    destruct (backend env (me_request this apiKey)) as [r | text]; trace_done;
      repeat split; eauto; try discriminate.
    intros (r & Hr). discriminate.
  - unfold healthCheck. step_M.
    destruct (backend env (health_request this)) as [r | text]; trace_done;
      repeat split; eauto; try discriminate.
    intros (r & Hr). discriminate.
Qed.

(** ** The credential store adapter, further *)

Lemma updateApiKeyValidation_written (userId : string) (env : Env) (st : St) (u : User.t) :
  provider_getUserById env userId = None ->
  users st !! userId = Some u ->
  provider_updateUserById env userId = None ->
  updateApiKeyValidation userId env st =
  (Return tt,
   {| users :=
        <[userId :=
            {| User.id := User.id u;
               User.email := User.email u;
               User.user_metadata :=
                 apply_update (provider_semantics env)
                   (<["api_key_last_validated" := JsStr (toISOString (clock env (ticks st)))]>
                      (User.user_metadata u))
                   (User.user_metadata u) |}]> (users st);
      ticks := S (ticks st);
      trace := trace st ++
               [EvAdminGetUserById userId;
                EvAdminUpdateUserById userId
                  (<["api_key_last_validated" := JsStr (toISOString (clock env (ticks st)))]>
                     (User.user_metadata u))] |}).
Proof.
  intros Hg Hu Hf.
  unfold updateApiKeyValidation, admin_getUserById, admin_updateUserById. step_M.
  rewrite Hg, Hu. step_M. rewrite Hf, Hu. finish_run.
Qed.

Lemma getKnowbookApiKey_found (userId : string) (env : Env) (st : St) (u : User.t) :
  provider_getUserById env userId = None ->
  users st !! userId = Some u ->
  getKnowbookApiKey userId env st =
  (Return (or_null (get (User.user_metadata u) "knowbook_api_key")),
   add_events [EvAdminGetUserById userId] st).
Proof.
  intros Hg Hu. unfold getKnowbookApiKey, admin_getUserById. step_M.
  rewrite Hg, Hu. finish_run.
Qed.

(** What the provider holds for a field the update defines. *)
Lemma get_apply_update_defined (sem : UpdateSemantics) (payload old : gmap string JsVal)
    (k : string) (s : string) :
  get payload k = JsStr s -> get (apply_update sem payload old) k = JsStr s.
Proof. intros Hk. rewrite get_apply_update; [exact Hk | left; congruence]. Qed.

(** What the provider holds after a touch of the validation stamp. *)
Lemma get_touched (sem : UpdateSemantics) (old : gmap string JsVal) (stamp k : string) :
  get (apply_update sem (<["api_key_last_validated" := JsStr stamp]> old) old) k =
  if decide (k = "api_key_last_validated") then JsStr stamp else get old k.
Proof.
  rewrite get_apply_update.
  - unfold get. rewrite lookup_insert. destruct (decide ("api_key_last_validated" = k));
      destruct (decide (k = "api_key_last_validated")); cbn; congruence.
  - unfold get. rewrite lookup_insert.
    destruct (decide ("api_key_last_validated" = k));
      [left; discriminate | right; reflexivity].
Qed.

(** X5: [getKnowbookApiKey] never throws and changes nothing: it resolves
    to the stored key when the account is found and its key is truthy, and
    to [null] otherwise; a failed lookup is logged once, a missing key is
    not. It calls neither the backend nor the update API. *)
Theorem getKnowbookApiKey_reads (userId : string) (env : Env) (st : St) :
  let run := getKnowbookApiKey userId env st in
  let evs := events_after st run.2 in
  exists v,
    run.1 = Return v /\
    (v = JsNull \/ truthy v = true) /\
    users run.2 = users st /\ backend_calls evs = [] /\ metadata_writes evs = [] /\
    (forall user,
       provider_getUserById env userId = None -> users st !! userId = Some user ->
       v = or_null (get (User.user_metadata user) "knowbook_api_key") /\
       errors_logged evs = []) /\
    (provider_getUserById env userId <> None \/ users st !! userId = None ->
     v = JsNull /\ exists text, errors_logged evs = [text]).
Proof.
  intros run evs. subst run evs.
  unfold getKnowbookApiKey, admin_getUserById. step_M.
  destruct (provider_getUserById env userId) as [[message | e] |] eqn:Hg; trace_done.
  1, 2: eexists; repeat split; eauto; congruence.
  destruct (users st !! userId) as [u |] eqn:Hu; trace_done.
  - eexists. split; [reflexivity |]. split.
    + unfold or_null. destruct (truthy _) eqn:Ht; auto.
    + repeat split; auto; try congruence; exfalso; intuition congruence.
  - eexists; repeat split; eauto; congruence.
Qed.

(** X6, round trip: after [storeKnowbookApiKey] has stored a non-empty key
    for an account, [getKnowbookApiKey] for that account resolves to that
    key, whether the provider replaces or merges metadata. *)
Theorem store_then_getKnowbookApiKey (userId apiKey : string)
    (knowbookUserId organizationId : option string) (env : Env) (st : St) :
  provider_updateUserById env userId = None ->
  provider_getUserById env userId = None ->
  is_Some (users st !! userId) ->
  apiKey <> EmptyString ->
  let stored := (storeKnowbookApiKey userId apiKey knowbookUserId organizationId env st).2 in
  (getKnowbookApiKey userId env stored).1 = Return (JsStr apiKey).
Proof.
  intros Hf Hg [u Hu] Hne stored. subst stored.
  rewrite (storeKnowbookApiKey_written _ _ _ _ _ _ u Hf Hu). cbn [snd].
  erewrite getKnowbookApiKey_found; [| exact Hg | apply lookup_insert_eq].
  cbn [fst User.user_metadata].
  pose proof (knowbook_metadata_get apiKey knowbookUserId organizationId
                (clock env (ticks st)) (clock env (S (ticks st)))) as (Hkey & _).
  rewrite (get_apply_update_defined _ _ _ _ _ Hkey).
  unfold or_null. cbn [truthy]. apply String.eqb_neq in Hne. rewrite Hne. reflexivity.
Qed.

(** X7, composition: a key stored and then touched by
    [updateApiKeyValidation] is still there, with the user id, the
    organization id and the creation stamp it was stored with; only the
    validation stamp has moved, to the reading of the clock at the touch. *)
Theorem store_then_updateApiKeyValidation (userId apiKey knowbookUserId organizationId : string)
    (env : Env) (st : St) :
  provider_updateUserById env userId = None ->
  provider_getUserById env userId = None ->
  is_Some (users st !! userId) ->
  let stored :=
    (storeKnowbookApiKey userId apiKey (Some knowbookUserId) (Some organizationId) env st).2 in
  let touched := (updateApiKeyValidation userId env stored).2 in
  exists user,
    users touched !! userId = Some user /\
    get (User.user_metadata user) "knowbook_api_key" = JsStr apiKey /\
    get (User.user_metadata user) "knowbook_user_id" = JsStr knowbookUserId /\
    get (User.user_metadata user) "knowbook_organization_id" = JsStr organizationId /\
    get (User.user_metadata user) "api_key_created_at" =
      JsStr (toISOString (clock env (ticks st))) /\
    get (User.user_metadata user) "api_key_last_validated" =
      JsStr (toISOString (clock env (S (S (ticks st))))).
Proof.
  intros Hf Hg [u Hu] stored touched. subst touched stored.
  rewrite (storeKnowbookApiKey_written _ _ _ _ _ _ u Hf Hu). cbn [snd].
  erewrite updateApiKeyValidation_written; [| exact Hg | apply lookup_insert_eq | exact Hf].
  cbn [snd users ticks]. eexists. rewrite lookup_insert_eq. split; [reflexivity |].
  cbn [User.user_metadata]. rewrite !get_touched.
  pose proof (knowbook_metadata_get apiKey (Some knowbookUserId) (Some organizationId)
                (clock env (ticks st)) (clock env (S (ticks st))))
    as (Hkey & Huid & Hoid & Hcreated & _).
  repeat split;
    try (destruct (decide _) as [[=] |]; apply get_apply_update_defined; assumption).
Qed.

(** X8: after a touch that went through, the account's record is not
    stale for the next 24 hours, whatever its stamp was before (given that
    the Date runtime reads back what it wrote for that instant). *)
Theorem updateApiKeyValidation_refreshes (userId : string) (env : Env) (st : St)
    (user : User.t) (now : Z) :
  provider_getUserById env userId = None ->
  users st !! userId = Some user ->
  provider_updateUserById env userId = None ->
  toISOString (clock env (ticks st)) <> EmptyString ->
  Date_parse (toISOString (clock env (ticks st))) = Some (clock env (ticks st)) ->
  now - clock env (ticks st) <= 24 * 60 * 60 * 1000 ->
  exists user',
    users (updateApiKeyValidation userId env st).2 !! userId = Some user' /\
    shouldRefreshApiKey now (knowbook_fields (User.user_metadata user')) = false.
Proof.
  intros Hg Hu Hf Hne Hparse Hnow.
  rewrite (updateApiKeyValidation_written _ _ _ _ Hg Hu Hf). cbn [snd users].
  eexists. rewrite lookup_insert_eq. split; [reflexivity |].
  unfold shouldRefreshApiKey, knowbook_fields.
  cbn [KnowbookUserMetadata.api_key_last_validated User.user_metadata].
  rewrite get_touched. destruct (decide _); [| congruence]. cbn [as_string].
  apply String.eqb_neq in Hne. rewrite Hne, Hparse.
  apply not_true_iff_false. rewrite hoursSinceValidation_gt_24. lia.
Qed.

(** X9: the adapter does not guard against a second key: storing again
    for the same account replaces the key, the ids and both stamps by the
    new ones. *)
Theorem storeKnowbookApiKey_overwrites (userId key1 key2 : string)
    (user1 org1 : option string) (user2 org2 : string) (env : Env) (st : St) :
  provider_updateUserById env userId = None ->
  is_Some (users st !! userId) ->
  let first := (storeKnowbookApiKey userId key1 user1 org1 env st).2 in
  let second := (storeKnowbookApiKey userId key2 (Some user2) (Some org2) env first).2 in
  exists user,
    users second !! userId = Some user /\
    get (User.user_metadata user) "knowbook_api_key" = JsStr key2 /\
    get (User.user_metadata user) "knowbook_user_id" = JsStr user2 /\
    get (User.user_metadata user) "knowbook_organization_id" = JsStr org2 /\
    get (User.user_metadata user) "api_key_created_at" =
      JsStr (toISOString (clock env (S (S (ticks st))))) /\
    get (User.user_metadata user) "api_key_last_validated" =
      JsStr (toISOString (clock env (S (S (S (ticks st)))))).
Proof.
  intros Hf [u Hu] first second. subst second first.
  rewrite (storeKnowbookApiKey_written _ _ _ _ _ _ u Hf Hu). cbn [snd].
  erewrite storeKnowbookApiKey_written; [| exact Hf | apply lookup_insert_eq].
  cbn [snd users ticks]. eexists. rewrite lookup_insert_eq. split; [reflexivity |].
  cbn [User.user_metadata].
  pose proof (knowbook_metadata_get key2 (Some user2) (Some org2)
                (clock env (S (S (ticks st)))) (clock env (S (S (S (ticks st))))))
    as (Hkey & Huid & Hoid & Hcreated & Hvalidated).
  repeat split; apply get_apply_update_defined; assumption.
Qed.

(** X10: what [storeKnowbookApiKey] leaves alone: it reads the clock
    exactly twice and never calls the backend; no other account changes;
    the account itself keeps its id and email; an unknown account is not
    created; and when the result is a failure the user table is as
    before. *)
Theorem storeKnowbookApiKey_frame (userId apiKey : string)
    (knowbookUserId organizationId : option string) (env : Env) (st : St) :
  let run := storeKnowbookApiKey userId apiKey knowbookUserId organizationId env st in
  ticks run.2 = S (S (ticks st)) /\
  backend_calls (events_after st run.2) = [] /\
  (forall other, other <> userId -> users run.2 !! other = users st !! other) /\
  (forall user, users st !! userId = Some user ->
     exists user', users run.2 !! userId = Some user' /\
       User.id user' = User.id user /\ User.email user' = User.email user) /\
  (users st !! userId = None -> users run.2 = users st) /\
  (forall res, run.1 = Return res -> StoreResult.success res = false ->
     users run.2 = users st).
Proof.
  intros run. subst run.
  destruct (provider_updateUserById env userId) as [[message | e] |] eqn:Hf.
  - rewrite (storeKnowbookApiKey_error _ _ _ _ _ _ message Hf). trace_done.
    repeat split; eauto.
  - rewrite (storeKnowbookApiKey_throws _ _ _ _ _ _ e Hf). trace_done.
    repeat split; eauto.
  - destruct (users st !! userId) as [u |] eqn:Hu.
    + rewrite (storeKnowbookApiKey_written _ _ _ _ _ _ u Hf Hu). trace_done.
      split; [reflexivity |]. split; [reflexivity |].
      split; [intros other Hother; apply lookup_insert_ne; congruence |].
      split.
      * intros user [= <-]. eexists. rewrite lookup_insert_eq. split; [reflexivity |].
        split; reflexivity.
      * split; [discriminate |]. intros res [= <-]. discriminate.
    + rewrite (storeKnowbookApiKey_no_user _ _ _ _ _ _ Hf Hu). trace_done.
      repeat split; eauto. discriminate.
Qed.

Lemma auth_getUser_returns (env : Env) (st : St) (s : Session.t) :
  provider_session env = Return s ->
  auth_getUser env st =
  (Return (match Session.user_id s with
           | Some uid => users st !! uid
           | None => None
           end, Session.error s),
   add_events [EvGetUser] st).
Proof. intros Hs. unfold auth_getUser. step_M. rewrite Hs. finish_run. Qed.

Lemma auth_getUser_throws (env : Env) (st : St) (e : Exn) :
  provider_session env = Throw e ->
  auth_getUser env st = (Throw e, add_events [EvGetUser] st).
Proof. intros Hs. unfold auth_getUser. step_M. rewrite Hs. finish_run. Qed.

Lemma auth_getUser_signed_in (env : Env) (st : St) (user : User.t) :
  signed_in env st user ->
  auth_getUser env st = (Return (Some user, None), add_events [EvGetUser] st).
Proof.
  intros (s & userId & Hs & He & Hid & Hu).
  rewrite (auth_getUser_returns _ _ _ Hs), Hid, He, Hu. reflexivity.
Qed.

(** X11: the client-side reads never throw. For a signed-in account they
    give its key (or [null] when it has none) and its five Knowbook
    fields; without one they give [null] and no fields.
    [hasValidKnowbookApiKey] is the truthiness of the key read, so it only
    says that a key is stored, not that the backend accepts it: it makes
    no call to the backend. *)
Theorem client_reads (env : Env) (st : St) :
  exists key fields has,
    (ClientUserMetadata.getKnowbookApiKey env st).1 = Return key /\
    (ClientUserMetadata.getKnowbookMetadata env st).1 = Return fields /\
    (ClientUserMetadata.hasValidKnowbookApiKey env st).1 = Return has /\
    has = truthy key /\
    backend_calls
      (events_after st (ClientUserMetadata.hasValidKnowbookApiKey env st).2) = [] /\
    (forall user, signed_in env st user ->
       key = or_null (get (User.user_metadata user) "knowbook_api_key") /\
       fields = Some (knowbook_fields (User.user_metadata user))) /\
    ((forall user, ~ signed_in env st user) -> key = JsNull /\ fields = None).
Proof.
  unfold ClientUserMetadata.hasValidKnowbookApiKey, ClientUserMetadata.getKnowbookApiKey,
    ClientUserMetadata.getKnowbookMetadata. step_M.
  destruct (provider_session env) as [[uid error] | e] eqn:Hs.
  - rewrite (auth_getUser_returns _ _ _ Hs). cbn [Session.user_id Session.error]. step_M.
    assert (Hin : forall user,
              signed_in env st user ->
              error = None /\ exists userId, uid = Some userId /\ users st !! userId = Some user).
    { intros user (s & userId & Hs' & He & Hid & Hu). rewrite Hs in Hs'.
      injection Hs' as <-. cbn in He, Hid. eauto. }
    destruct error as [message |]; step_M.
    { trace_done. do 3 eexists. do 5 (split; [reflexivity |]). split; [| auto].
      intros user Huser. destruct (Hin user Huser) as [[=] _]. }
    destruct uid as [userId |]; [destruct (users st !! userId) as [u |] eqn:Hu |]; trace_done.
    + do 3 eexists. do 5 (split; [reflexivity |]). split.
      * intros user Huser. destruct (Hin user Huser) as (_ & userId' & [= <-] & Hu').
        rewrite Hu in Hu'. injection Hu' as <-. auto.
      * intros Hout. exfalso. apply (Hout u).
        exists {| Session.user_id := Some userId; Session.error := None |}, userId. auto.
    + do 3 eexists. do 5 (split; [reflexivity |]). split; [| auto].
      intros user Huser. destruct (Hin user Huser) as (_ & userId' & [= <-] & Hu').
      congruence.
    + do 3 eexists. do 5 (split; [reflexivity |]). split; [| auto].
      intros user Huser. destruct (Hin user Huser) as (_ & userId' & [=] & _).
  - rewrite (auth_getUser_throws _ _ _ Hs). trace_done.
    do 3 eexists. do 5 (split; [reflexivity |]). split; [| auto].
    intros user (s & userId & Hs' & _). congruence.
Qed.

(** X12, round trip: once [storeKnowbookApiKey] has stored a key for the
    signed-in account, the client reads back exactly what was stored: the
    key, both ids and the two stamps; and [hasValidKnowbookApiKey] is
    [true] when the key is not empty. *)
Theorem store_then_client_reads (userId apiKey knowbookUserId organizationId : string)
    (env : Env) (st : St) (s : Session.t) :
  provider_session env = Return s ->
  Session.error s = None ->
  Session.user_id s = Some userId ->
  provider_updateUserById env userId = None ->
  is_Some (users st !! userId) ->
  apiKey <> EmptyString ->
  let stored :=
    (storeKnowbookApiKey userId apiKey (Some knowbookUserId) (Some organizationId) env st).2 in
  (ClientUserMetadata.getKnowbookMetadata env stored).1 =
  Return (Some {| KnowbookUserMetadata.knowbook_api_key := Some apiKey;
                  KnowbookUserMetadata.knowbook_user_id := Some knowbookUserId;
                  KnowbookUserMetadata.knowbook_organization_id := Some organizationId;
                  KnowbookUserMetadata.api_key_created_at :=
                    Some (toISOString (clock env (ticks st)));
                  KnowbookUserMetadata.api_key_last_validated :=
                    Some (toISOString (clock env (S (ticks st)))) |}) /\
  (ClientUserMetadata.hasValidKnowbookApiKey env stored).1 = Return true.
Proof.
  intros Hs He Hid Hf [u Hu] Hne stored. subst stored.
  rewrite (storeKnowbookApiKey_written _ _ _ _ _ _ u Hf Hu). cbn [snd].
  pose proof (knowbook_metadata_get apiKey (Some knowbookUserId) (Some organizationId)
                (clock env (ticks st)) (clock env (S (ticks st))))
    as (Hkey & Huid & Hoid & Hcreated & Hvalidated).
  unfold ClientUserMetadata.hasValidKnowbookApiKey, ClientUserMetadata.getKnowbookApiKey,
    ClientUserMetadata.getKnowbookMetadata. step_M.
  rewrite !(auth_getUser_returns _ _ _ Hs), Hid, He. cbn [users]. rewrite lookup_insert_eq.
  step_M. cbn [User.user_metadata]. unfold knowbook_fields.
  rewrite !(get_apply_update_defined _ _ _ _ _ Hkey),
    !(get_apply_update_defined _ _ _ _ _ Huid), !(get_apply_update_defined _ _ _ _ _ Hoid),
    !(get_apply_update_defined _ _ _ _ _ Hcreated),
    !(get_apply_update_defined _ _ _ _ _ Hvalidated).
  split; [reflexivity |].
  unfold or_null. cbn [truthy]. apply String.eqb_neq in Hne. rewrite Hne. cbn.
  rewrite Hne. reflexivity.
Qed.

(** ** Staleness, further *)

(** X13: the edges of [shouldRefreshApiKey] for a record with a non-empty
    stamp. A stamp that is not a date is never stale, at any time. For a
    stamp that is a date: at exactly 24 hours the record is not yet stale,
    a stamp in the future is not stale, and once stale the record stays
    stale as time goes on. *)
Theorem shouldRefreshApiKey_edges (metadata : KnowbookUserMetadata.t) (text : string) :
  KnowbookUserMetadata.api_key_last_validated metadata = Some text ->
  text <> EmptyString ->
  (Date_parse text = None -> forall now, shouldRefreshApiKey now metadata = false) /\
  (forall lastValidated, Date_parse text = Some lastValidated ->
     shouldRefreshApiKey (lastValidated + 24 * 60 * 60 * 1000) metadata = false /\
     (forall now, now <= lastValidated -> shouldRefreshApiKey now metadata = false) /\
     (forall now later, shouldRefreshApiKey now metadata = true -> now <= later ->
        shouldRefreshApiKey later metadata = true)).
Proof.
  intros Hlast Hne. unfold shouldRefreshApiKey. rewrite Hlast.
  apply String.eqb_neq in Hne. rewrite Hne. split.
  - intros ->. reflexivity.
  - intros lastValidated ->. split; [| split].
    + apply not_true_iff_false. rewrite hoursSinceValidation_gt_24. lia.
    + intros now Hnow. apply not_true_iff_false. rewrite hoursSinceValidation_gt_24. lia.
    + intros now later. rewrite !hoursSinceValidation_gt_24. lia.
Qed.

(** ** Reading the trace *)

Lemma backend_calls_cons (ev : Event) (evs : list Event) :
  backend_calls (ev :: evs) =
  (match ev with EvFetch r => [r] | _ => [] end ++ backend_calls evs)%list.
Proof. destruct ev; reflexivity. Qed.

Lemma backend_calls_app (evs1 evs2 : list Event) :
  backend_calls (evs1 ++ evs2) = (backend_calls evs1 ++ backend_calls evs2)%list.
Proof. apply omap_app. Qed.

Lemma metadata_writes_cons (ev : Event) (evs : list Event) :
  metadata_writes (ev :: evs) =
  (match ev with EvAdminUpdateUserById userId m => [(userId, m)] | _ => [] end
   ++ metadata_writes evs)%list.
Proof. destruct ev; reflexivity. Qed.

Lemma metadata_writes_app (evs1 evs2 : list Event) :
  metadata_writes (evs1 ++ evs2) = (metadata_writes evs1 ++ metadata_writes evs2)%list.
Proof. apply omap_app. Qed.

(** Normalise the observations of a trace whose shape is known. *)
Ltac observe :=
  trace_done;
  repeat first
    [ rewrite backend_calls_cons | rewrite backend_calls_app
    | rewrite metadata_writes_cons | rewrite metadata_writes_app
    | match goal with
      | H : backend_calls ?l = [] |- context [backend_calls ?l] => rewrite H
      | H : metadata_writes ?l = [] |- context [metadata_writes ?l] => rewrite H
      end ];
  change (backend_calls []) with (@nil Request.t);
  change (metadata_writes []) with (@nil (string * gmap string JsVal));
  cbn [app].

Lemma auth_signUp_created (env : Env) (st : St) (d : SignUpData.t) (r : SignUpResult.t)
    (user : User.t) :
  provider_signUp env d = Return r ->
  SignUpResult.user r = Some user -> SignUpResult.error r = None ->
  auth_signUp d env st =
  (Return r,
   {| users := <[User.id user := user]> (users st); ticks := ticks st;
      trace := trace st ++ [EvSignUp d] |}).
Proof.
  intros Hr Hu He. unfold auth_signUp. step_M. rewrite Hr, Hu, He. reflexivity.
Qed.

(** ** The signup action, further *)

(** X14, the path on which everything works: the account is created, the
    backend is healthy and returns a non-empty key, the provider accepts
    the update. Then the action has made exactly the health call and the
    organization call, has written once, for the new account, the object
    with the returned key and ids, the provider holds that key for the
    account, and the action ends with the redirect to the confirmation
    page. *)
Theorem signup_connects (input : SignupWithEmailInput.t) (baseUrl : string)
    (env : Env) (st : St) (r : SignUpResult.t) (user : User.t)
    (health created : Response.t) (result : OrganizationSignupResponse.t) (key : string) :
  provider_signUp env (signup_data input baseUrl) = Return r ->
  SignUpResult.user r = Some user -> SignUpResult.error r = None ->
  backend env (health_request (knowbookApi env)) = Resolves health ->
  Response.ok health = true ->
  backend env (signup_organization_request env input) = Resolves created ->
  Response.ok created = true ->
  Response.json_result created = Some result ->
  KnowbookUser.api_key (OrganizationSignupResponse.admin_user result) = Some key ->
  key <> EmptyString ->
  provider_updateUserById env (User.id user) = None ->
  let run := signup input baseUrl env st in
  let evs := events_after st run.2 in
  let admin := OrganizationSignupResponse.admin_user result in
  let organization := OrganizationSignupResponse.organization result in
  run.1 = Throw (NextRedirect "/auth/signup/success") /\
  backend_calls evs =
    [health_request (knowbookApi env); signup_organization_request env input] /\
  metadata_writes evs =
    [(User.id user,
      knowbook_metadata key (Some (KnowbookUser.id admin))
        (Some (KnowbookOrganization.id organization))
        (clock env (ticks st)) (clock env (S (ticks st))))] /\
  exists stored,
    users run.2 !! User.id user = Some stored /\
    get (User.user_metadata stored) "knowbook_api_key" = JsStr key /\
    get (User.user_metadata stored) "knowbook_user_id" = JsStr (KnowbookUser.id admin) /\
    get (User.user_metadata stored) "knowbook_organization_id" =
      JsStr (KnowbookOrganization.id organization).
Proof.
  intros Hr Hu He Hh Hhok Hc Hcok Hcj Hkey Hne Hf run evs admin organization.
  subst evs run admin organization.
  unfold signup. step_M.
  rewrite (auth_signUp_created _ _ _ _ _ Hr Hu He). step_M. rewrite He, Hu. step_M.
  rewrite (isKnowbookApiAvailable_resolves _ _ _ Hh). step_M. rewrite Hhok. step_M.
  unfold signup_organization_request in Hc.
  rewrite (createKnowbookOrganization_ok _ _ _ _ _ _ _ _ _ Hc Hcok Hcj). step_M.
  rewrite Hkey. apply String.eqb_neq in Hne. rewrite Hne. step_M.
  erewrite storeKnowbookApiKey_written; [| exact Hf | apply lookup_insert_eq].
  observe. split; [reflexivity |]. split; [reflexivity |]. split; [reflexivity |].
  eexists. rewrite lookup_insert_eq. split; [reflexivity |]. cbn [User.user_metadata].
  pose proof (knowbook_metadata_get key
                (Some (KnowbookUser.id (OrganizationSignupResponse.admin_user result)))
                (Some (KnowbookOrganization.id
                         (OrganizationSignupResponse.organization result)))
                (clock env (ticks st)) (clock env (S (ticks st))))
    as (Hk & Huid & Hoid & _).
  repeat split; apply get_apply_update_defined; assumption.
Qed.

Lemma split_local_domain (local domain : string) :
  (forall c, In c (list_ascii_of_string local) -> c <> at_sign) ->
  split at_sign (local +:+ String at_sign domain) = local :: split at_sign domain.
Proof.
  induction local as [| c local IH]; intros Hno.
  - reflexivity.
  - simpl in Hno. simpl String.append. simpl split.
    destruct (Ascii.eqb_spec c at_sign) as [-> | _].
    + exfalso. apply (Hno at_sign); [left; reflexivity | reflexivity].
    + rewrite IH; [reflexivity |]. intros c' Hc'. apply Hno. right. exact Hc'.
Qed.

(** An address [local@domain], with no ['@'] in the local part, splits into
    the local part and the domain up to its first ['@']. *)
Lemma split_at_email (local domain : string) :
  (forall c, In c (list_ascii_of_string local) -> c <> at_sign) ->
  split_at_0 (local +:+ "@" +:+ domain) = local /\
  split_at_1 (local +:+ "@" +:+ domain) = Some (before_first at_sign domain).
Proof.
  intros Hno. unfold split_at_0, split_at_1.
  change (local +:+ "@" +:+ domain) with (local +:+ String at_sign domain).
  rewrite (split_local_domain _ _ Hno).
  destruct (split_before_first at_sign domain) as [rest ->]. auto.
Qed.

(** Defaulting twice is defaulting once: [(a || b) || b] is [a || b]. *)
Lemma or_else_idem (a : option string) (b : string) :
  or_else (Some (or_else a b)) b = or_else a b.
Proof.
  destruct a as [s |]; cbn.
  - destruct (String.eqb s EmptyString) eqn:Hs; [destruct (String.eqb b EmptyString) |];
      [reflexivity | reflexivity | rewrite Hs; reflexivity].
  - destruct (String.eqb b EmptyString); reflexivity.
Qed.

(** Case analysis on a call found among the calls of a run. *)
Ltac pick H :=
  cbn [In] in H;
  repeat match type of H with
         | _ \/ _ => destruct H as [H | H]
         | False => destruct H
         end.

(** X15: every call with a body that the signup action makes to the
    backend carries the email as admin email, the fullName when provided
    and the part of the email before the first ['@'] otherwise as admin
    name, the part of the email after its first ['@'] as domain, the plan
    of the input when provided and "free" otherwise, and the admin type
    "human". For an email [local@domain] the domain sent is [domain] (up to
    a second ['@']). *)
Theorem signup_request_fields (input : SignupWithEmailInput.t) (baseUrl : string)
    (env : Env) (st : St) (req : Request.t) (body : SignupBody.t) :
  In req (backend_calls (events_after st (signup input baseUrl env st).2)) ->
  Request.body req = Some body ->
  let email := SignupWithEmailInput.email input in
  SignupBody.admin_email body = email /\
  SignupBody.admin_name body =
    default (split_at_0 email) (provided (SignupWithEmailInput.fullName input)) /\
  SignupBody.domain body = split_at_1 email /\
  SignupBody.plan body = default "free" (provided (SignupWithEmailInput.plan input)) /\
  SignupBody.admin_type body = "human" /\
  forall local domain,
    email = local +:+ "@" +:+ domain ->
    (forall c, In c (list_ascii_of_string local) -> c <> at_sign) ->
    SignupBody.domain body = Some (before_first at_sign domain) /\
    (provided (SignupWithEmailInput.fullName input) = None ->
     SignupBody.admin_name body = local).
Proof.
  intros Hin Hbody email. subst email.
  assert (Hreq : req = signup_organization_request env input).
  { revert Hin. unfold signup, auth_signUp. step_M.
    destruct (provider_signUp env (signup_data input baseUrl)) as [[u e] | x]; step_M;
      [| observe; intros []].
    destruct e; [destruct u; observe; intros [] |].
    destruct u as [user |]; step_M; [| observe; intros []].
    destruct (backend env (health_request (knowbookApi env))) as [hr | text] eqn:Hh.
    2: { rewrite (isKnowbookApiAvailable_rejects _ _ _ Hh). observe.
         intros Hin. pick Hin. subst req. discriminate Hbody. }
    rewrite (isKnowbookApiAvailable_resolves _ _ _ Hh). step_M.
    destruct (Response.ok hr);
      [| observe; intros Hin; pick Hin; subst req; discriminate Hbody].
    next_call. destruct out as [result | err]; step_M.
    - destruct (KnowbookUser.api_key (OrganizationSignupResponse.admin_user result))
        as [k |]; [destruct (String.eqb k EmptyString) |]; step_M;
        try next_call; observe; intros Hin; pick Hin;
        solve [subst req; discriminate Hbody | symmetry; exact Hin].
    - destruct (is_KnowbookApiError err); observe; intros Hin; pick Hin;
        solve [subst req; discriminate Hbody | symmetry; exact Hin]. }
  subst req. cbn in Hbody. injection Hbody as <-.
  cbn [SignupBody.admin_email SignupBody.admin_name SignupBody.domain SignupBody.plan
       SignupBody.admin_type OrganizationSignupRequest.name
       OrganizationSignupRequest.admin_name OrganizationSignupRequest.admin_email
       OrganizationSignupRequest.domain OrganizationSignupRequest.plan
       OrganizationSignupRequest.admin_type].
  pose proof (or_else_idem (SignupWithEmailInput.plan input) "free") as Hplan.
  unfold or_else at 1 in Hplan. rewrite Hplan, !or_else_provided.
  do 5 (split; [reflexivity |]).
  intros local domain Hemail Hno. rewrite Hemail.
  destruct (split_at_email local domain Hno) as [H0 H1]. rewrite H0, H1.
  split; [reflexivity |]. intros ->. reflexivity.
Qed.

(** X16: the signup action writes metadata at most once, and only a key it
    has just received: any write is for the account the provider created,
    and its object holds the non-empty key, the admin user id and the
    organization id of the body that the backend returned to the
    organization call. *)
Theorem signup_writes_returned_key (input : SignupWithEmailInput.t) (baseUrl : string)
    (env : Env) (st : St) :
  let evs := events_after st (signup input baseUrl env st).2 in
  (length (metadata_writes evs) <= 1)%nat /\
  forall userId payload,
    In (userId, payload) (metadata_writes evs) ->
    exists r user created result key,
      provider_signUp env (signup_data input baseUrl) = Return r /\
      SignUpResult.user r = Some user /\ SignUpResult.error r = None /\
      userId = User.id user /\
      backend env (signup_organization_request env input) = Resolves created /\
      Response.ok created = true /\
      Response.json_result created = Some result /\
      KnowbookUser.api_key (OrganizationSignupResponse.admin_user result) = Some key /\
      key <> EmptyString /\
      get payload "knowbook_api_key" = JsStr key /\
      get payload "knowbook_user_id" =
        JsStr (KnowbookUser.id (OrganizationSignupResponse.admin_user result)) /\
      get payload "knowbook_organization_id" =
        JsStr (KnowbookOrganization.id (OrganizationSignupResponse.organization result)).
Proof.
  intros evs. subst evs. unfold signup, auth_signUp. step_M.
  destruct (provider_signUp env (signup_data input baseUrl)) as [[u e] | x] eqn:Hr; step_M;
    [| observe; split; [cbn; lia | intros ? ? []]].
  destruct e; [destruct u; observe; (split; [cbn; lia | intros ? ? []]) |].
  destruct u as [user |]; step_M; [| observe; split; [cbn; lia | intros ? ? []]].
  destruct (backend env (health_request (knowbookApi env))) as [hr | text] eqn:Hh.
  2: { rewrite (isKnowbookApiAvailable_rejects _ _ _ Hh). observe.
       split; [cbn; lia | intros ? ? []]. }
  rewrite (isKnowbookApiAvailable_resolves _ _ _ Hh). step_M.
  destruct (Response.ok hr); [| observe; split; [cbn; lia | intros ? ? []]].
  next_call. destruct out as [result | err]; step_M.
  2: { destruct (is_KnowbookApiError err); observe; (split; [cbn; lia | intros ? ? []]). }
  destruct (KnowbookUser.api_key (OrganizationSignupResponse.admin_user result))
    as [k |] eqn:Hk; [destruct (String.eqb_spec k EmptyString) as [-> | Hne] |]; step_M.
  1, 3: observe; split; [cbn; lia | intros ? ? []].
  match goal with
  | Hout : exists r, _ |- _ => destruct Hout as (created & Hc & Hcok & Hcj)
  end.
  next_call. observe. split; [cbn; lia |].
  intros userId payload Hin. pick Hin. injection Hin as <- <-.
  pose proof (knowbook_metadata_get k
                (Some (KnowbookUser.id (OrganizationSignupResponse.admin_user result)))
                (Some (KnowbookOrganization.id
                         (OrganizationSignupResponse.organization result)))
                (clock env (ticks st)) (clock env (S (ticks st))))
    as (Hkey & Huid & Hoid & _).
  exists {| SignUpResult.user := Some user; SignUpResult.error := None |},
    user, created, result, k.
  repeat split; auto.
Qed.

(** ** The connect endpoint, further *)

(** Run the endpoint up to the health check, for a signed-in account
    without a key, a parsed body and a non-empty email. *)
Ltac post_start Hin Hkey Hj Hemail Hne :=
  unfold POST, request_json; step_M;
  rewrite (auth_getUser_signed_in _ _ _ Hin); step_M;
  rewrite Hkey, Hj; step_M;
  rewrite Hemail, (proj2 (String.eqb_neq _ _) Hne); step_M.

(** X17: without a signed-in account the endpoint answers 401
    "Unauthorized" when the session call answers (with an error, without a
    user, or with an unknown id), and 500 "Internal server error" when the
    session call throws an ordinary error. Either way it has called neither
    the backend nor the update API, and the user table is untouched. *)
Theorem POST_unauthorized (request : NextRequest.t) (env : Env) (st : St) :
  (forall user, ~ signed_in env st user) ->
  let run := POST request env st in
  let evs := events_after st run.2 in
  (forall s, provider_session env = Return s ->
     run.1 = Return {| NextResponse.body := ErrorBody "Unauthorized";
                       NextResponse.status := 401 |}) /\
  (forall e, provider_session env = Throw e -> is_KnowbookApiError e = false ->
     run.1 = Return {| NextResponse.body := ErrorBody "Internal server error";
                       NextResponse.status := 500 |}) /\
  backend_calls evs = [] /\ metadata_writes evs = [] /\ users run.2 = users st.
Proof.
  intros Hout run evs. subst evs run. unfold POST. step_M.
  destruct (provider_session env) as [[uid error] | e] eqn:Hs.
  - rewrite (auth_getUser_returns _ _ _ Hs). cbn [Session.user_id Session.error]. step_M.
    destruct error as [message |]; [observe; repeat split; auto; discriminate |].
    destruct uid as [userId |]; [| observe; repeat split; auto; discriminate].
    destruct (users st !! userId) as [user |] eqn:Hu;
      [| observe; repeat split; auto; discriminate].
    exfalso. apply (Hout user).
    exists {| Session.user_id := Some userId; Session.error := None |}, userId. auto.
  - rewrite (auth_getUser_throws _ _ _ Hs). step_M.
    destruct e; observe; repeat split; auto; try discriminate;
      intros e' [= <-]; cbn; auto; discriminate.
Qed.

(** X18: for a signed-in account without a key, a body that is not JSON
    gives 500 "Internal server error", even when the account has no email;
    with a parsed body, an account without email (undefined or empty)
    gives 400 "User email is required". In both cases the backend is not
    called and nothing is written. *)
Theorem POST_rejects_before_backend (request : NextRequest.t) (env : Env) (st : St)
    (user : User.t) :
  signed_in env st user ->
  truthy (get (User.user_metadata user) "knowbook_api_key") = false ->
  NextRequest.json request = None \/ provided (User.email user) = None ->
  let run := POST request env st in
  let evs := events_after st run.2 in
  run.1 =
    Return (match NextRequest.json request with
            | None =>
              {| NextResponse.body := ErrorBody "Internal server error";
                 NextResponse.status := 500 |}
            | Some _ =>
              {| NextResponse.body := ErrorBody "User email is required";
                 NextResponse.status := 400 |}
            end) /\
  backend_calls evs = [] /\ metadata_writes evs = [] /\ users run.2 = users st.
Proof.
  intros Hin Hkey Hbad run evs. subst evs run.
  unfold POST, request_json. step_M.
  rewrite (auth_getUser_signed_in _ _ _ Hin). step_M. rewrite Hkey.
  destruct (NextRequest.json request) as [body |]; step_M; [| observe; repeat split; auto].
  destruct Hbad as [[=] | Hemail].
  destruct (User.email user) as [email |]; [| observe; repeat split; auto].
  cbn in Hemail. destruct (String.eqb email EmptyString); [observe; repeat split; auto | discriminate].
Qed.

(** X19: when the health check gives [false], the endpoint answers 503
    after that one call: the organization call is not made and nothing is
    written. *)
Theorem POST_unavailable (request : NextRequest.t) (env : Env) (st : St)
    (user : User.t) (body : ConnectBody.t) (email : string) :
  signed_in env st user ->
  truthy (get (User.user_metadata user) "knowbook_api_key") = false ->
  NextRequest.json request = Some body ->
  User.email user = Some email -> email <> EmptyString ->
  (exists s, (isKnowbookApiAvailable env s).1 = Return false) ->
  let run := POST request env st in
  let evs := events_after st run.2 in
  run.1 =
    Return {| NextResponse.body :=
                ErrorBody "Knowbook API is currently unavailable. Please try again later.";
              NextResponse.status := 503 |} /\
  backend_calls evs = [health_request (knowbookApi env)] /\
  metadata_writes evs = [] /\ users run.2 = users st.
Proof.
  intros Hin Hkey Hj Hemail Hne Hdown run evs. subst evs run.
  post_start Hin Hkey Hj Hemail Hne.
  destruct (backend env (health_request (knowbookApi env))) as [hr | text] eqn:Hh.
  - rewrite (isKnowbookApiAvailable_resolves _ _ _ Hh). step_M.
    rewrite (isKnowbookApiAvailable_false env Hdown hr Hh). observe. repeat split; auto.
  - rewrite (isKnowbookApiAvailable_rejects _ _ _ Hh). observe. repeat split; auto.
Qed.

(** X20: an error of the organization call is passed on. When the backend
    answers the call with a status outside 200-299 and a body other than
    [null], the endpoint answers with the client's message, the server's
    detail (none when the body is not JSON) and that status code in the
    body, under the same HTTP status when it lies in 400-599 and under 500
    otherwise (a 3xx, say). When the body of that answer is [null], or when
    the call cannot be made at all, it answers 500 with the network error.
    Nothing is written. *)
Theorem POST_passes_backend_error (request : NextRequest.t) (env : Env) (st : St)
    (user : User.t) (body : ConnectBody.t) (email : string) (health : Response.t) :
  signed_in env st user ->
  truthy (get (User.user_metadata user) "knowbook_api_key") = false ->
  NextRequest.json request = Some body ->
  User.email user = Some email -> email <> EmptyString ->
  backend env (health_request (knowbookApi env)) = Resolves health ->
  Response.ok health = true ->
  let run := POST request env st in
  let evs := events_after st run.2 in
  (forall created,
     backend env (connect_organization_request env body email) = Resolves created ->
     Response.ok created = false ->
     match Response.json_error created with
     | JsonObject e =>
       exists message,
         run.1 =
         Return {| NextResponse.body :=
                     ApiErrorBody message (ApiError.detail e) (Response.status created);
                   NextResponse.status :=
                     if (400 <=? Response.status created) && (Response.status created <? 600)
                     then Response.status created else 500 |}
     | NotJson =>
       run.1 =
       Return {| NextResponse.body :=
                   ApiErrorBody "Failed to create organization" None
                     (Response.status created);
                 NextResponse.status :=
                   if (400 <=? Response.status created) && (Response.status created <? 600)
                   then Response.status created else 500 |}
     | JsonNull =>
       exists details,
         run.1 =
         Return {| NextResponse.body :=
                     ApiErrorBody "Network error connecting to Knowbook API"
                       (Some details) 500;
                   NextResponse.status := 500 |}
     end) /\
  (forall text,
     backend env (connect_organization_request env body email) = Rejects text ->
     run.1 =
     Return {| NextResponse.body :=
                 ApiErrorBody "Network error connecting to Knowbook API" (Some text) 500;
               NextResponse.status := 500 |}) /\
  (~ (exists created,
        backend env (connect_organization_request env body email) = Resolves created /\
        Response.ok created = true /\ is_Some (Response.json_result created)) ->
   metadata_writes evs = [] /\ users run.2 = users st).
Proof.
  intros Hin Hkey Hj Hemail Hne Hh Hhok run evs. subst evs run.
  post_start Hin Hkey Hj Hemail Hne.
  rewrite (isKnowbookApiAvailable_resolves _ _ _ Hh). step_M. rewrite Hhok. step_M.
  destruct (backend env (connect_organization_request env body email))
    as [created | text] eqn:Hc; unfold connect_organization_request in Hc.
  - destruct (Response.ok created) eqn:Hcok.
    + destruct (Response.json_result created) as [result |] eqn:Hcj.
      * split; [intros ? Heq Hok'; inversion Heq; subst; congruence |]. split; [discriminate |].
        intros Hno. exfalso. apply Hno. exists created. eauto.
      * rewrite (createKnowbookOrganization_not_json _ _ _ _ _ _ _ _ Hc Hcok Hcj).
        observe. split; [intros ? Heq Hok'; inversion Heq; subst; congruence |]. split; [discriminate |]. auto.
    + match goal with
      | |- context [createKnowbookOrganization _ _ _ _ _ env ?s] =>
        pose proof (createKnowbookOrganization_not_ok env s _ _ _ _ _ _ Hc Hcok) as Hrun
      end.
      assert (Hsame : forall created', Resolves created = Resolves created' ->
                                       created' = created)
        by (intros ? Heq; inversion Heq; reflexivity).
      destruct (Response.json_error created) as [| | e] eqn:Hbody;
        [| destruct Hrun as [details Hrun] | destruct Hrun as [message Hrun]];
        rewrite Hrun; observe; (split; [| split; [discriminate | auto]]);
        intros ? Heq _; rewrite (Hsame _ Heq), Hbody;
        first [reflexivity | eexists; reflexivity].
  - rewrite (createKnowbookOrganization_rejects _ _ _ _ _ _ _ _ Hc). observe.
    split; [discriminate |]. split; [| auto]. intros ? Heq; inversion Heq; subst. reflexivity.
Qed.

(** X21: when the organization has been created and its key returned, but
    storing the key fails (the provider answers with an error, or throws),
    the endpoint answers 500 "Failed to store API key in user profile".
    The organization call has been made and is not undone, and the user
    table is as before: the account still has no key. *)
Theorem POST_store_failure (request : NextRequest.t) (env : Env) (st : St)
    (user : User.t) (body : ConnectBody.t) (email : string)
    (health created : Response.t) (result : OrganizationSignupResponse.t) (key : string) :
  signed_in env st user ->
  truthy (get (User.user_metadata user) "knowbook_api_key") = false ->
  NextRequest.json request = Some body ->
  User.email user = Some email -> email <> EmptyString ->
  backend env (health_request (knowbookApi env)) = Resolves health ->
  Response.ok health = true ->
  backend env (connect_organization_request env body email) = Resolves created ->
  Response.ok created = true ->
  Response.json_result created = Some result ->
  KnowbookUser.api_key (OrganizationSignupResponse.admin_user result) = Some key ->
  key <> EmptyString ->
  provider_updateUserById env (User.id user) <> None ->
  let run := POST request env st in
  let evs := events_after st run.2 in
  run.1 = Return {| NextResponse.body := ErrorBody "Failed to store API key in user profile";
                    NextResponse.status := 500 |} /\
  backend_calls evs =
    [health_request (knowbookApi env); connect_organization_request env body email] /\
  users run.2 = users st.
Proof.
  intros Hin Hkey Hj Hemail Hne Hh Hhok Hc Hcok Hcj Hk Hkne Hf run evs. subst evs run.
  post_start Hin Hkey Hj Hemail Hne.
  rewrite (isKnowbookApiAvailable_resolves _ _ _ Hh). step_M. rewrite Hhok. step_M.
  unfold connect_organization_request in *.
  rewrite (createKnowbookOrganization_ok _ _ _ _ _ _ _ _ _ Hc Hcok Hcj). step_M.
  rewrite Hk, (proj2 (String.eqb_neq _ _) Hkne). step_M.
  destruct (provider_updateUserById env (User.id user)) as [[message | e] |] eqn:Hfault;
    [| | congruence].
  - rewrite (storeKnowbookApiKey_error _ _ _ _ _ _ message Hfault). observe.
    repeat split; auto.
  - rewrite (storeKnowbookApiKey_throws _ _ _ _ _ _ e Hfault). observe.
    repeat split; auto.
Qed.

(** The run of the endpoint on which everything works. *)
Lemma POST_connected_run (request : NextRequest.t) (env : Env) (st : St)
    (user : User.t) (body : ConnectBody.t) (email : string)
    (health created : Response.t) (result : OrganizationSignupResponse.t) (key : string) :
  signed_in env st user ->
  users st !! User.id user = Some user ->
  truthy (get (User.user_metadata user) "knowbook_api_key") = false ->
  NextRequest.json request = Some body ->
  User.email user = Some email -> email <> EmptyString ->
  backend env (health_request (knowbookApi env)) = Resolves health ->
  Response.ok health = true ->
  backend env (connect_organization_request env body email) = Resolves created ->
  Response.ok created = true ->
  Response.json_result created = Some result ->
  KnowbookUser.api_key (OrganizationSignupResponse.admin_user result) = Some key ->
  key <> EmptyString ->
  provider_updateUserById env (User.id user) = None ->
  let admin := OrganizationSignupResponse.admin_user result in
  let organization := OrganizationSignupResponse.organization result in
  let metadata :=
    knowbook_metadata key (Some (KnowbookUser.id admin))
      (Some (KnowbookOrganization.id organization))
      (clock env (ticks st)) (clock env (S (ticks st))) in
  POST request env st =
  (Return {| NextResponse.body :=
               SuccessBody true
                 {| OrganizationSummary.id := KnowbookOrganization.id organization;
                    OrganizationSummary.name := KnowbookOrganization.name organization;
                    OrganizationSummary.slug := KnowbookOrganization.slug organization;
                    OrganizationSummary.plan := KnowbookOrganization.plan organization |}
                 {| UserSummary.id := KnowbookUser.id admin;
                    UserSummary.name := KnowbookUser.name admin;
                    UserSummary.email := KnowbookUser.email admin |}
                 "Successfully connected to Knowbook!";
             NextResponse.status := 200 |},
   {| users :=
        <[User.id user :=
            {| User.id := User.id user;
               User.email := User.email user;
               User.user_metadata :=
                 apply_update (provider_semantics env) metadata (User.user_metadata user) |}]>
          (users st);
      ticks := S (S (ticks st));
      trace := trace st ++
               [EvGetUser;
                EvFetch (health_request (knowbookApi env));
                EvFetch (connect_organization_request env body email);
                EvAdminUpdateUserById (User.id user) metadata] |}).
Proof.
  intros Hin Hu Hkey Hj Hemail Hne Hh Hhok Hc Hcok Hcj Hk Hkne Hf admin organization metadata.
  subst admin organization metadata.
  post_start Hin Hkey Hj Hemail Hne.
  rewrite (isKnowbookApiAvailable_resolves _ _ _ Hh). step_M. rewrite Hhok. step_M.
  unfold connect_organization_request in *.
  rewrite (createKnowbookOrganization_ok _ _ _ _ _ _ _ _ _ Hc Hcok Hcj). step_M.
  rewrite Hk, (proj2 (String.eqb_neq _ _) Hkne). step_M.
  erewrite storeKnowbookApiKey_written; [| exact Hf | exact Hu].
  step_M. rewrite <- ?app_assoc, ?Hemail. reflexivity.
Qed.

Lemma signed_in_own (env : Env) (st : St) (s : Session.t) (user : User.t) :
  provider_session env = Return s ->
  Session.error s = None ->
  Session.user_id s = Some (User.id user) ->
  users st !! User.id user = Some user ->
  signed_in env st user.
Proof. intros Hs He Hid Hu. exists s, (User.id user). auto. Qed.

(** X22, composition: a connect request on which everything works answers
    200, and from then on the provider holds the returned key and ids for
    the account; any further connect request of that account, whatever its
    body, is refused with 400 and [hasApiKey: true] without a call to the
    backend, and changes no account. *)
Theorem POST_connects_then_refuses (request again : NextRequest.t) (env : Env) (st : St)
    (s : Session.t) (user : User.t) (body : ConnectBody.t) (email : string)
    (health created : Response.t) (result : OrganizationSignupResponse.t) (key : string) :
  provider_session env = Return s ->
  Session.error s = None ->
  Session.user_id s = Some (User.id user) ->
  users st !! User.id user = Some user ->
  truthy (get (User.user_metadata user) "knowbook_api_key") = false ->
  NextRequest.json request = Some body ->
  User.email user = Some email -> email <> EmptyString ->
  backend env (health_request (knowbookApi env)) = Resolves health ->
  Response.ok health = true ->
  backend env (connect_organization_request env body email) = Resolves created ->
  Response.ok created = true ->
  Response.json_result created = Some result ->
  KnowbookUser.api_key (OrganizationSignupResponse.admin_user result) = Some key ->
  key <> EmptyString ->
  provider_updateUserById env (User.id user) = None ->
  let first := POST request env st in
  let second := POST again env first.2 in
  (exists response, first.1 = Return response /\ NextResponse.status response = 200) /\
  (exists stored,
     users first.2 !! User.id user = Some stored /\
     get (User.user_metadata stored) "knowbook_api_key" = JsStr key /\
     get (User.user_metadata stored) "knowbook_user_id" =
       JsStr (KnowbookUser.id (OrganizationSignupResponse.admin_user result)) /\
     get (User.user_metadata stored) "knowbook_organization_id" =
       JsStr (KnowbookOrganization.id (OrganizationSignupResponse.organization result))) /\
  second.1 = Return {| NextResponse.body :=
                         HasApiKeyBody "User already has a Knowbook API key" true;
                       NextResponse.status := 400 |} /\
  backend_calls (events_after first.2 second.2) = [] /\
  users second.2 = users first.2.
Proof.
  intros Hs He Hid Hu Hkey Hj Hemail Hne Hh Hhok Hc Hcok Hcj Hk Hkne Hf first second.
  subst second first.
  rewrite (POST_connected_run request env st user body email health created result key
             (signed_in_own _ _ _ _ Hs He Hid Hu) Hu Hkey Hj Hemail Hne Hh Hhok Hc Hcok Hcj
             Hk Hkne Hf).
  cbn [fst snd users]. split; [eexists; split; reflexivity |].
  pose proof (knowbook_metadata_get key
                (Some (KnowbookUser.id (OrganizationSignupResponse.admin_user result)))
                (Some (KnowbookOrganization.id
                         (OrganizationSignupResponse.organization result)))
                (clock env (ticks st)) (clock env (S (ticks st))))
    as (Hkey' & Huid & Hoid & _).
  split.
  { eexists. rewrite lookup_insert_eq. split; [reflexivity |]. cbn [User.user_metadata].
    repeat split; apply get_apply_update_defined; assumption. }
  unfold POST. step_M. rewrite (auth_getUser_returns _ _ _ Hs), He, Hid.
  cbn [users]. rewrite lookup_insert_eq. step_M. cbn [User.user_metadata].
  rewrite (get_apply_update_defined _ _ _ _ _ Hkey'). cbn [truthy].
  rewrite (proj2 (String.eqb_neq _ _) Hkne). cbn [negb].
  unfold events_after. cbn [snd fst trace users]. rewrite drop_app_length.
  repeat split; reflexivity.
Qed.

(** X23: the status endpoint never throws and changes nothing. It answers
    401 without a signed-in account (when the session call answers), and
    for a signed-in account 200 with [connected] true exactly when the
    account's key is truthy, and with the ids and stamps of the account
    exactly when connected ([metadata] is null otherwise). It calls neither
    the backend nor the update API: [connected] says that a key is stored,
    not that it is valid. *)
Theorem GET_status (env : Env) (st : St) :
  let run := GET env st in
  let evs := events_after st run.2 in
  (exists response, run.1 = Return response) /\
  backend_calls evs = [] /\ metadata_writes evs = [] /\ users run.2 = users st /\
  (forall user, signed_in env st user ->
     let metadata := User.user_metadata user in
     run.1 =
     Return {| StatusResponse.body :=
                 if truthy (get metadata "knowbook_api_key") then
                   StatusConnection true
                     (Some {| ConnectionMetadata.knowbook_user_id :=
                                get metadata "knowbook_user_id";
                              ConnectionMetadata.knowbook_organization_id :=
                                get metadata "knowbook_organization_id";
                              ConnectionMetadata.api_key_created_at :=
                                get metadata "api_key_created_at";
                              ConnectionMetadata.api_key_last_validated :=
                                get metadata "api_key_last_validated" |})
                 else StatusConnection false None;
               StatusResponse.status := 200 |}) /\
  ((forall user, ~ signed_in env st user) ->
   forall s, provider_session env = Return s ->
     run.1 = Return {| StatusResponse.body := StatusError "Unauthorized";
                       StatusResponse.status := 401 |}).
Proof.
  intros run evs. subst evs run. unfold GET. step_M.
  destruct (provider_session env) as [[uid error] | e] eqn:Hs.
  - rewrite (auth_getUser_returns _ _ _ Hs). cbn [Session.user_id Session.error]. step_M.
    assert (Hin : forall user,
              signed_in env st user ->
              error = None /\ exists userId, uid = Some userId /\ users st !! userId = Some user).
    { intros user (s & userId & Hs' & He & Hid & Hu). rewrite Hs in Hs'.
      injection Hs' as <-. cbn in He, Hid. eauto. }
    destruct error as [message |].
    { observe. split; [eauto |]. do 3 (split; [reflexivity |]). split; [| auto].
      intros user Huser. destruct (Hin user Huser) as [[=] _]. }
    destruct uid as [userId |]; [destruct (users st !! userId) as [u |] eqn:Hu |]; observe.
    + split; [eauto |]. do 3 (split; [reflexivity |]). split.
      * intros user Huser. destruct (Hin user Huser) as (_ & userId' & [= <-] & Hu').
        rewrite Hu in Hu'. injection Hu' as <-. cbv zeta.
        destruct (truthy (get (User.user_metadata u) "knowbook_api_key")); reflexivity.
      * intros Hout. exfalso. apply (Hout u).
        exists {| Session.user_id := Some userId; Session.error := None |}, userId. auto.
    + split; [eauto |]. do 3 (split; [reflexivity |]). split; [| auto].
      intros user Huser. destruct (Hin user Huser) as (_ & userId' & [= <-] & Hu').
      congruence.
    + split; [eauto |]. do 3 (split; [reflexivity |]). split; [| auto].
      intros user Huser. destruct (Hin user Huser) as (_ & userId' & [=] & _).
  - rewrite (auth_getUser_throws _ _ _ Hs). observe.
    split; [eauto |]. do 3 (split; [reflexivity |]). split; [| intros _ ? [=]].
    intros user (s & userId & Hs' & _). congruence.
Qed.

(** X24, round trip: after a connect request on which everything works,
    the status endpoint reports the account as connected, with the admin
    user id and the organization id that the backend returned and the two
    stamps taken when the key was stored; the key itself is not part of
    the answer. *)
Theorem POST_then_GET (request : NextRequest.t) (env : Env) (st : St)
    (s : Session.t) (user : User.t) (body : ConnectBody.t) (email : string)
    (health created : Response.t) (result : OrganizationSignupResponse.t) (key : string) :
  provider_session env = Return s ->
  Session.error s = None ->
  Session.user_id s = Some (User.id user) ->
  users st !! User.id user = Some user ->
  truthy (get (User.user_metadata user) "knowbook_api_key") = false ->
  NextRequest.json request = Some body ->
  User.email user = Some email -> email <> EmptyString ->
  backend env (health_request (knowbookApi env)) = Resolves health ->
  Response.ok health = true ->
  backend env (connect_organization_request env body email) = Resolves created ->
  Response.ok created = true ->
  Response.json_result created = Some result ->
  KnowbookUser.api_key (OrganizationSignupResponse.admin_user result) = Some key ->
  key <> EmptyString ->
  provider_updateUserById env (User.id user) = None ->
  (GET env (POST request env st).2).1 =
  Return {| StatusResponse.body :=
              StatusConnection true
                (Some {| ConnectionMetadata.knowbook_user_id :=
                           JsStr (KnowbookUser.id
                                    (OrganizationSignupResponse.admin_user result));
                         ConnectionMetadata.knowbook_organization_id :=
                           JsStr (KnowbookOrganization.id
                                    (OrganizationSignupResponse.organization result));
                         ConnectionMetadata.api_key_created_at :=
                           JsStr (toISOString (clock env (ticks st)));
                         ConnectionMetadata.api_key_last_validated :=
                           JsStr (toISOString (clock env (S (ticks st)))) |});
            StatusResponse.status := 200 |}.
Proof.
  intros Hs He Hid Hu Hkey Hj Hemail Hne Hh Hhok Hc Hcok Hcj Hk Hkne Hf.
  rewrite (POST_connected_run request env st user body email health created result key
             (signed_in_own _ _ _ _ Hs He Hid Hu) Hu Hkey Hj Hemail Hne Hh Hhok Hc Hcok Hcj
             Hk Hkne Hf).
  cbn [snd].
  pose proof (knowbook_metadata_get key
                (Some (KnowbookUser.id (OrganizationSignupResponse.admin_user result)))
                (Some (KnowbookOrganization.id
                         (OrganizationSignupResponse.organization result)))
                (clock env (ticks st)) (clock env (S (ticks st))))
    as (Hkey' & Huid & Hoid & Hcreated & Hvalidated).
  unfold GET. step_M. rewrite (auth_getUser_returns _ _ _ Hs), He, Hid.
  cbn [users]. rewrite lookup_insert_eq. step_M. cbn [User.user_metadata].
  rewrite (get_apply_update_defined _ _ _ _ _ Hkey'),
    (get_apply_update_defined _ _ _ _ _ Huid), (get_apply_update_defined _ _ _ _ _ Hoid),
    (get_apply_update_defined _ _ _ _ _ Hcreated),
    (get_apply_update_defined _ _ _ _ _ Hvalidated).
  cbn [truthy]. rewrite (proj2 (String.eqb_neq _ _) Hkne). reflexivity.
Qed.

(** Decide the comparisons of the status clamp. *)
Ltac clamp :=
  repeat match goal with
         | |- context [?a <=? ?b] => destruct (Z.leb_spec a b)
         | |- context [?a <? ?b] => destruct (Z.ltb_spec a b)
         end;
  cbn [andb].

(** Close a path of the endpoint that ends in an answer other than 200. *)
Ltac refused :=
  observe; eexists; split; [reflexivity |];
  cbn [NextResponse.status NextResponse.body length];
  split; [right; clamp; lia |];
  split; [split; [clamp; intros Heq; first [discriminate Heq | lia]
                 | intros (? & ? & ? & [=])] |];
  split; lia.

(** Close a path that ends in the 200 answer. *)
Ltac accepted :=
  observe; eexists; split; [reflexivity |];
  cbn [NextResponse.status NextResponse.body length];
  split; [left; reflexivity |];
  split; [split; [intros _; eauto | reflexivity] |];
  split; lia.

(** X25: the connect endpoint always answers: whatever the request, the
    session, the backend and the provider do, it resolves to a response
    and never throws. The HTTP status is 200 or lies in 400-599, and it is
    200 exactly when the body is the success object. A request makes at
    most two calls to the backend and at most one metadata write. *)
Theorem POST_always_answers (request : NextRequest.t) (env : Env) (st : St) :
  let run := POST request env st in
  let evs := events_after st run.2 in
  exists response,
    run.1 = Return response /\
    (NextResponse.status response = 200 \/ 400 <= NextResponse.status response < 600) /\
    (NextResponse.status response = 200 <->
     exists organization user message,
       NextResponse.body response = SuccessBody true organization user message) /\
    (length (backend_calls evs) <= 2)%nat /\
    (length (metadata_writes evs) <= 1)%nat.
Proof.
  intros run evs. subst evs run. unfold POST, request_json. step_M.
  destruct (provider_session env) as [[uid error] | e] eqn:Hs.
  2: { rewrite (auth_getUser_throws _ _ _ Hs). step_M. destruct e; refused. }
  rewrite (auth_getUser_returns _ _ _ Hs). cbn [Session.user_id Session.error]. step_M.
  destruct error; [refused |].
  destruct uid as [userId |]; [| refused].
  destruct (users st !! userId) as [user |]; [| refused].
  destruct (truthy (get (User.user_metadata user) "knowbook_api_key")); [refused |].
  destruct (NextRequest.json request) as [body |]; step_M; [| refused].
  destruct (User.email user) as [email |]; [| refused].
  destruct (String.eqb email EmptyString); [refused |].
  destruct (backend env (health_request (knowbookApi env))) as [hr | text] eqn:Hh.
  2: { rewrite (isKnowbookApiAvailable_rejects _ _ _ Hh). refused. }
  rewrite (isKnowbookApiAvailable_resolves _ _ _ Hh). step_M.
  destruct (Response.ok hr); cbn [negb]; [| refused].
  next_call. destruct out as [result | err]; step_M.
  - destruct (KnowbookUser.api_key (OrganizationSignupResponse.admin_user result))
      as [k |]; [destruct (String.eqb k EmptyString) |]; step_M.
    + accepted.
    + next_call. destruct (StoreResult.success res); cbn [negb]; [accepted | refused].
    + accepted.
  - destruct err; refused.
Qed.

(** X26: what the connect endpoint sends and writes. Every call with a
    body that it makes to the backend is the organization call for the
    signed-in account: the plan is always "free" (the request body cannot
    choose it), the admin type "human", the admin email the account's
    email, the domain the part of that email after its first ['@'], the
    admin name the fullName of the body when provided and the local part
    of the email otherwise. Every metadata write is for the signed-in
    account and holds the non-empty key and the ids that the backend
    returned to that call. *)
Theorem POST_request_and_write (request : NextRequest.t) (env : Env) (st : St) :
  let evs := events_after st (POST request env st).2 in
  (forall req sent,
     In req (backend_calls evs) -> Request.body req = Some sent ->
     exists user body email,
       signed_in env st user /\ NextRequest.json request = Some body /\
       User.email user = Some email /\
       req = connect_organization_request env body email /\
       SignupBody.plan sent = "free" /\
       SignupBody.admin_type sent = "human" /\
       SignupBody.admin_email sent = email /\
       SignupBody.domain sent = split_at_1 email /\
       SignupBody.admin_name sent =
         default (split_at_0 email) (provided (ConnectBody.fullName body))) /\
  (forall userId payload,
     In (userId, payload) (metadata_writes evs) ->
     exists user body email created result key,
       signed_in env st user /\ userId = User.id user /\
       NextRequest.json request = Some body /\ User.email user = Some email /\
       backend env (connect_organization_request env body email) = Resolves created /\
       Response.ok created = true /\
       Response.json_result created = Some result /\
       KnowbookUser.api_key (OrganizationSignupResponse.admin_user result) = Some key /\
       key <> EmptyString /\
       get payload "knowbook_api_key" = JsStr key /\
       get payload "knowbook_user_id" =
         JsStr (KnowbookUser.id (OrganizationSignupResponse.admin_user result)) /\
       get payload "knowbook_organization_id" =
         JsStr (KnowbookOrganization.id (OrganizationSignupResponse.organization result))).
Proof.
  intros evs. subst evs.
  unfold POST, request_json. step_M.
  destruct (provider_session env) as [[uid error] | e] eqn:Hs.
  2: { rewrite (auth_getUser_throws _ _ _ Hs). step_M.
       destruct e; trace_done; (split; [intros ? ? [] | intros ? ? []]). }
  rewrite (auth_getUser_returns _ _ _ Hs). cbn [Session.user_id Session.error]. step_M.
  destruct error; [trace_done; split; [intros ? ? [] | intros ? ? []] |].
  destruct uid as [userId |]; [| trace_done; split; [intros ? ? [] | intros ? ? []]].
  destruct (users st !! userId) as [user |] eqn:Hu;
    [| trace_done; split; [intros ? ? [] | intros ? ? []]].
  assert (Hin : signed_in env st user).
  { exists {| Session.user_id := Some userId; Session.error := None |}, userId. auto. }
  destruct (truthy (get (User.user_metadata user) "knowbook_api_key"));
    [trace_done; split; [intros ? ? [] | intros ? ? []] |].
  destruct (NextRequest.json request) as [body |] eqn:Hj; step_M;
    [| trace_done; split; [intros ? ? [] | intros ? ? []]].
  destruct (User.email user) as [email |] eqn:Hemail;
    [| trace_done; split; [intros ? ? [] | intros ? ? []]].
  destruct (String.eqb email EmptyString);
    [trace_done; split; [intros ? ? [] | intros ? ? []] |].
  destruct (backend env (health_request (knowbookApi env))) as [hr | text] eqn:Hh.
  2: { rewrite (isKnowbookApiAvailable_rejects _ _ _ Hh). observe.
       split; [| intros ? ? []].
       intros req sent Hreq Hb. pick Hreq. subst req. discriminate Hb. }
  rewrite (isKnowbookApiAvailable_resolves _ _ _ Hh). step_M.
  destruct (Response.ok hr); cbn [negb].
  2: { observe. split; [| intros ? ? []].
       intros req sent Hreq Hb. pick Hreq. subst req. discriminate Hb. }
  assert (Hsent : forall req sent,
            In req [health_request (knowbookApi env);
                    connect_organization_request env body email] ->
            Request.body req = Some sent ->
            exists user0 body0 email0,
              signed_in env st user0 /\ Some body = Some body0 /\
              User.email user0 = Some email0 /\
              req = connect_organization_request env body0 email0 /\
              SignupBody.plan sent = "free" /\
              SignupBody.admin_type sent = "human" /\
              SignupBody.admin_email sent = email0 /\
              SignupBody.domain sent = split_at_1 email0 /\
              SignupBody.admin_name sent =
                default (split_at_0 email0) (provided (ConnectBody.fullName body0))).
  { intros req sent Hreq Hb. pick Hreq; subst req; [discriminate Hb |].
    cbn in Hb. injection Hb as <-.
    exists user, body, email. do 4 (split; [reflexivity || assumption |]).
    cbn [SignupBody.plan SignupBody.admin_type SignupBody.admin_email SignupBody.domain
         SignupBody.admin_name].
    rewrite or_else_provided. repeat split; reflexivity. }
  next_call. destruct out as [result | err]; step_M.
  2: { destruct err; observe; (split; [exact Hsent | intros ? ? []]). }
  match goal with
  | Hout : exists r, _ |- _ => destruct Hout as (created & Hc & Hcok & Hcj)
  end.
  destruct (KnowbookUser.api_key (OrganizationSignupResponse.admin_user result))
    as [k |] eqn:Hk; [destruct (String.eqb_spec k EmptyString) as [-> | Hne] |]; step_M.
  1, 3: observe; (split; [exact Hsent | intros ? ? []]).
  next_call.
  assert (Hwrite : forall userId0 payload,
            In (userId0, payload)
              [(User.id user,
                knowbook_metadata k
                  (Some (KnowbookUser.id (OrganizationSignupResponse.admin_user result)))
                  (Some (KnowbookOrganization.id
                           (OrganizationSignupResponse.organization result)))
                  (clock env (ticks st)) (clock env (S (ticks st))))] ->
            exists user0 body0 email0 created0 result0 key,
              signed_in env st user0 /\ userId0 = User.id user0 /\
              Some body = Some body0 /\ User.email user0 = Some email0 /\
              backend env (connect_organization_request env body0 email0)
                = Resolves created0 /\
              Response.ok created0 = true /\
              Response.json_result created0 = Some result0 /\
              KnowbookUser.api_key (OrganizationSignupResponse.admin_user result0)
                = Some key /\
              key <> EmptyString /\
              get payload "knowbook_api_key" = JsStr key /\
              get payload "knowbook_user_id" =
                JsStr (KnowbookUser.id (OrganizationSignupResponse.admin_user result0)) /\
              get payload "knowbook_organization_id" =
                JsStr (KnowbookOrganization.id
                         (OrganizationSignupResponse.organization result0))).
  { intros userId0 payload Hw. pick Hw. injection Hw as <- <-.
    pose proof (knowbook_metadata_get k
                  (Some (KnowbookUser.id (OrganizationSignupResponse.admin_user result)))
                  (Some (KnowbookOrganization.id
                           (OrganizationSignupResponse.organization result)))
                  (clock env (ticks st)) (clock env (S (ticks st))))
      as (Hkey' & Huid & Hoid & _).
    exists user, body, email, created, result, k. repeat split; auto. }
  destruct (StoreResult.success res); cbn [negb]; observe; (split; [exact Hsent | exact Hwrite]).
Qed.

(** ** The connection-status hook *)

Ltac step_H :=
  cbv beta iota zeta delta
    [hook_bind hook_ret hook_try await setState current_state];
  step_M.

Lemma getKnowbookMetadata_signed_in (env : Env) (st : St) (account : User.t) :
  signed_in env st account ->
  ClientUserMetadata.getKnowbookMetadata env st =
  (Return (Some (knowbook_fields (User.user_metadata account))),
   add_events [EvGetUser] st).
Proof.
  intros Hin. unfold ClientUserMetadata.getKnowbookMetadata. step_M.
  rewrite (auth_getUser_signed_in _ _ _ Hin). finish_run.
Qed.

Lemma validateKnowbookApiKey_run (env : Env) (st : St) (key : string) :
  exists logs,
    validateKnowbookApiKey key env st =
    (Return (match backend env (me_request (knowbookApi env) key) with
             | Resolves r => Response.ok r
             | Rejects _ => false
             end),
     add_events (EvFetch (me_request (knowbookApi env) key) :: logs) st) /\
    backend_calls logs = [] /\ metadata_writes logs = [].
Proof.
  unfold validateKnowbookApiKey, validateApiKey. step_M.
  destruct (backend env (me_request (knowbookApi env) key)); step_M;
    eexists; rewrite <- ?app_assoc; (split; [reflexivity | auto]).
Qed.

Lemma shouldRefreshApiKey_call_run (m : KnowbookUserMetadata.t) (env : Env) (st : St) :
  exists n,
    shouldRefreshApiKey_call m env st =
    (Return (shouldRefreshApiKey (clock env (ticks st)) m),
     {| users := users st; ticks := n; trace := trace st |}).
Proof.
  unfold shouldRefreshApiKey_call, shouldRefreshApiKey, truthy_str.
  destruct (KnowbookUserMetadata.api_key_last_validated m) as [text |]; cbn [of_opt truthy].
  - destruct (String.eqb text EmptyString); step_M.
    + exists (ticks st). destruct st; reflexivity.
    + eexists; reflexivity.
  - step_M. exists (ticks st). destruct st; reflexivity.
Qed.

Lemma knowbook_fields_api_key (metadata : gmap string JsVal) :
  KnowbookUserMetadata.knowbook_api_key (knowbook_fields metadata) =
  as_string (get metadata "knowbook_api_key").
Proof. reflexivity. Qed.

(** X27: loading the status of an account that is signed in and has a
    non-empty key. The hook ends with that key and the account's fields in
    its state and not loading. When the record is not stale at the reading
    of the clock, the key counts as validated at once and the backend is
    not called; when it is stale, the backend is asked exactly once, with
    that key, and the state is validated exactly when the answer is a
    success status, with the error "Invalid Knowbook API key" otherwise.
    Access is granted, and the message is "Successfully connected to
    Knowbook", exactly when the state is validated. *)
Theorem loadKnowbookMetadata_with_key (user account : User.t) (h : KnowbookAuthState.t)
    (env : Env) (st : St) (key : string) :
  signed_in env st account ->
  get (User.user_metadata account) "knowbook_api_key" = JsStr key ->
  key <> EmptyString ->
  let fields := knowbook_fields (User.user_metadata account) in
  let stale := shouldRefreshApiKey (clock env (ticks st)) fields in
  let valid :=
    match backend env (me_request (knowbookApi env) key) with
    | Resolves r => Response.ok r
    | Rejects _ => false
    end in
  let run := loadKnowbookMetadata (Some user) h env st in
  let h' := run.1.2 in
  let evs := events_after st run.2 in
  run.1.1 = Return tt /\
  KnowbookAuthState.apiKey h' = Some key /\
  KnowbookAuthState.metadata h' = Some fields /\
  KnowbookAuthState.isLoading h' = false /\
  backend_calls evs = (if stale then [me_request (knowbookApi env) key] else []) /\
  metadata_writes evs = [] /\
  KnowbookAuthState.isValidated h' = (if stale then valid else true) /\
  KnowbookAuthState.error h' =
    (if stale && negb valid then Some "Invalid Knowbook API key" else None) /\
  useHasKnowbookAccess h' = KnowbookAuthState.isValidated h' /\
  getStatusMessage h' =
    (if KnowbookAuthState.isValidated h' then "Successfully connected to Knowbook"
     else "Invalid Knowbook API key").
Proof.
  intros Hin Hkey Hne fields stale valid run h' evs. subst evs h' run valid stale fields.
  unfold loadKnowbookMetadata. step_H.
  rewrite (getKnowbookMetadata_signed_in _ _ _ Hin). step_H.
  rewrite knowbook_fields_api_key, Hkey. cbn [as_string].
  rewrite (proj2 (String.eqb_neq _ _) Hne).
  match goal with
  | |- context [shouldRefreshApiKey_call ?m env ?s] =>
    destruct (shouldRefreshApiKey_call_run m env s) as [n ->]
  end.
  step_H.
  destruct (shouldRefreshApiKey (clock env (ticks st))
              (knowbook_fields (User.user_metadata account))) eqn:Hstale; step_H.
  - unfold validateApiKeyInternal. step_H.
    match goal with
    | |- context [validateKnowbookApiKey key env ?s] =>
      destruct (validateKnowbookApiKey_run env s key) as (logs & -> & Hcalls & Hwrites)
    end.
    step_H. observe.
    cbn [KnowbookAuthState.apiKey KnowbookAuthState.metadata KnowbookAuthState.isLoading
         KnowbookAuthState.isValidated KnowbookAuthState.error].
    unfold useHasKnowbookAccess, getStatusMessage, truthy_str.
    cbn [KnowbookAuthState.apiKey KnowbookAuthState.isLoading KnowbookAuthState.isValidated
         KnowbookAuthState.error of_opt truthy].
    rewrite (proj2 (String.eqb_neq _ _) Hne).
    destruct (match backend env (me_request (knowbookApi env) key) with
              | Resolves r => Response.ok r
              | Rejects _ => false
              end); repeat split; reflexivity.
  - observe.
    cbn [KnowbookAuthState.apiKey KnowbookAuthState.metadata KnowbookAuthState.isLoading
         KnowbookAuthState.isValidated KnowbookAuthState.error].
    unfold useHasKnowbookAccess, getStatusMessage, truthy_str.
    cbn [KnowbookAuthState.apiKey KnowbookAuthState.isLoading KnowbookAuthState.isValidated
         KnowbookAuthState.error of_opt truthy].
    rewrite (proj2 (String.eqb_neq _ _) Hne).
    repeat split; reflexivity.
Qed.

(** Whatever the session is: the read resolves to the fields of a signed-in
    account or to nothing, after the session call and nothing else. *)
Lemma getKnowbookMetadata_run (env : Env) (st : St) :
  exists fields logs,
    ClientUserMetadata.getKnowbookMetadata env st =
    (Return fields, add_events (EvGetUser :: logs) st) /\
    backend_calls logs = [] /\ metadata_writes logs = [] /\
    (fields = None \/
     exists account,
       signed_in env st account /\
       fields = Some (knowbook_fields (User.user_metadata account))).
Proof.
  unfold ClientUserMetadata.getKnowbookMetadata. step_M.
  destruct (provider_session env) as [[uid error] | e] eqn:Hs.
  - rewrite (auth_getUser_returns _ _ _ Hs). cbn [Session.user_id Session.error]. step_M.
    destruct error as [message |]; step_M.
    { do 2 eexists. rewrite <- ?app_assoc. split; [reflexivity | auto]. }
    destruct uid as [userId |]; [destruct (users st !! userId) as [u |] eqn:Hu |]; step_M;
      do 2 eexists; rewrite <- ?app_assoc; (split; [reflexivity |]); auto.
    do 2 (split; [reflexivity |]). right. exists u. split; [| reflexivity].
    exists {| Session.user_id := Some userId; Session.error := None |}, userId. auto.
  - rewrite (auth_getUser_throws _ _ _ Hs). step_M.
    do 2 eexists. rewrite <- ?app_assoc. split; [reflexivity | auto].
Qed.

(** X28: loading never throws and never leaves the hook loading; it makes
    at most one call to the backend, writes nothing and leaves the user
    table alone. Without a user in the user context it clears the state
    without any call at all. With one, when no signed-in account has a
    non-empty key, it ends without key, with the error "No Knowbook API key
    found. Please contact support." as its message, without calling the
    backend, and leaves [isValidated] as it was. *)
Theorem loadKnowbookMetadata_settles (user : option User.t) (h : KnowbookAuthState.t)
    (env : Env) (st : St) :
  let run := loadKnowbookMetadata user h env st in
  let h' := run.1.2 in
  let evs := events_after st run.2 in
  run.1.1 = Return tt /\
  KnowbookAuthState.isLoading h' = false /\
  (length (backend_calls evs) <= 1)%nat /\
  metadata_writes evs = [] /\
  users run.2 = users st /\
  (user = None ->
   run.2 = st /\
   h' = {| KnowbookAuthState.apiKey := None;
           KnowbookAuthState.isLoading := false;
           KnowbookAuthState.isValidated := false;
           KnowbookAuthState.metadata := None;
           KnowbookAuthState.error := None |}) /\
  (is_Some user ->
   (forall account,
      signed_in env st account ->
      provided (as_string (get (User.user_metadata account) "knowbook_api_key")) = None) ->
   KnowbookAuthState.apiKey h' = None /\
   KnowbookAuthState.isValidated h' = KnowbookAuthState.isValidated h /\
   backend_calls evs = [] /\
   getStatusMessage h' = "No Knowbook API key found. Please contact support.").
Proof.
  intros run h' evs. subst evs h' run.
  destruct user as [user |].
  2: { unfold loadKnowbookMetadata. step_H. unfold events_after. rewrite drop_all.
       split_and!; auto. intros [? [=]]. }
  unfold loadKnowbookMetadata. step_H.
  destruct (getKnowbookMetadata_run env st)
    as (fields & logs & -> & Hcalls & Hwrites & Hfields).
  step_H.
  destruct fields as [m |]; step_H.
  2: { observe. cbn [length KnowbookAuthState.isLoading KnowbookAuthState.apiKey
                     KnowbookAuthState.isValidated].
       split_and!; auto; try discriminate. }
  destruct (KnowbookUserMetadata.knowbook_api_key m) as [key |] eqn:Hk; step_H.
  2: { observe. cbn [length KnowbookAuthState.isLoading KnowbookAuthState.apiKey
                     KnowbookAuthState.isValidated].
       split_and!; auto; try discriminate. }
  destruct (String.eqb_spec key EmptyString) as [-> | Hne]; step_H.
  { observe. cbn [length KnowbookAuthState.isLoading KnowbookAuthState.apiKey
                  KnowbookAuthState.isValidated].
    split_and!; auto; try discriminate. }
  assert (Hhas : ~ forall account,
              signed_in env st account ->
              provided (as_string (get (User.user_metadata account) "knowbook_api_key"))
                = None).
  { intros Hall. destruct Hfields as [[=] | (account & Hin & [= ->])].
    specialize (Hall account Hin). rewrite knowbook_fields_api_key in Hk.
    rewrite Hk in Hall. cbn in Hall.
    apply String.eqb_neq in Hne. rewrite Hne in Hall. discriminate. }
  match goal with
  | |- context [shouldRefreshApiKey_call ?m env ?s] =>
    destruct (shouldRefreshApiKey_call_run m env s) as [n ->]
  end.
  step_H.
  destruct (shouldRefreshApiKey _ m); step_H.
  - unfold validateApiKeyInternal. step_H.
    match goal with
    | |- context [validateKnowbookApiKey key env ?s] =>
      destruct (validateKnowbookApiKey_run env s key) as (logs' & -> & Hcalls' & Hwrites')
    end.
    step_H. observe. cbn [length KnowbookAuthState.isLoading].
    split_and!; auto; try discriminate. intros _ Hall. exfalso. auto.
  - observe. cbn [length KnowbookAuthState.isLoading].
    split_and!; auto; try discriminate. intros _ Hall. exfalso. auto.
Qed.

(** X29: what an auth event does to the hook. No event calls the backend,
    writes metadata, or changes [isLoading] or [error]. A sign-out clears
    key and fields and revokes access. A sign-in whose session user has a
    non-empty key takes that key and counts it as validated exactly when
    the record is not stale, without asking the backend (unlike loading);
    a sign-in whose session user has no such key clears the state like a
    sign-out. Any other event, a token refresh or a user update say, and a
    sign-in without a session user, leave the state as it is. *)
Theorem auth_event_updates (event : string) (session_user : option User.t)
    (h : KnowbookAuthState.t) (env : Env) (st : St) :
  let run := auth_event event session_user h env st in
  let h' := run.1.2 in
  let cleared :=
    KnowbookAuthState.apiKey h' = None /\ KnowbookAuthState.metadata h' = None /\
    KnowbookAuthState.isValidated h' = false /\ useHasKnowbookAccess h' = false in
  run.1.1 = Return tt /\
  trace run.2 = trace st /\ users run.2 = users st /\
  KnowbookAuthState.isLoading h' = KnowbookAuthState.isLoading h /\
  KnowbookAuthState.error h' = KnowbookAuthState.error h /\
  (event = "SIGNED_OUT" -> cleared) /\
  (event = "SIGNED_IN" ->
   forall user,
     session_user = Some user ->
     match provided (as_string (get (User.user_metadata user) "knowbook_api_key")) with
     | Some key =>
       KnowbookAuthState.apiKey h' = Some key /\
       KnowbookAuthState.metadata h' = Some (knowbook_fields (User.user_metadata user)) /\
       KnowbookAuthState.isValidated h' =
         negb (shouldRefreshApiKey (clock env (ticks st))
                 (knowbook_fields (User.user_metadata user)))
     | None => cleared
     end) /\
  (event <> "SIGNED_OUT" -> (event <> "SIGNED_IN" \/ session_user = None) -> h' = h).
Proof.
  intros run h' cleared. subst cleared h' run.
  unfold auth_event, ClientUserMetadata.onAuthStateChange_listener.
  destruct (String.eqb_spec event "SIGNED_IN") as [-> | Hin].
  - destruct session_user as [user |]; cbn [String.eqb Ascii.eqb Bool.eqb].
    + unfold onAuthStateChange_callback. rewrite knowbook_fields_api_key.
      destruct (as_string (get (User.user_metadata user) "knowbook_api_key"))
        as [key |] eqn:Hkey;
        [destruct (String.eqb_spec key EmptyString) as [-> | Hne] |]; step_H.
      * split_and!; auto; try discriminate.
        -- intros _ u [= <-]. rewrite Hkey. cbn. auto.
        -- intros _ [? | [=]]; congruence.
      * destruct (shouldRefreshApiKey_call_run
                    (knowbook_fields (User.user_metadata user)) env st) as [n ->].
        step_H. split_and!; auto; try discriminate.
        -- intros _ u [= <-]. rewrite Hkey. cbn [provided].
           rewrite (proj2 (String.eqb_neq _ _) Hne). auto.
        -- intros _ [? | [=]]; congruence.
      * split_and!; auto; try discriminate.
        -- intros _ u [= <-]. rewrite Hkey. cbn. auto.
        -- intros _ [? | [=]]; congruence.
    + step_H. split_and!; auto; try discriminate.
  - destruct (String.eqb_spec event "SIGNED_OUT") as [-> | Hout].
    + cbn [String.eqb Ascii.eqb Bool.eqb]. unfold onAuthStateChange_callback. step_H.
      split_and!; auto; try discriminate; congruence.
    + step_H.
      split_and!; auto; try discriminate; try congruence.
Qed.

(** X30: the hook's own [validateApiKey]. Without a non-empty key in the
    state it answers [false] and does nothing. With one it never throws and
    asks the backend exactly once, with that key; it answers whether the
    status was a success, records that answer as [isValidated], with the
    error "Invalid Knowbook API key" exactly when it is negative, and leaves
    key, fields and [isLoading] alone, so that [useKnowbookApiKey] then
    gives the key exactly when the answer was positive. *)
Theorem hook_validateApiKey_asks (h : KnowbookAuthState.t) (env : Env) (st : St) :
  let run := hook_validateApiKey h env st in
  let h' := run.1.2 in
  let evs := events_after st run.2 in
  match provided (KnowbookAuthState.apiKey h) with
  | None => run = (Return false, h, st)
  | Some key =>
    let valid :=
      match backend env (me_request (knowbookApi env) key) with
      | Resolves r => Response.ok r
      | Rejects _ => false
      end in
    run.1.1 = Return valid /\
    backend_calls evs = [me_request (knowbookApi env) key] /\
    metadata_writes evs = [] /\
    users run.2 = users st /\
    KnowbookAuthState.isValidated h' = valid /\
    KnowbookAuthState.error h' = (if valid then None else Some "Invalid Knowbook API key") /\
    KnowbookAuthState.apiKey h' = KnowbookAuthState.apiKey h /\
    KnowbookAuthState.metadata h' = KnowbookAuthState.metadata h /\
    KnowbookAuthState.isLoading h' = KnowbookAuthState.isLoading h /\
    useKnowbookApiKey h' = (if valid then Some key else None)
  end.
Proof.
  intros run h' evs. subst evs h' run.
  unfold hook_validateApiKey. step_H.
  destruct (KnowbookAuthState.apiKey h) as [key |] eqn:Hkey; cbn [provided]; [| reflexivity].
  destruct (String.eqb_spec key EmptyString) as [-> | Hne]; [reflexivity |].
  cbv zeta. unfold validateApiKeyInternal. step_H.
  destruct (validateKnowbookApiKey_run env st key) as (logs & -> & Hcalls & Hwrites).
  step_H. observe. unfold useKnowbookApiKey.
  cbn [KnowbookAuthState.apiKey KnowbookAuthState.metadata KnowbookAuthState.isLoading
       KnowbookAuthState.isValidated KnowbookAuthState.error].
  rewrite Hkey.
  destruct (match backend env (me_request (knowbookApi env) key) with
            | Resolves r => Response.ok r
            | Rejects _ => false
            end); split_and!; auto.
Qed.

End Properties.

(** * The properties on the concrete world *)

(** Against a backend that refuses the signup with status 400, the client
    throws the typed error with that status and the server's detail. *)
Lemma createOrganizationWithAdmin_throws_witness :
  exists message,
    (createOrganizationWithAdmin (knowbookApi (world backend_refusing))
       {| OrganizationSignupRequest.name := "Test Organization";
          OrganizationSignupRequest.domain := None;
          OrganizationSignupRequest.plan := None;
          OrganizationSignupRequest.admin_name := "Test User";
          OrganizationSignupRequest.admin_email := "existing@example.com";
          OrganizationSignupRequest.admin_type := None |}
       (world backend_refusing) no_accounts).1 =
    Throw (KnowbookApiError message 400 (Some "User with this email already registered")).
Proof.
  refine (proj1 (createOrganizationWithAdmin_throws _ _ (world backend_refusing) no_accounts)
            _ eq_refl eq_refl).
Defined.

(** A record validated on 2024-01-01 at midnight is stale one day and one
    second later, and not yet one second before the day is over. *)
Lemma shouldRefreshApiKey_staleness_witness :
  shouldRefreshApiKey (H := IsoDate) 1704153601000 new_year_record = true /\
  shouldRefreshApiKey (H := IsoDate) 1704153599000 new_year_record = false.
Proof.
  split.
  - refine (proj1 (proj2 (shouldRefreshApiKey_staleness (H := IsoDate)
                            1704153601000 new_year_record))
              "2024-01-01T00:00:00.000Z" eq_refl _ _).
    + discriminate.
    + vm_compute. reflexivity.
  - refine (proj2 (proj2 (shouldRefreshApiKey_staleness (H := IsoDate)
                            1704153599000 new_year_record))
              "2024-01-01T00:00:00.000Z" eq_refl _ _).
    + discriminate.
    + vm_compute. reflexivity.
Defined.

(** A key stored for the account of johndoe is not stale a day later. *)
Lemma storeKnowbookApiKey_total_and_stamped_witness :
  exists payload,
    metadata_writes
      (events_after (one_account johndoe)
         (storeKnowbookApiKey (H := IsoDate) "user-1" "kb_test_key_123"
            (Some "user-123") (Some "org-123")
            (world backend_down) (one_account johndoe)).2) = [("user-1", payload)] /\
    shouldRefreshApiKey (H := IsoDate) (1704067200001 + 24 * 60 * 60 * 1000)
      (knowbook_fields payload) = false.
Proof.
  destruct (storeKnowbookApiKey_total_and_stamped (H := IsoDate) "user-1" "kb_test_key_123"
              (Some "user-123") (Some "org-123") (world backend_down) (one_account johndoe))
    as [_ (payload & Hw & _ & _ & Hfresh)].
  exists payload. split; [exact Hw |]. apply Hfresh.
  - vm_compute. discriminate.
  - vm_compute. reflexivity.
  - vm_compute. discriminate.
Defined.

(** Storing a key for johndoe writes an object without his [full_name]. *)
Lemma storeKnowbookApiKey_payload_fields_witness :
  exists payload,
    metadata_writes
      (events_after (one_account johndoe)
         (storeKnowbookApiKey (H := IsoDate) "user-1" "kb_test_key_123"
            (Some "user-123") (Some "org-123")
            (world backend_down) (one_account johndoe)).2) = [("user-1", payload)] /\
    payload !! "full_name" = None.
Proof.
  destruct (storeKnowbookApiKey_payload_fields (H := IsoDate) "user-1" "kb_test_key_123"
              (Some "user-123") (Some "org-123") (world backend_down) (one_account johndoe))
    as (payload & Hw & _ & Hframe).
  exists payload. split; [exact Hw |].
  apply (Hframe johndoe "full_name").
  - reflexivity.
  - apply elem_of_dom. exists (JsStr "johndoe"). reflexivity.
  - vm_compute. intros Hin. discriminate Hin.
Defined.

(** Touching the validation stamp of johndoe keeps his [full_name]. *)
Lemma updateApiKeyValidation_frame_witness :
  exists user',
    users (updateApiKeyValidation (H := IsoDate) "user-1"
             (world backend_down) (one_account johndoe)).2 !! "user-1" = Some user' /\
    get (User.user_metadata user') "api_key_last_validated" =
      JsStr "2024-01-01T00:00:00.000Z" /\
    get (User.user_metadata user') "full_name" = JsStr "johndoe".
Proof.
  destruct (updateApiKeyValidation_frame (H := IsoDate) "user-1"
              (world backend_down) (one_account johndoe))
    as (_ & _ & Hwritten & _).
  destruct (Hwritten johndoe eq_refl eq_refl eq_refl)
    as (_ & user' & Hlookup & _ & _ & Hstamp & Hframe).
  exists user'. split; [exact Hlookup |]. split; [exact Hstamp |].
  rewrite (Hframe "full_name"); [reflexivity | discriminate].
Defined.

(** Signing up while the backend is down still ends on the confirmation
    page, and writes no metadata. *)
Lemma signup_two_tier_witness :
  (signup (H := IsoDate) johndoe_input "https://canvas.test"
     (world backend_down) no_accounts).1 =
  Throw (NextRedirect "/auth/signup/success") /\
  metadata_writes
    (events_after no_accounts
       (signup (H := IsoDate) johndoe_input "https://canvas.test"
          (world backend_down) no_accounts).2) = [].
Proof.
  destruct (signup_two_tier (H := IsoDate) johndoe_input "https://canvas.test"
              (world backend_down) no_accounts _ eq_refl) as [_ Hcreated].
  destruct (Hcreated eq_refl) as [Hredirect Hnothing].
  split; [exact Hredirect |]. apply Hnothing.
  exists no_accounts. reflexivity.
Defined.

(** An account that has a key is refused without any call to the backend. *)
Lemma POST_refuses_second_key_witness :
  (POST (H := IsoDate) empty_request
     (world (backend_up (test_result (Some "kb_test_key_123"))))
     (one_account johndoe_connected)).1 =
  Return {| NextResponse.body := HasApiKeyBody "User already has a Knowbook API key" true;
            NextResponse.status := 400 |} /\
  backend_calls
    (events_after (one_account johndoe_connected)
       (POST (H := IsoDate) empty_request
          (world (backend_up (test_result (Some "kb_test_key_123"))))
          (one_account johndoe_connected)).2) = [].
Proof.
  destruct (POST_refuses_second_key (H := IsoDate) empty_request
              (world (backend_up (test_result (Some "kb_test_key_123"))))
              (one_account johndoe_connected) _ "user-1" johndoe_connected
              eq_refl eq_refl eq_refl eq_refl eq_refl)
    as (Hresponse & Hcalls & _ & _).
  split; [exact Hresponse | exact Hcalls].
Defined.

(** When the backend creates the organization but returns no key, the
    endpoint answers 200 and nothing is written for johndoe. *)
Lemma POST_ok_without_api_key_witness :
  (POST (H := IsoDate) empty_request (world (backend_up (test_result None)))
     (one_account johndoe)).1 =
  Return {| NextResponse.body :=
              SuccessBody true
                {| OrganizationSummary.id := "org-123";
                   OrganizationSummary.name := "Test Organization";
                   OrganizationSummary.slug := "test-organization";
                   OrganizationSummary.plan := "free" |}
                {| UserSummary.id := "user-123";
                   UserSummary.name := "Test User";
                   UserSummary.email := "johndoe@example.com" |}
                "Successfully connected to Knowbook!";
            NextResponse.status := 200 |} /\
  metadata_writes
    (events_after (one_account johndoe)
       (POST (H := IsoDate) empty_request (world (backend_up (test_result None)))
          (one_account johndoe)).2) = [].
Proof.
  destruct (POST_ok_without_api_key (H := IsoDate) empty_request
              (world (backend_up (test_result None))) (one_account johndoe)
              _ "user-1" johndoe _ "johndoe@example.com" _ _ (test_result None)
              eq_refl eq_refl eq_refl eq_refl eq_refl eq_refl eq_refl
              ltac:(discriminate) eq_refl eq_refl eq_refl eq_refl eq_refl eq_refl)
    as (Hresponse & Hnothing & _).
  split; [exact Hresponse | exact Hnothing].
Defined.

(** Signing up as johndoe@example.com with no other field sends the name
    "johndoe". *)
Lemma organization_name_sent_witness :
  In "johndoe"
    (names_sent
       (events_after no_accounts
          (signup (H := IsoDate) johndoe_input "https://canvas.test"
             (world (backend_up (test_result (Some "kb_test_key_123")))) no_accounts).2)) /\
  "johndoe" = spec_organization_name None None "johndoe@example.com".
Proof.
  assert (Hin : In "johndoe"
            (names_sent
               (events_after no_accounts
                  (signup (H := IsoDate) johndoe_input "https://canvas.test"
                     (world (backend_up (test_result (Some "kb_test_key_123"))))
                     no_accounts).2))).
  { vm_compute. left. reflexivity. }
  split; [exact Hin |].
  exact (proj1 (organization_name_sent (H := IsoDate)) _ _ _ _ _ Hin).
Defined.

(** C1 as stated fails on the connect endpoint: for johndoe@example.com and
    an empty body it sends "example.com Workspace", not the local part
    "johndoe". *)
Lemma POST_name_counterexample :
  exists name,
    names_sent
      (events_after (one_account johndoe)
         (POST (H := IsoDate) empty_request
            (world (backend_up (test_result (Some "kb_test_key_123"))))
            (one_account johndoe)).2) = [name] /\
    name = "example.com Workspace" /\
    name <> spec_organization_name None None "johndoe@example.com".
Proof.
  exists "example.com Workspace". split; [vm_compute; reflexivity |].
  split; [reflexivity |]. vm_compute. discriminate.
Qed.

(** ** The further properties on the concrete world *)

Lemma johndoe_signed_in (b : Request.t -> FetchOutcome) :
  signed_in (world b) (one_account johndoe) johndoe.
Proof.
  exists {| Session.user_id := Some "user-1"; Session.error := None |}, "user-1".
  repeat split.
Qed.

Lemma johndoe_connected_signed_in (b : Request.t -> FetchOutcome) :
  signed_in (world b) (one_account johndoe_connected) johndoe_connected.
Proof.
  exists {| Session.user_id := Some "user-1"; Session.error := None |}, "user-1".
  repeat split.
Qed.

Lemma nobody_signed_in (b : Request.t -> FetchOutcome) (user : User.t) :
  ~ signed_in (world b) no_accounts user.
Proof.
  intros (s & userId & _ & _ & _ & Hu). unfold no_accounts in Hu. cbn [users] in Hu.
  rewrite lookup_empty in Hu. discriminate.
Qed.

(** Against a backend that answers 200 with a body, the client returns
    that body. *)
Lemma createOrganizationWithAdmin_success_witness :
  createOrganizationWithAdmin (knowbookApi (world (backend_up (test_result None))))
    test_signup (world (backend_up (test_result None))) no_accounts =
  (Return (test_result None),
   add_events
     [EvFetch (signup_request (knowbookApi (world (backend_up (test_result None))))
                 test_signup)] no_accounts).
Proof.
  exact (createOrganizationWithAdmin_success
           (knowbookApi (world (backend_up (test_result None)))) test_signup
           (world (backend_up (test_result None))) no_accounts _ eq_refl eq_refl).
Defined.

(** Against a backend that refuses with "Email already exists", that text
    is the message of the error; against one that refuses with the body
    [null], the error has status 500. *)
Lemma createOrganizationWithAdmin_failure_message_witness :
  (createOrganizationWithAdmin (knowbookApi (world backend_refusing)) test_signup
     (world backend_refusing) no_accounts).1 =
  Throw (KnowbookApiError "Email already exists" 400
           (Some "User with this email already registered")) /\
  exists details,
    (createOrganizationWithAdmin (knowbookApi (world backend_refusing_null)) test_signup
       (world backend_refusing_null) no_accounts).1 =
    Throw (KnowbookApiError "Network error connecting to Knowbook API" 500 (Some details)).
Proof.
  split.
  - exact (f_equal fst
             (createOrganizationWithAdmin_failure_message
                (knowbookApi (world backend_refusing)) test_signup
                (world backend_refusing) no_accounts _ eq_refl eq_refl)).
  - destruct (createOrganizationWithAdmin_failure_message
                (knowbookApi (world backend_refusing_null)) test_signup
                (world backend_refusing_null) no_accounts _ eq_refl eq_refl)
      as [details Hrun].
    exists details. exact (f_equal fst Hrun).
Defined.

(** Reading the key of the connected johndoe gives his key and logs
    nothing. *)
Lemma getKnowbookApiKey_reads_witness :
  (getKnowbookApiKey "user-1" (world backend_down) (one_account johndoe_connected)).1 =
  Return (JsStr "kb_test_key_123").
Proof.
  destruct (getKnowbookApiKey_reads "user-1" (world backend_down)
              (one_account johndoe_connected)) as (v & Hrun & _ & _ & _ & _ & Hfound & _).
  destruct (Hfound johndoe_connected eq_refl eq_refl) as [Hv _].
  rewrite Hrun, Hv. reflexivity.
Defined.

(** A key stored for johndoe is the key read back. *)
Lemma store_then_getKnowbookApiKey_witness :
  (getKnowbookApiKey "user-1" (world backend_down)
     (storeKnowbookApiKey (H := IsoDate) "user-1" "kb_test_key_123"
        (Some "user-123") (Some "org-123") (world backend_down) (one_account johndoe)).2).1 =
  Return (JsStr "kb_test_key_123").
Proof.
  apply (store_then_getKnowbookApiKey (H := IsoDate) "user-1" "kb_test_key_123"
           (Some "user-123") (Some "org-123") (world backend_down) (one_account johndoe)
           eq_refl eq_refl).
  - exists johndoe. reflexivity.
  - discriminate.
Defined.

(** A key stored for johndoe and then touched is still his key, and the
    validation stamp is the third reading of the clock. *)
Lemma store_then_updateApiKeyValidation_witness :
  exists user,
    users (updateApiKeyValidation (H := IsoDate) "user-1" (world backend_down)
             (storeKnowbookApiKey (H := IsoDate) "user-1" "kb_test_key_123"
                (Some "user-123") (Some "org-123") (world backend_down)
                (one_account johndoe)).2).2 !! "user-1" = Some user /\
    get (User.user_metadata user) "knowbook_api_key" = JsStr "kb_test_key_123" /\
    get (User.user_metadata user) "api_key_last_validated" =
      JsStr "2024-01-01T00:00:00.002Z".
Proof.
  destruct (store_then_updateApiKeyValidation (H := IsoDate) "user-1" "kb_test_key_123"
              "user-123" "org-123" (world backend_down) (one_account johndoe)
              eq_refl eq_refl (ex_intro _ johndoe eq_refl))
    as (user & Hu & Hkey & _ & _ & _ & Hstamp).
  exists user. split; [exact Hu |]. split; [exact Hkey | exact Hstamp].
Defined.

(** After a touch on 2024-01-01, the record of johndoe is not stale an hour
    later. *)
Lemma updateApiKeyValidation_refreshes_witness :
  exists user',
    users (updateApiKeyValidation (H := IsoDate) "user-1" (world backend_down)
             (one_account johndoe_connected)).2 !! "user-1" = Some user' /\
    shouldRefreshApiKey (H := IsoDate) (1704067200000 + 60 * 60 * 1000)
      (knowbook_fields (User.user_metadata user')) = false.
Proof.
  apply (updateApiKeyValidation_refreshes (H := IsoDate) "user-1" (world backend_down)
           (one_account johndoe_connected) johndoe_connected
           (1704067200000 + 60 * 60 * 1000) eq_refl eq_refl eq_refl).
  - vm_compute. discriminate.
  - vm_compute. reflexivity.
  - vm_compute. discriminate.
Defined.

(** Storing a second key for johndoe replaces the first. *)
Lemma storeKnowbookApiKey_overwrites_witness :
  exists user,
    users (storeKnowbookApiKey (H := IsoDate) "user-1" "kb_second_key"
             (Some "user-456") (Some "org-456") (world backend_down)
             (storeKnowbookApiKey (H := IsoDate) "user-1" "kb_test_key_123"
                (Some "user-123") (Some "org-123") (world backend_down)
                (one_account johndoe)).2).2 !! "user-1" = Some user /\
    get (User.user_metadata user) "knowbook_api_key" = JsStr "kb_second_key".
Proof.
  destruct (storeKnowbookApiKey_overwrites (H := IsoDate) "user-1" "kb_test_key_123"
              "kb_second_key" (Some "user-123") (Some "org-123") "user-456" "org-456"
              (world backend_down) (one_account johndoe)
              eq_refl (ex_intro _ johndoe eq_refl))
    as (user & Hu & Hkey & _).
  exists user. split; [exact Hu | exact Hkey].
Defined.

(** Storing a key for johndoe leaves the entry of any other id as it was,
    and keeps his id and email. *)
Lemma storeKnowbookApiKey_frame_witness :
  users (storeKnowbookApiKey (H := IsoDate) "user-1" "kb_test_key_123"
           (Some "user-123") (Some "org-123") (world backend_down)
           (one_account johndoe)).2 !! "user-2" = None /\
  exists user',
    users (storeKnowbookApiKey (H := IsoDate) "user-1" "kb_test_key_123"
             (Some "user-123") (Some "org-123") (world backend_down)
             (one_account johndoe)).2 !! "user-1" = Some user' /\
    User.email user' = Some "johndoe@example.com".
Proof.
  destruct (storeKnowbookApiKey_frame (H := IsoDate) "user-1" "kb_test_key_123"
              (Some "user-123") (Some "org-123") (world backend_down) (one_account johndoe))
    as (_ & _ & Hothers & Hsame & _).
  split.
  - rewrite (Hothers "user-2"); [reflexivity | discriminate].
  - destruct (Hsame johndoe eq_refl) as (user' & Hu & _ & Hemail).
    exists user'. split; [exact Hu | exact Hemail].
Defined.

(** The client-side reads of the connected johndoe give his key and his
    fields. *)
Lemma client_reads_witness :
  (ClientUserMetadata.getKnowbookApiKey (world backend_down)
     (one_account johndoe_connected)).1 = Return (JsStr "kb_test_key_123") /\
  (ClientUserMetadata.hasValidKnowbookApiKey (world backend_down)
     (one_account johndoe_connected)).1 = Return true.
Proof.
  destruct (client_reads (world backend_down) (one_account johndoe_connected))
    as (key & fields & has & Hkey & _ & Hhas & -> & _ & Hin & _).
  destruct (Hin johndoe_connected (johndoe_connected_signed_in backend_down)) as [-> _].
  split; [exact Hkey | exact Hhas].
Defined.

(** Once a key is stored for johndoe, the browser sees that he has one. *)
Lemma store_then_client_reads_witness :
  (ClientUserMetadata.hasValidKnowbookApiKey (world backend_down)
     (storeKnowbookApiKey (H := IsoDate) "user-1" "kb_test_key_123"
        (Some "user-123") (Some "org-123") (world backend_down) (one_account johndoe)).2).1 =
  Return true.
Proof.
  refine (proj2 (store_then_client_reads (H := IsoDate) "user-1" "kb_test_key_123"
                   "user-123" "org-123" (world backend_down) (one_account johndoe) _
                   eq_refl eq_refl eq_refl eq_refl (ex_intro _ johndoe eq_refl) _)).
  discriminate.
Defined.

(** A record validated on 2024-01-01 at midnight is not stale exactly 24
    hours later. *)
Lemma shouldRefreshApiKey_edges_witness :
  shouldRefreshApiKey (H := IsoDate) (1704067200000 + 24 * 60 * 60 * 1000)
    new_year_record = false.
Proof.
  destruct (shouldRefreshApiKey_edges (H := IsoDate) new_year_record
              "2024-01-01T00:00:00.000Z" eq_refl ltac:(discriminate)) as [_ Hparsed].
  exact (proj1 (Hparsed 1704067200000 eq_refl)).
Defined.

(** Signing up as johndoe against a backend that works ends on the
    confirmation page, after the health check and the organization call,
    with the returned key stored for him. *)
Lemma signup_connects_witness :
  (signup (H := IsoDate) johndoe_input "https://canvas.test"
     (world (backend_up (test_result (Some "kb_test_key_123")))) no_accounts).1 =
  Throw (NextRedirect "/auth/signup/success") /\
  exists stored,
    users (signup (H := IsoDate) johndoe_input "https://canvas.test"
             (world (backend_up (test_result (Some "kb_test_key_123"))))
             no_accounts).2 !! "user-1" = Some stored /\
    get (User.user_metadata stored) "knowbook_api_key" = JsStr "kb_test_key_123".
Proof.
  destruct (signup_connects (H := IsoDate) johndoe_input "https://canvas.test"
              (world (backend_up (test_result (Some "kb_test_key_123")))) no_accounts
              _ johndoe _ _ (test_result (Some "kb_test_key_123")) "kb_test_key_123"
              eq_refl eq_refl eq_refl eq_refl eq_refl eq_refl eq_refl eq_refl eq_refl
              ltac:(discriminate) eq_refl)
    as (Hredirect & _ & _ & stored & Hu & Hkey & _).
  split; [exact Hredirect |]. exists stored. split; [exact Hu | exact Hkey].
Defined.

(** The organization call of johndoe's signup carries his address, its
    local part as the admin's name, its domain, and the plan "free". *)
Lemma signup_request_fields_witness :
  exists body,
    Request.body
      (signup_organization_request
         (world (backend_up (test_result (Some "kb_test_key_123")))) johndoe_input) =
    Some body /\
    SignupBody.admin_email body = "johndoe@example.com" /\
    SignupBody.admin_name body = "johndoe" /\
    SignupBody.domain body = Some "example.com" /\
    SignupBody.plan body = "free".
Proof.
  eexists. split; [reflexivity |].
  destruct (signup_request_fields (H := IsoDate) johndoe_input "https://canvas.test"
              (world (backend_up (test_result (Some "kb_test_key_123")))) no_accounts
              (signup_organization_request
                 (world (backend_up (test_result (Some "kb_test_key_123")))) johndoe_input)
              _ ltac:(vm_compute; right; left; reflexivity) eq_refl)
    as (Hemail & Hname & Hdomain & Hplan & _).
  split; [exact Hemail |]. split; [exact Hname |]. split; [exact Hdomain | exact Hplan].
Defined.

Lemma johndoe_signup_write :
  In ("user-1",
      knowbook_metadata (H := IsoDate) "kb_test_key_123" (Some "user-123") (Some "org-123")
        1704067200000 1704067200001)
    (metadata_writes
       (events_after no_accounts
          (signup (H := IsoDate) johndoe_input "https://canvas.test"
             (world (backend_up (test_result (Some "kb_test_key_123"))))
             no_accounts).2)).
Proof. vm_compute. left. reflexivity. Qed.

(** The write that johndoe's signup makes stores the key that the backend
    returned for him. *)
Lemma signup_writes_returned_key_witness :
  exists key,
    KnowbookUser.api_key
      (OrganizationSignupResponse.admin_user (test_result (Some "kb_test_key_123"))) =
    Some key /\
    get (knowbook_metadata (H := IsoDate) "kb_test_key_123" (Some "user-123")
           (Some "org-123") 1704067200000 1704067200001) "knowbook_api_key" = JsStr key.
Proof.
  destruct (proj2 (signup_writes_returned_key (H := IsoDate) johndoe_input
                     "https://canvas.test"
                     (world (backend_up (test_result (Some "kb_test_key_123"))))
                     no_accounts) _ _ johndoe_signup_write)
    as (r & user & created & result & key & _ & _ & _ & _ & Hc & _ & Hj & Hk & _ & Hget & _).
  exists key. split; [| exact Hget].
  injection Hc as <-. injection Hj as <-. exact Hk.
Defined.

(** With a session whose account does not exist, the endpoint answers 401
    and calls nothing. *)
Lemma POST_unauthorized_witness :
  (POST (H := IsoDate) empty_request (world backend_down) no_accounts).1 =
  Return {| NextResponse.body := ErrorBody "Unauthorized"; NextResponse.status := 401 |} /\
  backend_calls
    (events_after no_accounts
       (POST (H := IsoDate) empty_request (world backend_down) no_accounts).2) = [].
Proof.
  destruct (POST_unauthorized (H := IsoDate) empty_request (world backend_down) no_accounts
              (nobody_signed_in backend_down))
    as (Hsession & _ & Hcalls & _).
  split; [exact (Hsession _ eq_refl) | exact Hcalls].
Defined.

(** A request of johndoe whose body is not JSON is answered 500 before any
    call to the backend. *)
Lemma POST_rejects_before_backend_witness :
  (POST (H := IsoDate) not_json_request
     (world (backend_up (test_result (Some "kb_test_key_123")))) (one_account johndoe)).1 =
  Return {| NextResponse.body := ErrorBody "Internal server error";
            NextResponse.status := 500 |} /\
  backend_calls
    (events_after (one_account johndoe)
       (POST (H := IsoDate) not_json_request
          (world (backend_up (test_result (Some "kb_test_key_123"))))
          (one_account johndoe)).2) = [].
Proof.
  destruct (POST_rejects_before_backend (H := IsoDate) not_json_request
              (world (backend_up (test_result (Some "kb_test_key_123"))))
              (one_account johndoe) johndoe
              (johndoe_signed_in _) eq_refl (or_introl eq_refl))
    as (Hresponse & Hcalls & _).
  split; [exact Hresponse | exact Hcalls].
Defined.

(** While the backend is down, johndoe's request is answered 503 after the
    health check alone. *)
Lemma POST_unavailable_witness :
  (POST (H := IsoDate) empty_request (world backend_down) (one_account johndoe)).1 =
  Return {| NextResponse.body :=
              ErrorBody "Knowbook API is currently unavailable. Please try again later.";
            NextResponse.status := 503 |} /\
  backend_calls
    (events_after (one_account johndoe)
       (POST (H := IsoDate) empty_request (world backend_down) (one_account johndoe)).2) =
  [health_request (knowbookApi (world backend_down))].
Proof.
  destruct (POST_unavailable (H := IsoDate) empty_request (world backend_down)
              (one_account johndoe) johndoe _ "johndoe@example.com"
              (johndoe_signed_in _) eq_refl eq_refl eq_refl ltac:(discriminate)
              (ex_intro _ no_accounts eq_refl))
    as (Hresponse & Hcalls & _).
  split; [exact Hresponse | exact Hcalls].
Defined.

(** When the backend refuses the organization with status 400, the endpoint
    answers 400 and writes nothing; when it refuses with the body [null],
    the endpoint answers 500. *)
Lemma POST_passes_backend_error_witness :
  (exists message,
     (POST (H := IsoDate) empty_request (world backend_refusing_signup)
        (one_account johndoe)).1 =
     Return {| NextResponse.body :=
                 ApiErrorBody message (Some "User with this email already registered") 400;
               NextResponse.status := 400 |}) /\
  metadata_writes
    (events_after (one_account johndoe)
       (POST (H := IsoDate) empty_request (world backend_refusing_signup)
          (one_account johndoe)).2) = [] /\
  (exists details,
     (POST (H := IsoDate) empty_request (world backend_null_signup)
        (one_account johndoe)).1 =
     Return {| NextResponse.body :=
                 ApiErrorBody "Network error connecting to Knowbook API" (Some details) 500;
               NextResponse.status := 500 |}).
Proof.
  destruct (POST_passes_backend_error (H := IsoDate) empty_request
              (world backend_refusing_signup) (one_account johndoe) johndoe _
              "johndoe@example.com" _
              (johndoe_signed_in _) eq_refl eq_refl eq_refl ltac:(discriminate)
              eq_refl eq_refl)
    as (Hrefused & _ & Hquiet).
  destruct (POST_passes_backend_error (H := IsoDate) empty_request
              (world backend_null_signup) (one_account johndoe) johndoe _
              "johndoe@example.com" _
              (johndoe_signed_in _) eq_refl eq_refl eq_refl ltac:(discriminate)
              eq_refl eq_refl)
    as (Hnull & _ & _).
  split; [| split].
  - exact (Hrefused _ eq_refl eq_refl).
  - apply Hquiet. intros (created & Hc & Hok & _).
    injection Hc as <-. discriminate Hok.
  - exact (Hnull _ eq_refl eq_refl).
Defined.

(** When the provider refuses the update, the endpoint answers 500 although
    the organization was created, and johndoe's account is unchanged. *)
Lemma POST_store_failure_witness :
  (POST (H := IsoDate) empty_request
     (world_without_updates (backend_up (test_result (Some "kb_test_key_123"))))
     (one_account johndoe)).1 =
  Return {| NextResponse.body := ErrorBody "Failed to store API key in user profile";
            NextResponse.status := 500 |} /\
  users (POST (H := IsoDate) empty_request
           (world_without_updates (backend_up (test_result (Some "kb_test_key_123"))))
           (one_account johndoe)).2 = users (one_account johndoe).
Proof.
  destruct (POST_store_failure (H := IsoDate) empty_request
              (world_without_updates (backend_up (test_result (Some "kb_test_key_123"))))
              (one_account johndoe) johndoe _ "johndoe@example.com" _ _
              (test_result (Some "kb_test_key_123")) "kb_test_key_123"
              (ex_intro _ _ (ex_intro _ "user-1"
                 (conj eq_refl (conj eq_refl (conj eq_refl eq_refl)))))
              eq_refl eq_refl eq_refl ltac:(discriminate) eq_refl eq_refl eq_refl eq_refl
              eq_refl eq_refl ltac:(discriminate) ltac:(discriminate))
    as (Hresponse & _ & Husers).
  split; [exact Hresponse | exact Husers].
Defined.

(** The first connect request of johndoe is answered 200, the second 400. *)
Lemma POST_connects_then_refuses_witness :
  (exists response,
     (POST (H := IsoDate) empty_request
        (world (backend_up (test_result (Some "kb_test_key_123"))))
        (one_account johndoe)).1 = Return response /\
     NextResponse.status response = 200) /\
  (POST (H := IsoDate) empty_request
     (world (backend_up (test_result (Some "kb_test_key_123"))))
     (POST (H := IsoDate) empty_request
        (world (backend_up (test_result (Some "kb_test_key_123"))))
        (one_account johndoe)).2).1 =
  Return {| NextResponse.body := HasApiKeyBody "User already has a Knowbook API key" true;
            NextResponse.status := 400 |}.
Proof.
  destruct (POST_connects_then_refuses (H := IsoDate) empty_request empty_request
              (world (backend_up (test_result (Some "kb_test_key_123"))))
              (one_account johndoe) _ johndoe _ "johndoe@example.com" _ _
              (test_result (Some "kb_test_key_123")) "kb_test_key_123"
              eq_refl eq_refl eq_refl eq_refl eq_refl eq_refl eq_refl ltac:(discriminate)
              eq_refl eq_refl eq_refl eq_refl eq_refl eq_refl ltac:(discriminate) eq_refl)
    as (Hfirst & _ & Hsecond & _).
  split; [exact Hfirst | exact Hsecond].
Defined.

(** The status of the connected johndoe is [connected] with status 200. *)
Lemma GET_status_witness :
  exists metadata,
    (GET (world backend_down) (one_account johndoe_connected)).1 =
    Return {| StatusResponse.body := StatusConnection true (Some metadata);
              StatusResponse.status := 200 |}.
Proof.
  destruct (GET_status (world backend_down) (one_account johndoe_connected))
    as (_ & _ & _ & _ & Hin & _).
  eexists. exact (Hin johndoe_connected (johndoe_connected_signed_in backend_down)).
Defined.

(** After johndoe's connect request, the status endpoint shows the ids that
    the backend returned and the two stamps of the store. *)
Lemma POST_then_GET_witness :
  (GET (world (backend_up (test_result (Some "kb_test_key_123"))))
     (POST (H := IsoDate) empty_request
        (world (backend_up (test_result (Some "kb_test_key_123"))))
        (one_account johndoe)).2).1 =
  Return {| StatusResponse.body :=
              StatusConnection true
                (Some {| ConnectionMetadata.knowbook_user_id := JsStr "user-123";
                         ConnectionMetadata.knowbook_organization_id := JsStr "org-123";
                         ConnectionMetadata.api_key_created_at :=
                           JsStr "2024-01-01T00:00:00.000Z";
                         ConnectionMetadata.api_key_last_validated :=
                           JsStr "2024-01-01T00:00:00.001Z" |});
            StatusResponse.status := 200 |}.
Proof.
  exact (POST_then_GET (H := IsoDate) empty_request
           (world (backend_up (test_result (Some "kb_test_key_123"))))
           (one_account johndoe) _ johndoe _ "johndoe@example.com" _ _
           (test_result (Some "kb_test_key_123")) "kb_test_key_123"
           eq_refl eq_refl eq_refl eq_refl eq_refl eq_refl eq_refl ltac:(discriminate)
           eq_refl eq_refl eq_refl eq_refl eq_refl eq_refl ltac:(discriminate) eq_refl).
Defined.

Lemma johndoe_connect_call :
  In (connect_organization_request
        (world (backend_up (test_result (Some "kb_test_key_123"))))
        {| ConnectBody.organizationName := None; ConnectBody.fullName := None |}
        "johndoe@example.com")
    (backend_calls
       (events_after (one_account johndoe)
          (POST (H := IsoDate) empty_request
             (world (backend_up (test_result (Some "kb_test_key_123"))))
             (one_account johndoe)).2)).
Proof. vm_compute. right. left. reflexivity. Qed.

(** The organization call of johndoe's connect request carries the plan
    "free", his address and its domain. *)
Lemma POST_request_and_write_witness :
  exists sent,
    Request.body
      (connect_organization_request
         (world (backend_up (test_result (Some "kb_test_key_123"))))
         {| ConnectBody.organizationName := None; ConnectBody.fullName := None |}
         "johndoe@example.com") = Some sent /\
    SignupBody.plan sent = "free" /\
    SignupBody.admin_type sent = "human".
Proof.
  eexists. split; [reflexivity |].
  destruct (proj1 (POST_request_and_write (H := IsoDate) empty_request
                     (world (backend_up (test_result (Some "kb_test_key_123"))))
                     (one_account johndoe)) _ _ johndoe_connect_call eq_refl)
    as (user & body & email & _ & _ & _ & _ & Hplan & Htype & _).
  split; [exact Hplan | exact Htype].
Defined.

(** Two days after the last validation, loading the status of johndoe asks
    the backend about his key once and, on its success status, grants
    access. *)
Lemma loadKnowbookMetadata_with_key_witness :
  backend_calls
    (events_after (one_account johndoe_validated)
       (loadKnowbookMetadata (H := IsoDate) (Some johndoe_validated) initial_state
          (world_later (backend_up (test_result None)))
          (one_account johndoe_validated)).2) =
  [me_request (knowbookApi (world_later (backend_up (test_result None))))
     "kb_test_key_123"] /\
  useHasKnowbookAccess
    (loadKnowbookMetadata (H := IsoDate) (Some johndoe_validated) initial_state
       (world_later (backend_up (test_result None)))
       (one_account johndoe_validated)).1.2 = true.
Proof.
  destruct (loadKnowbookMetadata_with_key (H := IsoDate) johndoe_validated johndoe_validated
              initial_state (world_later (backend_up (test_result None)))
              (one_account johndoe_validated) "kb_test_key_123"
              (ex_intro _ _ (ex_intro _ "user-1"
                 (conj eq_refl (conj eq_refl (conj eq_refl eq_refl)))))
              eq_refl ltac:(discriminate))
    as (_ & _ & _ & _ & Hcalls & _ & Hvalidated & _ & Haccess & _).
  split; [exact Hcalls |]. rewrite Haccess. exact Hvalidated.
Defined.

(** Without a user in the user context, loading clears the initial state
    and leaves the world as it is. *)
Lemma loadKnowbookMetadata_settles_witness :
  (loadKnowbookMetadata (H := IsoDate) None initial_state (world backend_down)
     no_accounts).2 = no_accounts /\
  KnowbookAuthState.isLoading
    (loadKnowbookMetadata (H := IsoDate) None initial_state (world backend_down)
       no_accounts).1.2 = false.
Proof.
  destruct (loadKnowbookMetadata_settles (H := IsoDate) None initial_state
              (world backend_down) no_accounts)
    as (_ & Hloading & _ & _ & _ & Hnone & _).
  split; [exact (proj1 (Hnone eq_refl)) | exact Hloading].
Defined.

(** A sign-out takes the access away. *)
Lemma auth_event_updates_witness :
  useHasKnowbookAccess
    (auth_event (H := IsoDate) "SIGNED_OUT" None
       {| KnowbookAuthState.apiKey := Some "kb_test_key_123";
          KnowbookAuthState.isLoading := false;
          KnowbookAuthState.isValidated := true;
          KnowbookAuthState.metadata := Some new_year_record;
          KnowbookAuthState.error := None |}
       (world backend_down) no_accounts).1.2 = false.
Proof.
  destruct (auth_event_updates (H := IsoDate) "SIGNED_OUT" None
              {| KnowbookAuthState.apiKey := Some "kb_test_key_123";
                 KnowbookAuthState.isLoading := false;
                 KnowbookAuthState.isValidated := true;
                 KnowbookAuthState.metadata := Some new_year_record;
                 KnowbookAuthState.error := None |}
              (world backend_down) no_accounts)
    as (_ & _ & _ & _ & _ & Hout & _).
  exact (proj2 (proj2 (proj2 (Hout eq_refl)))).
Defined.
